(** * FilterManager: a shallow embedding of the data-grid filter coordination core

    The development follows [filterManager.ts]: the per-column filter wrappers,
    the quick filter, the active filter sets, row-pass evaluation and the bulk
    model import/export.  JavaScript objects live in stores indexed by
    reference, [AgPromise] callbacks are kept as first-order tokens, and every
    method is a computation in a state-and-exception monad. *)

From Stdlib Require Import List String Ascii ZArith Bool Lia Arith PeanoNat.
From Stdlib Require Import Permutation.
From Stdlib Require Import DecimalString.
From Stdlib Require Import PrimFloat SpecFloat FloatOps.
Import ListNotations.

Set Warnings "-register-all".

Local Open Scope string_scope.
Local Open Scope list_scope.

(* ===================================================================== *)
(** ** JavaScript strings *)
(* ===================================================================== *)

(** Strings are sequences of bytes (the UTF-8 form of the JavaScript
    string), which is all that [indexOf], [split(' ')] and [join] need.
    What depends on the letters, [String.prototype.toUpperCase], is a
    function of the host (see [Host]). *)
Module JsString.

(** [startsWith p s]: [p] is a prefix of [s]. *)
Fixpoint startsWith (p s : string) : bool :=
  match p, s with
  | EmptyString, _ => true
  | String _ _, EmptyString => false
  | String a p', String b s' => Ascii.eqb a b && startsWith p' s'
  end.

(** [s.indexOf(p)]: the first position at which [p] occurs, or -1. *)
Fixpoint indexOfFrom (i : Z) (s p : string) : Z :=
  if startsWith p s then i
  else match s with
       | EmptyString => (-1)%Z
       | String _ s' => indexOfFrom (i + 1) s' p
       end.

Definition indexOf (s p : string) : Z := indexOfFrom 0 s p.

(** [s.indexOf(p) >= 0] *)
Definition includes (s p : string) : bool := (0 <=? indexOf s p)%Z.

(** [s.split(sep)] for a separator predicate; with a one-character
    separator this is [String.prototype.split]: empty pieces are kept
    and the empty string splits into one empty piece. *)
Fixpoint splitBy (isSep : ascii -> bool) (s : string) : list string :=
  match s with
  | EmptyString => [EmptyString]
  | String c s' =>
      if isSep c then EmptyString :: splitBy isSep s'
      else match splitBy isSep s' with
           | [] => [String c EmptyString]
           | piece :: rest => String c piece :: rest
           end
  end.

Definition split (sep : ascii) (s : string) : list string :=
  splitBy (Ascii.eqb sep) s.

(** [parts.join(sep)] *)
Fixpoint join (sep : string) (parts : list string) : string :=
  match parts with
  | [] => EmptyString
  | [p] => p
  | p :: rest => p ++ sep ++ join sep rest
  end.

Fixpoint contains_char (c : ascii) (s : string) : bool :=
  match s with
  | EmptyString => false
  | String a s' => Ascii.eqb a c || contains_char c s'
  end.

Definition isEmpty (s : string) : bool :=
  match s with EmptyString => true | _ => false end.

(** Prop-level reading of [includes]: [p] occurs in [s]. *)
Definition occurs (p s : string) : Prop :=
  exists a b : string, s = (a ++ p ++ b)%string.

End JsString.
Import JsString.


(* ===================================================================== *)
(** ** JavaScript values *)
(* ===================================================================== *)

(** Cell values, filter models and option values: the JSON-like part of the
    JavaScript value space.  Objects keep their properties in property
    order. *)
Inductive value : Type :=
| VUndefined
| VNull
| VBool (b : bool)
| VNumber (n : float)
| VString (s : string)
| VArray (items : list value)
| VObject (fields : list (string * value)).

(** Numbers are IEEE 754 doubles.  Two numbers are structurally the same
    when they decode to the same sign, mantissa and exponent. *)
Definition number_eqb (x y : float) : bool :=
  match Prim2SF x, Prim2SF y with
  | S754_zero s, S754_zero s' => Bool.eqb s s'
  | S754_infinity s, S754_infinity s' => Bool.eqb s s'
  | S754_nan, S754_nan => true
  | S754_finite s m e, S754_finite s' m' e' =>
      Bool.eqb s s' && Pos.eqb m m' && Z.eqb e e'
  | _, _ => false
  end.

(** Structural comparison of two values, property by property and item by
    item. *)
Fixpoint value_eqb (a b : value) : bool :=
  match a, b with
  | VUndefined, VUndefined => true
  | VNull, VNull => true
  | VBool x, VBool y => Bool.eqb x y
  | VNumber x, VNumber y => number_eqb x y
  | VString x, VString y => String.eqb x y
  | VArray xs, VArray ys =>
      (fix items_eqb (xs ys : list value) {struct xs} : bool :=
         match xs, ys with
         | [], [] => true
         | x :: xs', y :: ys' => value_eqb x y && items_eqb xs' ys'
         | _, _ => false
         end) xs ys
  | VObject xs, VObject ys =>
      (fix fields_eqb (xs ys : list (string * value)) {struct xs} : bool :=
         match xs, ys with
         | [], [] => true
         | (k, x) :: xs', (k', y) :: ys' =>
             String.eqb k k' && value_eqb x y && fields_eqb xs' ys'
         | _, _ => false
         end) xs ys
  | _, _ => false
  end.

(** Modelled from the spec: [exists] of utils/generic is not among the
    sources.  The spec calls what it rejects "missing values"; the helper's
    contract is [value != null && value !== ''], so [null], [undefined] and
    the empty string are missing (setting the empty text clears the quick
    filter). *)
Definition exists_ (v : value) : bool :=
  match v with
  | VUndefined | VNull => false
  | VString s => negb (isEmpty s)
  | _ => true
  end.

(** Modelled from the spec: [_.jsonEquals] of utils is not among the
    sources; the spec describes it as "structural deep-equality, not
    reference". *)
Definition jsonEquals (a b : value) : bool := value_eqb a b.

(** [typeof value] *)
Definition typeOf (v : value) : string :=
  match v with
  | VUndefined => "undefined"
  | VBool _ => "boolean"
  | VNumber _ => "number"
  | VString _ => "string"
  | VNull | VArray _ | VObject _ => "object"
  end.

(** [obj[key]]: property read; an absent property reads [undefined]. *)
Fixpoint getProperty (fields : list (string * value)) (key : string) : value :=
  match fields with
  | [] => VUndefined
  | (k, v) :: rest => if String.eqb k key then v else getProperty rest key
  end.

(** [Object.keys(obj)] *)
Definition Object_keys (fields : list (string * value)) : list string :=
  nodup string_dec (map fst fields).

(** [obj[key] = v] on an object under construction. *)
Fixpoint setProperty (fields : list (string * value)) (key : string) (v : value)
  : list (string * value) :=
  match fields with
  | [] => [(key, v)]
  | (k, x) :: rest =>
      if String.eqb k key then (k, v) :: rest
      else (k, x) :: setProperty rest key v
  end.

(* ===================================================================== *)
(** ** Entities *)
(* ===================================================================== *)

(** Objects are held in stores and named by reference. *)
Definition ref := nat.

(** [RowNode]: the fields the filter manager reads.  The one field it
    writes, [quickFilterAggregateText], is kept in a store of its own (see
    [World]), so that no getter sees it. *)
Record RowNode := mkRowNode {
  data : value;
  aggData : value
}.

(** [ColDef]: [getQuickFilterText] receives the value and the node; the
    column, its definition, the api and the context of the params object
    are those of the column that carries the callback. *)
Record ColDef := mkColDef {
  colDef_filter : value;
  cellDataType : value;
  getQuickFilterText : option (value -> RowNode -> value)
}.

(** [Column], through the accessors the manager calls: [getColId],
    [getColDef], [isPrimary], [isFilterAllowed], [isValueActive] and the
    flag written by [setFilterActive]. *)
Record Column := mkColumn {
  colId : string;
  colDef : ColDef;
  primary : bool;
  filterAllowed : bool;
  valueActive : bool;
  filterActive : bool
}.

(** What [filter.setModel(model)] hands back: nothing, or a promise that is
    already resolved, or one that the filter resolves later. *)
Inductive SetModelReturn := ReturnsVoid | ReturnsResolved | ReturnsPending.

(** What [filter.getGui()] hands back: a DOM element, or a value that is
    none (a template string, [undefined], [null], ...). *)
Inductive Gui :=
| GuiElement
| GuiValue (v : value).

(** [IFilterComp]: a filter instance is its internal state and the methods
    it implements; [None] is a method the instance lacks. *)
Module IFilter.

Record IFilterComp := mkFilter {
  filterState : value;
  isFilterActive : option (value -> bool);
  doesFilterPass : option (value -> RowNode -> value -> bool);
  getModel : option (value -> value);
  setModel : option (value -> value -> value * SetModelReturn);
  onAnyFilterChanged : option (value -> value);
  onNewRowsLoaded : option (value -> value);
  getGui : option (value -> Gui)
}.

End IFilter.

Abbreviation IFilterComp := IFilter.IFilterComp.
Abbreviation mkFilter := IFilter.mkFilter.

Inductive FilterRequestSource := COLUMN_MENU | TOOLBAR | NO_UI.

Inductive DestroySource := api | columnChanged | gridDestroyed.

(** The callbacks this class hands to [filterPromise.then], as tokens: a
    pending promise keeps them in [waiters] until it resolves. *)
Inductive FilterWaiter :=
| ThenSetModel (newModel : value) (apply : ref)
| ThenAnyFilterChanged (filterInstance : option ref)
| ThenNewRowsLoaded
| ThenPutIntoGui (source : FilterRequestSource)
| ThenDispose (source : DestroySource).

(** The callbacks handed to the promise that [setModel] returned. *)
Inductive ModelWaiter :=
| ThenResolveApply (apply : ref)
| ThenFinishDispose (wrapper : ref) (filter : ref) (source : DestroySource).

(** [AgPromise<IFilterComp>]: [resolution] is the instance once resolved. *)
Record FilterPromise := mkFilterPromise {
  resolution : option ref;
  waiters : list FilterWaiter
}.

(** The promise made by [setModelOnFilterWrapper]; its waiters are the
    [AgPromise.all] promises it was handed to. *)
Record ApplyPromise := mkApplyPromise {
  applyResolved : bool;
  applyWaiters : list ref
}.

(** The promise made by [AgPromise.all]; its waiters are the before-models
    of the comparisons that follow it. *)
Record AllPromise := mkAllPromise {
  remainingToResolve : Z;
  allResolved : bool;
  allWaiters : list (list (string * value))
}.

(** What [compDetails.newAgStackInstance()] does for a filter component. *)
Inductive Instantiation :=
| NoInstance
| InstanceReady (instance : IFilterComp)
| InstancePending.

Record UserCompDetails := mkCompDetails {
  componentClass : string;
  newAgStackInstance : Instantiation
}.

(** [guiPromise]: resolved with [null] at creation, then pending or
    resolved with the filter's element. *)
Inductive GuiPromise := GuiNone | GuiPending | GuiMounted.

Record FilterWrapper := mkFilterWrapper {
  column : ref;
  filterPromise : option FilterPromise;
  guiPromise : GuiPromise;
  compDetails : option UserCompDetails
}.

Inductive GridEvent :=
| EVENT_FILTER_CHANGED (columns : list ref) (additionalEventAttributes : option value)
| EVENT_FILTER_OPENED (column : ref) (source : FilterRequestSource)
| EVENT_FILTER_DESTROYED (source : DestroySource) (column : ref).

(** *** Collaborators *)

Record ColumnModel := mkColumnModel {
  primaryColumns : list ref;
  gridColumns : list ref;
  pivotActive : bool;
  pivotMode : bool;
  allColumnsForQuickFilter : list ref;
  groupAutoColumns : option (list ref)
}.

Inductive RowModelType := clientSide | infinite | serverSide | viewport.

(** The JavaScript host: the built-ins and the DOM helper the manager calls
    and whose code is no part of it.  [String_toUpperCase] is
    [String.prototype.toUpperCase], which maps the empty string, and no
    other, to the empty string; [Object_toString] is [value.toString()] on
    a value that is not a string; [loadTemplate] is the helper of utils/dom
    that turns a template string into the first node it describes ([null],
    here a [GuiValue], when it describes none). *)
Record Host := mkHost {
  String_toUpperCase : string -> string;
  Object_toString : value -> string;
  loadTemplate : string -> Gui;
  toUpperCase_isEmpty : forall s, isEmpty (String_toUpperCase s) = isEmpty s
}.

(** The grid options and services the manager consults.  A callback option
    is [None] when [typeof] of it is not ['function']. *)
Record Grid := mkGrid {
  columnModel : ColumnModel;
  quickFilterText : value;
  rowModelType : RowModelType;
  cacheQuickFilter : bool;
  allowShowChangeAfterFilter_option : bool;
  groupAggFiltering : bool;
  isExternalFilterPresent_callback : option bool;
  doesExternalFilterPass_callback : option (RowNode -> bool);
  valueService_getValue : Column -> RowNode -> value;
  getFilterDetails : ColDef -> string -> option UserCompDetails;
  setFilterModuleRegistered : bool;
  rowModel_nodes : list ref;
  host : Host
}.

(* ===================================================================== *)
(** ** The state of the manager and of the objects it reaches *)
(* ===================================================================== *)

(** The first ten fields are the fields of [FilterManager]; the maps
    [allColumnFilters] and [allColumnListeners] keep insertion order, as a
    JavaScript [Map] does.  Then come the object stores (with the
    [quickFilterAggregateText] field of each row), the allocation counter,
    and what the manager sends out: dispatched events, console
    warnings and the beans it destroyed. *)
Record World := mkWorld {
  allColumnFilters : list (string * ref);
  allColumnListeners : list string;
  activeAggregateFilters : list ref;
  activeColumnFilters : list ref;
  quickFilter : option string;
  quickFilterParts : option (list string);
  processingFilterChange : bool;
  allowShowChangeAfterFilter : bool;
  externalFilterPresent : bool;
  aggFiltering : bool;
  columnObjs : ref -> Column;
  wrapperObjs : ref -> FilterWrapper;
  filterObjs : ref -> IFilterComp;
  rowObjs : ref -> RowNode;
  quickFilterAggregateText : ref -> option string;
  modelPromises : ref -> option ModelWaiter;
  applyPromises : ref -> ApplyPromise;
  allPromises : ref -> AllPromise;
  nextRef : ref;
  events : list GridEvent;
  console : list string;
  destroyedBeans : list ref
}.

Definition set_allColumnFilters (x : list (string * ref)) (w : World) : World :=
  mkWorld x (allColumnListeners w) (activeAggregateFilters w) (activeColumnFilters w) (quickFilter w) (quickFilterParts w) (processingFilterChange w) (allowShowChangeAfterFilter w) (externalFilterPresent w) (aggFiltering w) (columnObjs w) (wrapperObjs w) (filterObjs w) (rowObjs w) (quickFilterAggregateText w) (modelPromises w) (applyPromises w) (allPromises w) (nextRef w) (events w) (console w) (destroyedBeans w).

Definition set_allColumnListeners (x : list string) (w : World) : World :=
  mkWorld (allColumnFilters w) x (activeAggregateFilters w) (activeColumnFilters w) (quickFilter w) (quickFilterParts w) (processingFilterChange w) (allowShowChangeAfterFilter w) (externalFilterPresent w) (aggFiltering w) (columnObjs w) (wrapperObjs w) (filterObjs w) (rowObjs w) (quickFilterAggregateText w) (modelPromises w) (applyPromises w) (allPromises w) (nextRef w) (events w) (console w) (destroyedBeans w).

Definition set_activeAggregateFilters (x : list ref) (w : World) : World :=
  mkWorld (allColumnFilters w) (allColumnListeners w) x (activeColumnFilters w) (quickFilter w) (quickFilterParts w) (processingFilterChange w) (allowShowChangeAfterFilter w) (externalFilterPresent w) (aggFiltering w) (columnObjs w) (wrapperObjs w) (filterObjs w) (rowObjs w) (quickFilterAggregateText w) (modelPromises w) (applyPromises w) (allPromises w) (nextRef w) (events w) (console w) (destroyedBeans w).

Definition set_activeColumnFilters (x : list ref) (w : World) : World :=
  mkWorld (allColumnFilters w) (allColumnListeners w) (activeAggregateFilters w) x (quickFilter w) (quickFilterParts w) (processingFilterChange w) (allowShowChangeAfterFilter w) (externalFilterPresent w) (aggFiltering w) (columnObjs w) (wrapperObjs w) (filterObjs w) (rowObjs w) (quickFilterAggregateText w) (modelPromises w) (applyPromises w) (allPromises w) (nextRef w) (events w) (console w) (destroyedBeans w).

Definition set_quickFilter (x : option string) (w : World) : World :=
  mkWorld (allColumnFilters w) (allColumnListeners w) (activeAggregateFilters w) (activeColumnFilters w) x (quickFilterParts w) (processingFilterChange w) (allowShowChangeAfterFilter w) (externalFilterPresent w) (aggFiltering w) (columnObjs w) (wrapperObjs w) (filterObjs w) (rowObjs w) (quickFilterAggregateText w) (modelPromises w) (applyPromises w) (allPromises w) (nextRef w) (events w) (console w) (destroyedBeans w).

Definition set_quickFilterParts (x : option (list string)) (w : World) : World :=
  mkWorld (allColumnFilters w) (allColumnListeners w) (activeAggregateFilters w) (activeColumnFilters w) (quickFilter w) x (processingFilterChange w) (allowShowChangeAfterFilter w) (externalFilterPresent w) (aggFiltering w) (columnObjs w) (wrapperObjs w) (filterObjs w) (rowObjs w) (quickFilterAggregateText w) (modelPromises w) (applyPromises w) (allPromises w) (nextRef w) (events w) (console w) (destroyedBeans w).

Definition set_processingFilterChange (x : bool) (w : World) : World :=
  mkWorld (allColumnFilters w) (allColumnListeners w) (activeAggregateFilters w) (activeColumnFilters w) (quickFilter w) (quickFilterParts w) x (allowShowChangeAfterFilter w) (externalFilterPresent w) (aggFiltering w) (columnObjs w) (wrapperObjs w) (filterObjs w) (rowObjs w) (quickFilterAggregateText w) (modelPromises w) (applyPromises w) (allPromises w) (nextRef w) (events w) (console w) (destroyedBeans w).

Definition set_allowShowChangeAfterFilter (x : bool) (w : World) : World :=
  mkWorld (allColumnFilters w) (allColumnListeners w) (activeAggregateFilters w) (activeColumnFilters w) (quickFilter w) (quickFilterParts w) (processingFilterChange w) x (externalFilterPresent w) (aggFiltering w) (columnObjs w) (wrapperObjs w) (filterObjs w) (rowObjs w) (quickFilterAggregateText w) (modelPromises w) (applyPromises w) (allPromises w) (nextRef w) (events w) (console w) (destroyedBeans w).

Definition set_externalFilterPresent (x : bool) (w : World) : World :=
  mkWorld (allColumnFilters w) (allColumnListeners w) (activeAggregateFilters w) (activeColumnFilters w) (quickFilter w) (quickFilterParts w) (processingFilterChange w) (allowShowChangeAfterFilter w) x (aggFiltering w) (columnObjs w) (wrapperObjs w) (filterObjs w) (rowObjs w) (quickFilterAggregateText w) (modelPromises w) (applyPromises w) (allPromises w) (nextRef w) (events w) (console w) (destroyedBeans w).

Definition set_aggFiltering (x : bool) (w : World) : World :=
  mkWorld (allColumnFilters w) (allColumnListeners w) (activeAggregateFilters w) (activeColumnFilters w) (quickFilter w) (quickFilterParts w) (processingFilterChange w) (allowShowChangeAfterFilter w) (externalFilterPresent w) x (columnObjs w) (wrapperObjs w) (filterObjs w) (rowObjs w) (quickFilterAggregateText w) (modelPromises w) (applyPromises w) (allPromises w) (nextRef w) (events w) (console w) (destroyedBeans w).

Definition set_columnObjs (x : ref -> Column) (w : World) : World :=
  mkWorld (allColumnFilters w) (allColumnListeners w) (activeAggregateFilters w) (activeColumnFilters w) (quickFilter w) (quickFilterParts w) (processingFilterChange w) (allowShowChangeAfterFilter w) (externalFilterPresent w) (aggFiltering w) x (wrapperObjs w) (filterObjs w) (rowObjs w) (quickFilterAggregateText w) (modelPromises w) (applyPromises w) (allPromises w) (nextRef w) (events w) (console w) (destroyedBeans w).

Definition set_wrapperObjs (x : ref -> FilterWrapper) (w : World) : World :=
  mkWorld (allColumnFilters w) (allColumnListeners w) (activeAggregateFilters w) (activeColumnFilters w) (quickFilter w) (quickFilterParts w) (processingFilterChange w) (allowShowChangeAfterFilter w) (externalFilterPresent w) (aggFiltering w) (columnObjs w) x (filterObjs w) (rowObjs w) (quickFilterAggregateText w) (modelPromises w) (applyPromises w) (allPromises w) (nextRef w) (events w) (console w) (destroyedBeans w).

Definition set_filterObjs (x : ref -> IFilterComp) (w : World) : World :=
  mkWorld (allColumnFilters w) (allColumnListeners w) (activeAggregateFilters w) (activeColumnFilters w) (quickFilter w) (quickFilterParts w) (processingFilterChange w) (allowShowChangeAfterFilter w) (externalFilterPresent w) (aggFiltering w) (columnObjs w) (wrapperObjs w) x (rowObjs w) (quickFilterAggregateText w) (modelPromises w) (applyPromises w) (allPromises w) (nextRef w) (events w) (console w) (destroyedBeans w).

Definition set_rowObjs (x : ref -> RowNode) (w : World) : World :=
  mkWorld (allColumnFilters w) (allColumnListeners w) (activeAggregateFilters w) (activeColumnFilters w) (quickFilter w) (quickFilterParts w) (processingFilterChange w) (allowShowChangeAfterFilter w) (externalFilterPresent w) (aggFiltering w) (columnObjs w) (wrapperObjs w) (filterObjs w) x (quickFilterAggregateText w) (modelPromises w) (applyPromises w) (allPromises w) (nextRef w) (events w) (console w) (destroyedBeans w).

Definition set_quickFilterAggregateText (x : ref -> option string) (w : World) : World :=
  mkWorld (allColumnFilters w) (allColumnListeners w) (activeAggregateFilters w) (activeColumnFilters w) (quickFilter w) (quickFilterParts w) (processingFilterChange w) (allowShowChangeAfterFilter w) (externalFilterPresent w) (aggFiltering w) (columnObjs w) (wrapperObjs w) (filterObjs w) (rowObjs w) x (modelPromises w) (applyPromises w) (allPromises w) (nextRef w) (events w) (console w) (destroyedBeans w).

Definition set_modelPromises (x : ref -> option ModelWaiter) (w : World) : World :=
  mkWorld (allColumnFilters w) (allColumnListeners w) (activeAggregateFilters w) (activeColumnFilters w) (quickFilter w) (quickFilterParts w) (processingFilterChange w) (allowShowChangeAfterFilter w) (externalFilterPresent w) (aggFiltering w) (columnObjs w) (wrapperObjs w) (filterObjs w) (rowObjs w) (quickFilterAggregateText w) x (applyPromises w) (allPromises w) (nextRef w) (events w) (console w) (destroyedBeans w).

Definition set_applyPromises (x : ref -> ApplyPromise) (w : World) : World :=
  mkWorld (allColumnFilters w) (allColumnListeners w) (activeAggregateFilters w) (activeColumnFilters w) (quickFilter w) (quickFilterParts w) (processingFilterChange w) (allowShowChangeAfterFilter w) (externalFilterPresent w) (aggFiltering w) (columnObjs w) (wrapperObjs w) (filterObjs w) (rowObjs w) (quickFilterAggregateText w) (modelPromises w) x (allPromises w) (nextRef w) (events w) (console w) (destroyedBeans w).

Definition set_allPromises (x : ref -> AllPromise) (w : World) : World :=
  mkWorld (allColumnFilters w) (allColumnListeners w) (activeAggregateFilters w) (activeColumnFilters w) (quickFilter w) (quickFilterParts w) (processingFilterChange w) (allowShowChangeAfterFilter w) (externalFilterPresent w) (aggFiltering w) (columnObjs w) (wrapperObjs w) (filterObjs w) (rowObjs w) (quickFilterAggregateText w) (modelPromises w) (applyPromises w) x (nextRef w) (events w) (console w) (destroyedBeans w).

Definition set_nextRef (x : ref) (w : World) : World :=
  mkWorld (allColumnFilters w) (allColumnListeners w) (activeAggregateFilters w) (activeColumnFilters w) (quickFilter w) (quickFilterParts w) (processingFilterChange w) (allowShowChangeAfterFilter w) (externalFilterPresent w) (aggFiltering w) (columnObjs w) (wrapperObjs w) (filterObjs w) (rowObjs w) (quickFilterAggregateText w) (modelPromises w) (applyPromises w) (allPromises w) x (events w) (console w) (destroyedBeans w).

Definition set_events (x : list GridEvent) (w : World) : World :=
  mkWorld (allColumnFilters w) (allColumnListeners w) (activeAggregateFilters w) (activeColumnFilters w) (quickFilter w) (quickFilterParts w) (processingFilterChange w) (allowShowChangeAfterFilter w) (externalFilterPresent w) (aggFiltering w) (columnObjs w) (wrapperObjs w) (filterObjs w) (rowObjs w) (quickFilterAggregateText w) (modelPromises w) (applyPromises w) (allPromises w) (nextRef w) x (console w) (destroyedBeans w).

Definition set_console (x : list string) (w : World) : World :=
  mkWorld (allColumnFilters w) (allColumnListeners w) (activeAggregateFilters w) (activeColumnFilters w) (quickFilter w) (quickFilterParts w) (processingFilterChange w) (allowShowChangeAfterFilter w) (externalFilterPresent w) (aggFiltering w) (columnObjs w) (wrapperObjs w) (filterObjs w) (rowObjs w) (quickFilterAggregateText w) (modelPromises w) (applyPromises w) (allPromises w) (nextRef w) (events w) x (destroyedBeans w).

Definition set_destroyedBeans (x : list ref) (w : World) : World :=
  mkWorld (allColumnFilters w) (allColumnListeners w) (activeAggregateFilters w) (activeColumnFilters w) (quickFilter w) (quickFilterParts w) (processingFilterChange w) (allowShowChangeAfterFilter w) (externalFilterPresent w) (aggFiltering w) (columnObjs w) (wrapperObjs w) (filterObjs w) (rowObjs w) (quickFilterAggregateText w) (modelPromises w) (applyPromises w) (allPromises w) (nextRef w) (events w) (console w) x.

(** A store with one object replaced. *)
Definition upd {A : Type} (store : ref -> A) (r : ref) (x : A) : ref -> A :=
  fun r' => if Nat.eqb r' r then x else store r'.

(* ===================================================================== *)
(** ** Computations: state and exceptions *)
(* ===================================================================== *)

(** A method either completes with a value or throws; in both cases the
    writes it made stay. *)
Inductive Completion (A : Type) :=
| Normal (result : A)
| Throw (error : string).

Arguments Normal {A} result.
Arguments Throw {A} error.

Definition M (A : Type) : Type := World -> World * Completion A.

Definition ret {A : Type} (a : A) : M A := fun w => (w, Normal a).

Definition bind {A B : Type} (c : M A) (k : A -> M B) : M B :=
  fun w =>
    match c w with
    | (w', Normal a) => k a w'
    | (w', Throw e) => (w', Throw e)
    end.

Definition throw {A : Type} (e : string) : M A := fun w => (w, Throw e).

Definition gets {A : Type} (f : World -> A) : M A := fun w => (w, Normal (f w)).

Definition modify (f : World -> World) : M unit := fun w => (f w, Normal tt).

Declare Scope js_scope.
Delimit Scope js_scope with js.

Notation "x <- c1 ;; c2" := (bind c1 (fun x => c2))
  (at level 61, c1 at next level, right associativity) : js_scope.
Notation "c1 ;; c2" := (bind c1 (fun _ => c2))
  (at level 61, right associativity) : js_scope.

Local Open Scope js_scope.

(** [array.forEach(body)] and [map.forEach(body)] over the entries present
    when the loop starts. *)
Fixpoint forEach {A : Type} (l : list A) (body : A -> M unit) : M unit :=
  match l with
  | [] => ret tt
  | x :: rest => body x ;; forEach rest body
  end.

(** [array.every(test)]: stops at the first [false]. *)
Fixpoint every {A : Type} (l : list A) (test : A -> M bool) : M bool :=
  match l with
  | [] => ret true
  | x :: rest => b <- test x ;; if b then every rest test else ret false
  end.

(** [array.some(test)]: stops at the first [true]. *)
Fixpoint some {A : Type} (l : list A) (test : A -> M bool) : M bool :=
  match l with
  | [] => ret false
  | x :: rest => b <- test x ;; if b then ret true else some rest test
  end.

Definition when (b : bool) (c : M unit) : M unit := if b then c else ret tt.

Definition console_warn (msg : string) : M unit :=
  modify (fun w => set_console (console w ++ [msg]) w).

(** [eventService.dispatchEvent(event)] *)
Definition dispatchEvent (e : GridEvent) : M unit :=
  modify (fun w => set_events (events w ++ [e]) w).

(** A fresh reference. *)
Definition alloc : M ref :=
  fun w => (set_nextRef (S (nextRef w)) w, Normal (nextRef w)).

Definition TypeError_null : string :=
  "TypeError: Cannot read properties of null".

Definition TypeError_not_a_function : string :=
  "TypeError: not a function".

Definition TypeError_not_a_node : string :=
  "TypeError: parameter 1 is not of type 'Node'".

(** *** Insertion-ordered maps keyed by column id *)

Fixpoint map_get {A : Type} (m : list (string * A)) (key : string) : option A :=
  match m with
  | [] => None
  | (k, v) :: rest => if String.eqb k key then Some v else map_get rest key
  end.

(** [map.set(key, v)]: a present key keeps its place. *)
Fixpoint map_set {A : Type} (m : list (string * A)) (key : string) (v : A)
  : list (string * A) :=
  match m with
  | [] => [(key, v)]
  | (k, x) :: rest =>
      if String.eqb k key then (k, v) :: rest else (k, x) :: map_set rest key v
  end.

Fixpoint map_delete {A : Type} (m : list (string * A)) (key : string)
  : list (string * A) :=
  match m with
  | [] => []
  | (k, x) :: rest =>
      if String.eqb k key then map_delete rest key else (k, x) :: map_delete rest key
  end.

Fixpoint set_delete (s : list string) (key : string) : list string :=
  match s with
  | [] => []
  | k :: rest => if String.eqb k key then set_delete rest key else k :: set_delete rest key
  end.

(* ===================================================================== *)
(** ** FilterManager *)
(* ===================================================================== *)

Section FilterManager.

Variable grid : Grid.

(** *** The host's built-ins *)

(** [text.toUpperCase()] *)
Definition toUpperCase (s : string) : string := String_toUpperCase (host grid) s.

(** [value.toString()]: a string is its own text, any other value is
    rendered by the host. *)
Definition toString (v : value) : string :=
  match v with
  | VString s => s
  | _ => Object_toString (host grid) v
  end.

(** *** Promise primitives *)

(** [filterWrapper.filterPromise!] followed by a method call: a wrapper made
    without a component has [null] there. *)
Definition filterPromiseOf (wrapper : ref) : M FilterPromise :=
  fw <- gets (fun w => wrapperObjs w wrapper) ;;
  match filterPromise fw with
  | Some p => ret p
  | None => throw TypeError_null
  end.

Definition addWaiter (token : FilterWaiter) (fw : FilterWrapper) : FilterWrapper :=
  match filterPromise fw with
  | Some p =>
      mkFilterWrapper (column fw)
        (Some (mkFilterPromise (resolution p) (waiters p ++ [token])))
        (guiPromise fw) (compDetails fw)
  | None => fw
  end.

(** [filterPromise.then(callback)]: a resolved promise runs the callback at
    once, a pending one keeps it (as [token]) for its resolution. *)
Definition filterPromise_then (wrapper : ref) (token : FilterWaiter)
    (callback : ref -> M unit) : M unit :=
  p <- filterPromiseOf wrapper ;;
  match resolution p with
  | Some filter => callback filter
  | None =>
      modify (fun w =>
        set_wrapperObjs (upd (wrapperObjs w) wrapper (addWaiter token (wrapperObjs w wrapper))) w)
  end.

(** [filterPromise.resolveNow(ifNotResolvedValue, ifResolved)] *)
Definition filterPromise_resolveNow {A : Type} (wrapper : ref)
    (ifNotResolvedValue : A) (ifResolved : ref -> M A) : M A :=
  p <- filterPromiseOf wrapper ;;
  match resolution p with
  | Some filter => ifResolved filter
  | None => ret ifNotResolvedValue
  end.

(** *** External filter *)

Definition isExternalFilterPresentCallback : M bool :=
  match isExternalFilterPresent_callback grid with
  | Some isFilterPresent => ret isFilterPresent
  | None => ret false
  end.

Definition doesExternalFilterPass (node : ref) : M bool :=
  match doesExternalFilterPass_callback grid with
  | Some doesFilterPass => n <- gets (fun w => rowObjs w node) ;; ret (doesFilterPass n)
  | None => ret false
  end.

(** *** Quick filter text *)

Definition QUICK_FILTER_SEPARATOR : string := String "010" EmptyString.

(** [this.quickFilter ? this.quickFilter.split(' ') : null] *)
Definition setQuickFilterParts : M unit :=
  modify (fun w =>
    set_quickFilterParts
      match quickFilter w with
      | Some q => if isEmpty q then None else Some (split " " q)
      | None => None
      end w).

(** *** Model export *)

(** The body of the loop of [getFilterModel] for one entry of
    [allColumnFilters]. *)
Definition getFilterModel_entry (result : list (string * value))
    (entry : string * ref) : M (list (string * value)) :=
  let (key, wrapper) := entry in
  filter <- filterPromise_resolveNow wrapper None (fun promiseFilter => ret (Some promiseFilter)) ;;
  match filter with
  | None => ret result
  | Some f =>
      fo <- gets (fun w => filterObjs w f) ;;
      match IFilter.getModel fo with
      | None =>
          console_warn "AG Grid: filter API missing getModel method, which is needed for getFilterModel" ;;
          ret result
      | Some getModel_ =>
          let model := getModel_ (IFilter.filterState fo) in
          if exists_ model then ret (setProperty result key model) else ret result
      end
  end.

Fixpoint getFilterModel_loop (entries : list (string * ref))
    (result : list (string * value)) : M (list (string * value)) :=
  match entries with
  | [] => ret result
  | entry :: rest =>
      result' <- getFilterModel_entry result entry ;;
      getFilterModel_loop rest result'
  end.

Definition getFilterModel : M (list (string * value)) :=
  entries <- gets allColumnFilters ;;
  getFilterModel_loop entries [].

Definition isColumnFilterPresent : M bool :=
  gets (fun w => negb (Nat.eqb (List.length (activeColumnFilters w)) 0)).

Definition isAggregateFilterPresent : M bool :=
  gets (fun w => negb (Nat.eqb (List.length (activeAggregateFilters w)) 0)).

Definition isExternalFilterPresent : M bool := gets externalFilterPresent.

(** *** Active filter sets *)

(** The local [isFilterActive] of [updateActiveFilters]. *)
Definition updateActiveFilters_isFilterActive (filter : ref) : M bool :=
  fo <- gets (fun w => filterObjs w filter) ;;
  match IFilter.isFilterActive fo with
  | None => console_warn "AG Grid: Filter is missing isFilterActive() method" ;; ret false
  | Some isFilterActive_ => ret (isFilterActive_ (IFilter.filterState fo))
  end.

(** The local [isAggFilter] of [updateActiveFilters]. *)
Definition isAggFilter (groupFilterEnabled : bool) (c : Column) : bool :=
  let isSecondary := negb (primary c) in
  if isSecondary then true
  else
    let isShowingPrimaryColumns := negb (pivotActive (columnModel grid)) in
    let isValueActive := valueActive c in
    if negb isValueActive || negb isShowingPrimaryColumns then false
    else if pivotMode (columnModel grid) then true
    else groupFilterEnabled.

Definition updateActiveFilters_entry (groupFilterEnabled : bool)
    (entry : string * ref) : M unit :=
  let wrapper := snd entry in
  active <- filterPromise_resolveNow wrapper false updateActiveFilters_isFilterActive ;;
  if active then
    filterComp <- filterPromise_resolveNow wrapper None (fun filter => ret (Some filter)) ;;
    match filterComp with
    | None => ret tt
    | Some f =>
        c <- gets (fun w => columnObjs w (column (wrapperObjs w wrapper))) ;;
        if isAggFilter groupFilterEnabled c then
          modify (fun w => set_activeAggregateFilters (activeAggregateFilters w ++ [f]) w)
        else
          modify (fun w => set_activeColumnFilters (activeColumnFilters w ++ [f]) w)
    end
  else ret tt.

Definition updateActiveFilters : M unit :=
  modify (set_activeColumnFilters []) ;;
  modify (set_activeAggregateFilters []) ;;
  let groupFilterEnabled := groupAggFiltering grid in
  entries <- gets allColumnFilters ;;
  forEach entries (updateActiveFilters_entry groupFilterEnabled).

(** [column.setFilterActive(active, source, additionalEventAttributes)] *)
Definition setFilterActive (col : ref) (active : bool) : M unit :=
  modify (fun w =>
    let c := columnObjs w col in
    set_columnObjs
      (upd (columnObjs w) col
         (mkColumn (colId c) (colDef c) (primary c) (filterAllowed c) (valueActive c) active)) w).

Definition updateFilterFlagInColumns_entry (entry : string * ref) : M unit :=
  let wrapper := snd entry in
  isFilterActive_ <- filterPromise_resolveNow wrapper false (fun filter =>
    fo <- gets (fun w => filterObjs w filter) ;;
    match IFilter.isFilterActive fo with
    | None => throw TypeError_not_a_function
    | Some isFilterActive_ => ret (isFilterActive_ (IFilter.filterState fo))
    end) ;;
  col <- gets (fun w => column (wrapperObjs w wrapper)) ;;
  setFilterActive col isFilterActive_.

Definition updateFilterFlagInColumns : M unit :=
  entries <- gets allColumnFilters ;;
  forEach entries updateFilterFlagInColumns_entry.

(** *** Creating wrappers *)

Definition getDefaultFilter (c : Column) : string :=
  if setFilterModuleRegistered grid then "agSetColumnFilter"
  else
    let cellDataType_ := cellDataType (colDef c) in
    if value_eqb cellDataType_ (VString "number") then "agNumberColumnFilter"
    else if value_eqb cellDataType_ (VString "date")
            || value_eqb cellDataType_ (VString "dateString") then "agDateColumnFilter"
    else "agTextColumnFilter".

(** [createFilterInstance]: the component details, whose
    [newAgStackInstance] is the deferred [filterPromise] of the source; the
    callbacks of the params object are invoked by the filter component and
    are not part of the model. *)
Definition createFilterInstance (c : Column) : option UserCompDetails :=
  let defaultFilter := getDefaultFilter c in
  getFilterDetails grid (colDef c) defaultFilter.

Definition setGuiPromise (g : GuiPromise) (wrapper : ref) : M unit :=
  modify (fun w =>
    let fw := wrapperObjs w wrapper in
    set_wrapperObjs
      (upd (wrapperObjs w) wrapper
         (mkFilterWrapper (column fw) (filterPromise fw) g (compDetails fw))) w).

(** [exists(guiFromFilter)] *)
Definition guiExists (gui : Gui) : bool :=
  match gui with
  | GuiElement => true
  | GuiValue v => exists_ v
  end.

(** The text of [guiFromFilter] inside the warning, which is only built for
    a gui that does not exist: [undefined], [null] or the empty string. *)
Definition guiText (gui : Gui) : string :=
  match gui with
  | GuiValue VUndefined => "undefined"
  | GuiValue VNull => "null"
  | _ => ""
  end.

(** [eFilterGui.appendChild(guiFromFilter)]: only a node can be appended. *)
Definition appendChild (gui : Gui) : M unit :=
  match gui with
  | GuiElement => ret tt
  | GuiValue _ => throw TypeError_not_a_node
  end.

(** The callback of [putIntoGui]: the gui of the filter is asked for,
    checked, built from its template when it is a string, and appended;
    then the element is resolved and [filter-opened] is dispatched. *)
Definition putIntoGui_callback (wrapper : ref) (source : FilterRequestSource)
    (filter : ref) : M unit :=
  fo <- gets (fun w => filterObjs w filter) ;;
  match IFilter.getGui fo with
  | None => throw TypeError_not_a_function
  | Some getGui_ =>
      let guiFromFilter := getGui_ (IFilter.filterState fo) in
      when (negb (guiExists guiFromFilter))
        (console_warn
           ("AG Grid: getGui method from filter returned " ++ guiText guiFromFilter
            ++ ", it should be a DOM element or an HTML template string.")) ;;
      let guiFromFilter' :=
        match guiFromFilter with
        | GuiValue (VString template) => loadTemplate (host grid) template
        | _ => guiFromFilter
        end in
      appendChild guiFromFilter' ;;
      setGuiPromise GuiMounted wrapper ;;
      col <- gets (fun w => column (wrapperObjs w wrapper)) ;;
      dispatchEvent (EVENT_FILTER_OPENED col source)
  end.

Definition putIntoGui (wrapper : ref) (source : FilterRequestSource) : M unit :=
  p <- filterPromiseOf wrapper ;;
  filterPromise_then wrapper (ThenPutIntoGui source) (putIntoGui_callback wrapper source) ;;
  match resolution p with
  | Some _ => ret tt
  | None => setGuiPromise GuiPending wrapper
  end.

Definition createFilterWrapper (col : ref) (source : FilterRequestSource) : M ref :=
  c <- gets (fun w => columnObjs w col) ;;
  let compDetails_ := createFilterInstance c in
  wrapper <- alloc ;;
  filterPromise_ <-
    match compDetails_ with
    | None => ret None
    | Some details =>
        match newAgStackInstance details with
        | NoInstance => ret None
        | InstanceReady instance =>
            f <- alloc ;;
            modify (fun w => set_filterObjs (upd (filterObjs w) f instance) w) ;;
            ret (Some (mkFilterPromise (Some f) []))
        | InstancePending => ret (Some (mkFilterPromise None []))
        end
    end ;;
  modify (fun w =>
    set_wrapperObjs
      (upd (wrapperObjs w) wrapper (mkFilterWrapper col filterPromise_ GuiNone compDetails_)) w) ;;
  match compDetails_ with
  | Some _ => putIntoGui wrapper source
  | None => ret tt
  end ;;
  ret wrapper.

Definition cachedFilter (col : ref) : M (option ref) :=
  gets (fun w => map_get (allColumnFilters w) (colId (columnObjs w col))).

Definition isNoUi (source : FilterRequestSource) : bool :=
  match source with NO_UI => true | _ => false end.

Definition listeners_set (listeners : list string) (key : string) : list string :=
  if existsb (String.eqb key) listeners then listeners else listeners ++ [key].

Definition getOrCreateFilterWrapper (col : ref) (source : FilterRequestSource)
  : M (option ref) :=
  c <- gets (fun w => columnObjs w col) ;;
  if negb (filterAllowed c) then ret None
  else
    cached <- cachedFilter col ;;
    match cached with
    | None =>
        filterWrapper <- createFilterWrapper col source ;;
        let colId_ := colId c in
        modify (fun w => set_allColumnFilters (map_set (allColumnFilters w) colId_ filterWrapper) w) ;;
        modify (fun w => set_allColumnListeners (listeners_set (allColumnListeners w) colId_) w) ;;
        ret (Some filterWrapper)
    | Some filterWrapper =>
        when (negb (isNoUi source)) (putIntoGui filterWrapper source) ;;
        ret (Some filterWrapper)
    end.

Definition updateDependantFilters : M unit :=
  match groupAutoColumns (columnModel grid) with
  | None => ret tt
  | Some groupColumns =>
      forEach groupColumns (fun groupColumn =>
        c <- gets (fun w => columnObjs w groupColumn) ;;
        if value_eqb (colDef_filter (colDef c)) (VString "agGroupColumnFilter")
        then getOrCreateFilterWrapper groupColumn NO_UI ;; ret tt
        else ret tt)
  end.

(** *** The filter-changed protocol *)

Definition option_ref_eqb (a : option ref) (b : ref) : bool :=
  match a with Some x => Nat.eqb x b | None => false end.

(** The callback of [onFilterChanged] on each filter promise. *)
Definition onAnyFilterChanged_callback (filterInstance : option ref) (filter : ref)
  : M unit :=
  fo <- gets (fun w => filterObjs w filter) ;;
  if negb (option_ref_eqb filterInstance filter) then
    match IFilter.onAnyFilterChanged fo with
    | Some hook =>
        modify (fun w =>
          set_filterObjs
            (upd (filterObjs w) filter
               (mkFilter (hook (IFilter.filterState fo)) (IFilter.isFilterActive fo) (IFilter.doesFilterPass fo)
                  (IFilter.getModel fo) (IFilter.setModel fo) (IFilter.onAnyFilterChanged fo) (IFilter.onNewRowsLoaded fo)
                  (IFilter.getGui fo))) w)
    | None => ret tt
    end
  else ret tt.

Definition onFilterChanged (filterInstance : option ref)
    (additionalEventAttributes : option value) (columns : option (list ref)) : M unit :=
  updateDependantFilters ;;
  updateActiveFilters ;;
  updateFilterFlagInColumns ;;
  present <- isExternalFilterPresentCallback ;;
  modify (set_externalFilterPresent present) ;;
  entries <- gets allColumnFilters ;;
  forEach entries (fun entry =>
    let wrapper := snd entry in
    fw <- gets (fun w => wrapperObjs w wrapper) ;;
    match filterPromise fw with
    | None => ret tt
    | Some _ =>
        filterPromise_then wrapper (ThenAnyFilterChanged filterInstance)
          (onAnyFilterChanged_callback filterInstance)
    end) ;;
  let filterChangedEvent :=
    EVENT_FILTER_CHANGED
      (match columns with Some cs => cs | None => [] end)
      additionalEventAttributes in
  modify (set_processingFilterChange true) ;;
  dispatchEvent filterChangedEvent ;;
  modify (set_processingFilterChange false).

(** *** Bulk model import *)

(** The loop of the comparison that ends [setFilterModel]: the columns whose
    model differs before and after. *)
Definition changedColumns (previousModel currentModel : list (string * value))
    (w : World) : list ref :=
  map (fun entry => column (wrapperObjs w (snd entry)))
    (List.filter
       (fun entry : string * ref =>
          let before := getProperty previousModel (fst entry) in
          let after := getProperty currentModel (fst entry) in
          negb (jsonEquals before after))
       (allColumnFilters w)).

(** The callback of [AgPromise.all(allPromises).then] in [setFilterModel]. *)
Definition setFilterModel_done (previousModel : list (string * value)) : M unit :=
  currentModel <- getFilterModel ;;
  columns <- gets (changedColumns previousModel currentModel) ;;
  if Nat.ltb 0 (List.length columns)
  then onFilterChanged None None (Some columns)
  else ret tt.

(** The [resolve] of the promise made by [AgPromise.all]: it becomes
    resolved and its waiters run. *)
Definition resolveAll (allPromise : ref) : M unit :=
  p <- gets (fun w => allPromises w allPromise) ;;
  modify (fun w =>
    set_allPromises
      (upd (allPromises w) allPromise (mkAllPromise (remainingToResolve p) true (allWaiters p))) w) ;;
  forEach (allWaiters p) setFilterModel_done.

(** The callback [AgPromise.all] puts on each promise: count down, and
    resolve on zero. *)
Definition all_callback (allPromise : ref) : M unit :=
  p <- gets (fun w => allPromises w allPromise) ;;
  let remaining := (remainingToResolve p - 1)%Z in
  modify (fun w =>
    set_allPromises
      (upd (allPromises w) allPromise (mkAllPromise remaining (allResolved p) (allWaiters p))) w) ;;
  if Z.eqb remaining 0 then resolveAll allPromise else ret tt.

(** The [resolve] of the promise made by [setModelOnFilterWrapper]. *)
Definition resolveApply (apply : ref) : M unit :=
  p <- gets (fun w => applyPromises w apply) ;;
  modify (fun w =>
    set_applyPromises (upd (applyPromises w) apply (mkApplyPromise true (applyWaiters p))) w) ;;
  forEach (applyWaiters p) all_callback.

(** [AgPromise.all(promises)] *)
Definition AgPromise_all (promises : list ref) : M ref :=
  allPromise <- alloc ;;
  modify (fun w =>
    set_allPromises
      (upd (allPromises w) allPromise (mkAllPromise (Z.of_nat (List.length promises)) false [])) w) ;;
  forEach promises (fun apply =>
    p <- gets (fun w => applyPromises w apply) ;;
    if applyResolved p then all_callback allPromise
    else
      modify (fun w =>
        set_applyPromises
          (upd (applyPromises w) apply
             (mkApplyPromise false (applyWaiters p ++ [allPromise]))) w)) ;;
  ret allPromise.

(** [allPromise.then(callback)] with the callback of [setFilterModel]. *)
Definition allPromise_then (allPromise : ref) (previousModel : list (string * value))
  : M unit :=
  p <- gets (fun w => allPromises w allPromise) ;;
  if allResolved p then setFilterModel_done previousModel
  else
    modify (fun w =>
      set_allPromises
        (upd (allPromises w) allPromise
           (mkAllPromise (remainingToResolve p) false (allWaiters p ++ [previousModel]))) w).

(** [filter.setModel(model)]: the filter moves to its new state; the result
    says what the call returned. *)
Definition callSetModel (filter : ref) (model : value) : M SetModelReturn :=
  fo <- gets (fun w => filterObjs w filter) ;;
  match IFilter.setModel fo with
  | None => throw "TypeError: filter.setModel is not a function"
  | Some setModel_ =>
      let (state', returned) := setModel_ model (IFilter.filterState fo) in
      modify (fun w =>
        set_filterObjs
          (upd (filterObjs w) filter
             (mkFilter state' (IFilter.isFilterActive fo) (IFilter.doesFilterPass fo) (IFilter.getModel fo)
                (IFilter.setModel fo) (IFilter.onAnyFilterChanged fo) (IFilter.onNewRowsLoaded fo)
                  (IFilter.getGui fo))) w) ;;
      ret returned
  end.

(** [(returned || AgPromise.resolve()).then(callback)]: only a promise the
    filter has not resolved yet defers the callback. *)
Definition modelPromise_then (returned : SetModelReturn) (token : ModelWaiter)
    (callback : M unit) : M unit :=
  match returned with
  | ReturnsVoid | ReturnsResolved => callback
  | ReturnsPending =>
      p <- alloc ;;
      modify (fun w => set_modelPromises (upd (modelPromises w) p (Some token)) w)
  end.

(** The callback of [setModelOnFilterWrapper] on the filter promise. *)
Definition setModelOnFilterWrapper_callback (newModel : value) (apply : ref)
    (filter : ref) : M unit :=
  fo <- gets (fun w => filterObjs w filter) ;;
  match IFilter.setModel fo with
  | None =>
      console_warn "AG Grid: filter missing setModel method, which is needed for setFilterModel" ;;
      resolveApply apply
  | Some _ => ret tt
  end ;;
  returned <- callSetModel filter newModel ;;
  modelPromise_then returned (ThenResolveApply apply) (resolveApply apply).

Definition setModelOnFilterWrapper (wrapper : ref) (newModel : value) : M ref :=
  apply <- alloc ;;
  modify (fun w => set_applyPromises (upd (applyPromises w) apply (mkApplyPromise false [])) w) ;;
  filterPromise_then wrapper (ThenSetModel newModel apply)
    (setModelOnFilterWrapper_callback newModel apply) ;;
  ret apply.

(** [columnModel.getPrimaryColumn(colId) || columnModel.getGridColumn(colId)] *)
Definition findColumn (w : World) (cols : list ref) (key : string) : option ref :=
  List.find (fun c => String.eqb (colId (columnObjs w c)) key) cols.

Definition getPrimaryOrGridColumn (key : string) : M (option ref) :=
  gets (fun w =>
    match findColumn w (primaryColumns (columnModel grid)) key with
    | Some c => Some c
    | None => findColumn w (gridColumns (columnModel grid)) key
    end).

(** The body of the first loop of [setFilterModel], over the wrappers that
    exist: returns the promise it pushed. *)
Definition setFilterModel_existing (model : list (string * value))
    (entry : string * ref) : M ref :=
  let (colId_, filterWrapper) := entry in
  let newModel := getProperty model colId_ in
  setModelOnFilterWrapper filterWrapper newModel.

(** The body of the second loop of [setFilterModel], over the keys of the
    model that have no wrapper yet: returns the promise it pushed, if any. *)
Definition setFilterModel_remaining (model : list (string * value))
    (colId_ : string) : M (option ref) :=
  col <- getPrimaryOrGridColumn colId_ ;;
  match col with
  | None =>
      console_warn ("AG Grid: setFilterModel() - no column found for colId: " ++ colId_) ;;
      ret None
  | Some col_ =>
      c <- gets (fun w => columnObjs w col_) ;;
      if negb (filterAllowed c) then
        console_warn ("AG Grid: setFilterModel() - unable to fully apply model, filtering disabled for colId: " ++ colId_) ;;
        ret None
      else
        filterWrapper <- getOrCreateFilterWrapper col_ NO_UI ;;
        match filterWrapper with
        | None =>
            console_warn ("AG-Grid: setFilterModel() - unable to fully apply model, unable to create filter for colId: " ++ colId_) ;;
            ret None
        | Some fw =>
            apply <- setModelOnFilterWrapper fw (getProperty model colId_) ;;
            ret (Some apply)
        end
  end.

(** A loop that pushes onto [allPromises]. *)
Fixpoint pushEach {A : Type} (l : list A) (body : A -> M (option ref))
    (allPromises_ : list ref) : M (list ref) :=
  match l with
  | [] => ret allPromises_
  | x :: rest =>
      pushed <- body x ;;
      pushEach rest body
        (match pushed with Some p => allPromises_ ++ [p] | None => allPromises_ end)
  end.

(** [setFilterModel(model)]; [None] is a falsy argument. *)
Definition setFilterModel (model : option (list (string * value))) : M unit :=
  previousModel <- getFilterModel ;;
  entries <- gets allColumnFilters ;;
  allPromises_ <-
    match model with
    | Some model_ =>
        let modelKeys := Object_keys model_ in
        pushed <- pushEach entries
                    (fun entry => p <- setFilterModel_existing model_ entry ;; ret (Some p)) [] ;;
        let modelKeys' := fold_left set_delete (map fst entries) modelKeys in
        pushEach modelKeys' (setFilterModel_remaining model_) pushed
    | None =>
        pushEach entries
          (fun entry => p <- setModelOnFilterWrapper (snd entry) VNull ;; ret (Some p)) []
    end ;;
  allPromise <- AgPromise_all allPromises_ ;;
  allPromise_then allPromise previousModel.

(** *** Destroying wrappers *)

(** The inner callback of [disposeFilterWrapper], once the model is
    cleared. *)
Definition disposeFilterWrapper_finish (wrapper filter : ref) (source : DestroySource)
  : M unit :=
  modify (fun w => set_destroyedBeans (destroyedBeans w ++ [filter]) w) ;;
  col <- gets (fun w => column (wrapperObjs w wrapper)) ;;
  setFilterActive col false ;;
  modify (fun w =>
    set_allColumnFilters (map_delete (allColumnFilters w) (colId (columnObjs w col))) w) ;;
  dispatchEvent (EVENT_FILTER_DESTROYED source col).

(** The callback of [disposeFilterWrapper] on the filter promise. *)
Definition disposeFilterWrapper_callback (wrapper : ref) (source : DestroySource)
    (filter : ref) : M unit :=
  returned <- callSetModel filter VNull ;;
  modelPromise_then returned (ThenFinishDispose wrapper filter source)
    (disposeFilterWrapper_finish wrapper filter source).

Definition disposeFilterWrapper (wrapper : ref) (source : DestroySource) : M unit :=
  filterPromise_then wrapper (ThenDispose source)
    (disposeFilterWrapper_callback wrapper source).

Definition disposeColumnListener (colId_ : string) : M unit :=
  modify (fun w => set_allColumnListeners (set_delete (allColumnListeners w) colId_) w).

Definition destroyFilter (col : ref) (source : DestroySource) : M unit :=
  colId_ <- gets (fun w => colId (columnObjs w col)) ;;
  filterWrapper <- gets (fun w => map_get (allColumnFilters w) colId_) ;;
  disposeColumnListener colId_ ;;
  match filterWrapper with
  | Some fw =>
      disposeFilterWrapper fw source ;;
      onFilterChanged None None (Some [col])
  | None => ret tt
  end.

(** [allColumnFilters.forEach(body)] when the body may delete entries: an
    entry deleted before its turn is not visited, as with a JavaScript
    [Map]. *)
Definition forEachLive (entries : list (string * ref)) (body : string * ref -> M unit)
  : M unit :=
  forEach entries (fun entry =>
    current <- gets (fun w => map_get (allColumnFilters w) (fst entry)) ;;
    match current with
    | Some wrapper => if Nat.eqb wrapper (snd entry) then body entry else ret tt
    | None => ret tt
    end).

(** [destroy]: every wrapper is disposed and the listeners are dropped. *)
Definition destroy : M unit :=
  entries <- gets allColumnFilters ;;
  forEachLive entries (fun entry => disposeFilterWrapper (snd entry) gridDestroyed) ;;
  modify (set_allColumnListeners []).

(** *** New rows *)

Definition onNewRowsLoaded_callback (filter : ref) : M unit :=
  fo <- gets (fun w => filterObjs w filter) ;;
  match IFilter.onNewRowsLoaded fo with
  | Some hook =>
      modify (fun w =>
        set_filterObjs
          (upd (filterObjs w) filter
             (mkFilter (hook (IFilter.filterState fo)) (IFilter.isFilterActive fo) (IFilter.doesFilterPass fo)
                (IFilter.getModel fo) (IFilter.setModel fo) (IFilter.onAnyFilterChanged fo) (IFilter.onNewRowsLoaded fo)
                  (IFilter.getGui fo))) w)
  | None => ret tt
  end.

Definition onNewRowsLoaded : M unit :=
  entries <- gets allColumnFilters ;;
  forEach entries (fun entry =>
    filterPromise_then (snd entry) ThenNewRowsLoaded onNewRowsLoaded_callback) ;;
  updateFilterFlagInColumns ;;
  updateActiveFilters.

(** *** Promises resolving *)

(** The callback a token of a filter promise stands for. *)
Definition runFilterWaiter (wrapper filter : ref) (token : FilterWaiter) : M unit :=
  match token with
  | ThenSetModel newModel apply => setModelOnFilterWrapper_callback newModel apply filter
  | ThenAnyFilterChanged filterInstance => onAnyFilterChanged_callback filterInstance filter
  | ThenNewRowsLoaded => onNewRowsLoaded_callback filter
  | ThenPutIntoGui source => putIntoGui_callback wrapper source filter
  | ThenDispose source => disposeFilterWrapper_callback wrapper source filter
  end.

(** The component factory resolves the filter promise of [wrapper] with a
    new [instance]: the promise becomes resolved and its waiters run in the
    order they were added. *)
Definition resolveFilterPromise (wrapper : ref) (instance : IFilterComp) : M unit :=
  p <- filterPromiseOf wrapper ;;
  match resolution p with
  | Some _ => ret tt
  | None =>
      f <- alloc ;;
      modify (fun w => set_filterObjs (upd (filterObjs w) f instance) w) ;;
      modify (fun w =>
        let fw := wrapperObjs w wrapper in
        set_wrapperObjs
          (upd (wrapperObjs w) wrapper
             (mkFilterWrapper (column fw) (Some (mkFilterPromise (Some f) (waiters p)))
                (guiPromise fw) (compDetails fw))) w) ;;
      forEach (waiters p) (runFilterWaiter wrapper f)
  end.

(** A filter resolves the promise its [setModel] returned. *)
Definition resolveModelPromise (p : ref) : M unit :=
  waiter <- gets (fun w => modelPromises w p) ;;
  modify (fun w => set_modelPromises (upd (modelPromises w) p None) w) ;;
  match waiter with
  | Some (ThenResolveApply apply) => resolveApply apply
  | Some (ThenFinishDispose wrapper filter source) =>
      disposeFilterWrapper_finish wrapper filter source
  | None => ret tt
  end.

(** *** Quick filter *)

Definition isClientSide (t : RowModelType) : bool :=
  match t with clientSide => true | _ => false end.

Definition parseQuickFilter (newFilter : value) : M (option string) :=
  if negb (exists_ newFilter) then ret None
  else if negb (isClientSide (rowModelType grid)) then
    console_warn "AG Grid - Quick filtering only works with the Client-Side Row Model" ;;
    ret None
  else
    match newFilter with
    | VString s => ret (Some (toUpperCase s))
    | _ => throw TypeError_not_a_function
    end.

Definition option_string_eqb (a b : option string) : bool :=
  match a, b with
  | Some x, Some y => String.eqb x y
  | None, None => true
  | _, _ => false
  end.

(** [newFilter != null && typeof newFilter !== 'string'] *)
Definition isNonStringInput (newFilter : value) : bool :=
  match newFilter with
  | VUndefined | VNull | VString _ => false
  | _ => true
  end.

Definition setQuickFilter (newFilter : value) : M unit :=
  if isNonStringInput newFilter then
    console_warn ("AG Grid - setQuickFilter() only supports string inputs, received: "
                  ++ typeOf newFilter) ;;
    ret tt
  else
    parsedFilter <- parseQuickFilter newFilter ;;
    current <- gets quickFilter ;;
    if negb (option_string_eqb current parsedFilter) then
      modify (set_quickFilter parsedFilter) ;;
      setQuickFilterParts ;;
      onFilterChanged None None None
    else ret tt.

Definition updateAggFiltering : M unit :=
  modify (set_aggFiltering (groupAggFiltering grid)).

(** [init], without the listener registrations. *)
Definition init : M unit :=
  parsed <- parseQuickFilter (quickFilterText grid) ;;
  modify (set_quickFilter parsed) ;;
  setQuickFilterParts ;;
  modify (set_allowShowChangeAfterFilter (allowShowChangeAfterFilter_option grid)) ;;
  present <- isExternalFilterPresentCallback ;;
  modify (set_externalFilterPresent present) ;;
  updateAggFiltering.

(** [node.quickFilterAggregateText = text] *)
Definition setRowAggregateText (node : ref) (text : option string) : M unit :=
  modify (fun w =>
    set_quickFilterAggregateText (upd (quickFilterAggregateText w) node text) w).

Definition resetQuickFilterCache : M unit :=
  forEach (rowModel_nodes grid) (fun node => setRowAggregateText node None).

Definition isQuickFilterPresent : M bool :=
  gets (fun w => match quickFilter w with Some _ => true | None => false end).

Definition isAggregateQuickFilterPresent : M bool :=
  present <- isQuickFilterPresent ;;
  agg <- gets aggFiltering ;;
  ret (present && (agg || pivotMode (columnModel grid))).

Definition isNonAggregateQuickFilterPresent : M bool :=
  present <- isQuickFilterPresent ;;
  agg <- gets aggFiltering ;;
  ret (present && negb (agg || pivotMode (columnModel grid))).

(** A [string | null] as a value, for [exists]. *)
Definition textValue (part : option string) : value :=
  match part with Some s => VString s | None => VNull end.

Definition getQuickFilterTextForColumn (col node : ref) : M (option string) :=
  c <- gets (fun w => columnObjs w col) ;;
  n <- gets (fun w => rowObjs w node) ;;
  let value0 := valueService_getValue grid c n in
  let value1 :=
    match getQuickFilterText (colDef c) with
    | Some getQuickFilterText_ => getQuickFilterText_ value0 n
    | None => value0
    end in
  ret (if exists_ value1 then Some (toUpperCase (toString value1)) else None).

Definition doesRowPassQuickFilterNoCache (node : ref) (filterPart : string) : M bool :=
  let columns := allColumnsForQuickFilter (columnModel grid) in
  some columns (fun col =>
    part <- getQuickFilterTextForColumn col node ;;
    ret (exists_ (textValue part)
         && match part with Some p => includes p filterPart | None => false end)).

(** The loop of [aggregateRowForQuickFilter]. *)
Fixpoint aggregateRowForQuickFilter_loop (columns : list ref) (node : ref)
    (stringParts : list string) : M (list string) :=
  match columns with
  | [] => ret stringParts
  | col :: rest =>
      part <- getQuickFilterTextForColumn col node ;;
      aggregateRowForQuickFilter_loop rest node
        (match part with
         | Some p => if exists_ (textValue part) then stringParts ++ [p] else stringParts
         | None => stringParts
         end)
  end.

Definition aggregateRowForQuickFilter (node : ref) : M unit :=
  let columns := allColumnsForQuickFilter (columnModel grid) in
  stringParts <- aggregateRowForQuickFilter_loop columns node [] ;;
  setRowAggregateText node (Some (join QUICK_FILTER_SEPARATOR stringParts)).

(** [!node.quickFilterAggregateText] *)
Definition noAggregateText (text : option string) : bool :=
  match text with
  | Some t => isEmpty t
  | None => true
  end.

Definition doesRowPassQuickFilterCache (node : ref) (filterPart : string) : M bool :=
  cached <- gets (fun w => quickFilterAggregateText w node) ;;
  when (noAggregateText cached) (aggregateRowForQuickFilter node) ;;
  text <- gets (fun w => quickFilterAggregateText w node) ;;
  match text with
  | Some text_ => ret (includes text_ filterPart)
  | None => throw TypeError_null
  end.

Definition doesRowPassQuickFilter (node : ref) : M bool :=
  let usingCache := cacheQuickFilter grid in
  parts <- gets quickFilterParts ;;
  match parts with
  | None => throw TypeError_null
  | Some parts_ =>
      every parts_ (fun part =>
        if usingCache then doesRowPassQuickFilterCache node part
        else doesRowPassQuickFilterNoCache node part)
  end.

(** *** Row-pass evaluation *)

(** The loop of [doColumnFiltersPass] from index [i] on. *)
Fixpoint doColumnFiltersPass_loop (targetedFilters : list ref) (node : ref)
    (filterToSkip : option ref) (targetAggregates : bool) : M bool :=
  match targetedFilters with
  | [] => ret true
  | filter :: rest =>
      if option_ref_eqb filterToSkip filter then
        doColumnFiltersPass_loop rest node filterToSkip targetAggregates
      else
        fo <- gets (fun w => filterObjs w filter) ;;
        match IFilter.doesFilterPass fo with
        | None => throw "Error: Filter is missing method doesFilterPass"
        | Some doesFilterPass_ =>
            n <- gets (fun w => rowObjs w node) ;;
            let targetedData := if targetAggregates then aggData n else data n in
            if negb (doesFilterPass_ (IFilter.filterState fo) n targetedData) then ret false
            else doColumnFiltersPass_loop rest node filterToSkip targetAggregates
        end
  end.

Definition doColumnFiltersPass (node : ref) (filterToSkip : option ref)
    (targetAggregates : bool) : M bool :=
  targetedFilters <-
    gets (fun w => if targetAggregates then activeAggregateFilters w else activeColumnFilters w) ;;
  doColumnFiltersPass_loop targetedFilters node filterToSkip targetAggregates.

Definition doAggregateFiltersPass (node : ref) (filterToSkip : option ref) : M bool :=
  doColumnFiltersPass node filterToSkip true.

(** [condition && !test]: the test is only run when the condition holds. *)
Definition failsWhen (condition : M bool) (test : M bool) : M bool :=
  c <- condition ;;
  if c then passed <- test ;; ret (negb passed) else ret false.

Definition doesRowPassAggregateFilters (rowNode : ref) (filterInstanceToSkip : option ref)
  : M bool :=
  quickFails <- failsWhen isAggregateQuickFilterPresent (doesRowPassQuickFilter rowNode) ;;
  if quickFails then ret false
  else
    aggFails <- failsWhen isAggregateFilterPresent
                  (doAggregateFiltersPass rowNode filterInstanceToSkip) ;;
    if aggFails then ret false
    else ret true.

Definition doesRowPassFilter (rowNode : ref) (filterInstanceToSkip : option ref)
  : M bool :=
  quickFails <- failsWhen isNonAggregateQuickFilterPresent (doesRowPassQuickFilter rowNode) ;;
  if quickFails then ret false
  else
    externalFails <- failsWhen isExternalFilterPresent (doesExternalFilterPass rowNode) ;;
    if externalFails then ret false
    else
      columnFails <- failsWhen isColumnFilterPresent
                       (doColumnFiltersPass rowNode filterInstanceToSkip false) ;;
      if columnFails then ret false
      else ret true.

Definition doesRowPassOtherFilters (filterToSkip : ref) (node : ref) : M bool :=
  doesRowPassFilter node (Some filterToSkip).

Definition isAnyFilterPresent : M bool :=
  q <- isQuickFilterPresent ;;
  c <- isColumnFilterPresent ;;
  a <- isAggregateFilterPresent ;;
  e <- isExternalFilterPresent ;;
  ret (q || c || a || e).

(** *** What else the manager offers *)

Definition getDefaultFloatingFilter (c : Column) : string :=
  if setFilterModuleRegistered grid then "agSetColumnFloatingFilter"
  else
    let cellDataType_ := cellDataType (colDef c) in
    if value_eqb cellDataType_ (VString "number") then "agNumberColumnFloatingFilter"
    else if value_eqb cellDataType_ (VString "date")
            || value_eqb cellDataType_ (VString "dateString") then "agDateColumnFloatingFilter"
    else "agTextColumnFloatingFilter".

(** [filter!.isFilterActive()] *)
Definition callIsFilterActive (filter : ref) : M bool :=
  fo <- gets (fun w => filterObjs w filter) ;;
  match IFilter.isFilterActive fo with
  | None => throw TypeError_not_a_function
  | Some isFilterActive_ => ret (isFilterActive_ (IFilter.filterState fo))
  end.

(** [isFilterActive(column)] *)
Definition isFilterActive (col : ref) : M bool :=
  filterWrapper <- cachedFilter col ;;
  match filterWrapper with
  | None => ret false
  | Some fw => filterPromise_resolveNow fw false callIsFilterActive
  end.

(** [getFilterComponent(column, source, createIfDoesNotExist)]: the promise
    it returns is named by the wrapper that holds it. *)
Definition getFilterComponent (col : ref) (source : FilterRequestSource)
    (createIfDoesNotExist : bool) : M (option ref) :=
  filterWrapper <-
    (if createIfDoesNotExist then getOrCreateFilterWrapper col source
     else cachedFilter col) ;;
  match filterWrapper with
  | None => ret None
  | Some fw =>
      wrapper <- gets (fun w => wrapperObjs w fw) ;;
      match filterPromise wrapper with
      | Some _ => ret (Some fw)
      | None => ret None
      end
  end.

(** [getCurrentFloatingFilterParentModel(column)] *)
Definition getCurrentFloatingFilterParentModel (col : ref) : M value :=
  filterComponent <- getFilterComponent col NO_UI false ;;
  match filterComponent with
  | None => ret VNull
  | Some fw =>
      filterPromise_resolveNow fw VNull (fun filter =>
        fo <- gets (fun w => filterObjs w filter) ;;
        match IFilter.getModel fo with
        | None => throw TypeError_not_a_function
        | Some getModel_ => ret (getModel_ (IFilter.filterState fo))
        end)
  end.

Definition refreshFiltersForAggregations : M unit :=
  if groupAggFiltering grid then onFilterChanged None None None else ret tt.

Definition isSuppressFlashingCellsBecauseFiltering : M bool :=
  gets (fun w => negb (allowShowChangeAfterFilter w) && processingFilterChange w).

(** The body of the loop of [onColumnsChanged]: [true] when the wrapper's
    column is gone and the wrapper was disposed. *)
Definition onColumnsChanged_entry (entry : string * ref) : M bool :=
  let (colId_, wrapper) := entry in
  col <- gets (fun w => column (wrapperObjs w wrapper)) ;;
  c <- gets (fun w => columnObjs w col) ;;
  currentColumn <-
    gets (fun w =>
      if primary c then findColumn w (primaryColumns (columnModel grid)) colId_
      else findColumn w (gridColumns (columnModel grid)) colId_) ;;
  match currentColumn with
  | Some _ => ret false
  | None =>
      disposeFilterWrapper wrapper columnChanged ;;
      disposeColumnListener colId_ ;;
      ret true
  end.

(** The loop of [onColumnsChanged], collecting the columns it pushed. *)
Fixpoint onColumnsChanged_loop (entries : list (string * ref)) (columns : list ref)
  : M (list ref) :=
  match entries with
  | [] => ret columns
  | entry :: rest =>
      current <- gets (fun w => map_get (allColumnFilters w) (fst entry)) ;;
      gone <-
        match current with
        | Some wrapper =>
            if Nat.eqb wrapper (snd entry) then
              col <- gets (fun w => column (wrapperObjs w (snd entry))) ;;
              disposed <- onColumnsChanged_entry entry ;;
              ret (if disposed then Some col else None)
            else ret None
        | None => ret None
        end ;;
      onColumnsChanged_loop rest
        (match gone with Some col => columns ++ [col] | None => columns end)
  end.

Definition onColumnsChanged : M unit :=
  entries <- gets allColumnFilters ;;
  columns <- onColumnsChanged_loop entries [] ;;
  if Nat.ltb 0 (List.length columns)
  then onFilterChanged None None (Some columns)
  else updateDependantFilters.

(** [checkDestroyFilter(colId)]: the wrapper is destroyed when its column no
    longer allows filtering or asks for another component. *)
Definition checkDestroyFilter (colId_ : string) : M unit :=
  filterWrapper <- gets (fun w => map_get (allColumnFilters w) colId_) ;;
  match filterWrapper with
  | None => ret tt
  | Some fw =>
      wrapper <- gets (fun w => wrapperObjs w fw) ;;
      let col := column wrapper in
      c <- gets (fun w => columnObjs w col) ;;
      let compDetails_ := if filterAllowed c then createFilterInstance c else None in
      match compDetails_ with
      | None => destroyFilter col columnChanged
      | Some details =>
          match compDetails wrapper with
          | Some current =>
              if String.eqb (componentClass current) (componentClass details)
              then ret tt
              else destroyFilter col columnChanged
          | None => destroyFilter col columnChanged
          end
      end
  end.

End FilterManager.

(* ===================================================================== *)
(** ** Readings of the quick filter as functions *)
(* ===================================================================== *)

Section Readings.

Variable grid : Grid.

(** The value a column contributes for a row: the value service's, passed
    through the column's [getQuickFilterText] when it has one. *)
Definition quickFilterValue (c : Column) (n : RowNode) : value :=
  match getQuickFilterText (colDef c) with
  | Some getQuickFilterText_ => getQuickFilterText_ (valueService_getValue grid c n) n
  | None => valueService_getValue grid c n
  end.

(** What [getQuickFilterTextForColumn] returns. *)
Definition columnQuickFilterText (c : Column) (n : RowNode) : option string :=
  if exists_ (quickFilterValue c n)
  then Some (toUpperCase grid (toString grid (quickFilterValue c n)))
  else None.

(** The texts of the quick-filter columns for a row, in column order. *)
Definition columnTexts (w : World) (node : ref) : list (option string) :=
  map (fun col => columnQuickFilterText (columnObjs w col) (rowObjs w node))
    (allColumnsForQuickFilter (columnModel grid)).

(** The texts that [exists] lets into the join. *)
Definition keptText (text : option string) : list string :=
  match text with
  | Some p => if isEmpty p then [] else [p]
  | None => []
  end.

Definition joinedParts (w : World) (node : ref) : list string :=
  flat_map keptText (columnTexts w node).

Definition aggregateText (w : World) (node : ref) : string :=
  join QUICK_FILTER_SEPARATOR (joinedParts w node).

(** The text the cached check searches: the cached one unless it is falsy. *)
Definition searchedText (w : World) (node : ref) : string :=
  match quickFilterAggregateText w node with
  | Some t => if isEmpty t then aggregateText w node else t
  | None => aggregateText w node
  end.

Definition partInColumn (part : string) (text : option string) : bool :=
  match text with
  | Some p => negb (isEmpty p) && includes p part
  | None => false
  end.

(** One part of the quick filter against one row. *)
Definition partMatches (w : World) (node : ref) (part : string) : bool :=
  if cacheQuickFilter grid
  then includes (searchedText w node) part
  else existsb (partInColumn part) (columnTexts w node).

(** The world after the cached check of one part. *)
Definition afterCacheCheck (w : World) (node : ref) : World :=
  if noAggregateText (quickFilterAggregateText w node)
  then set_quickFilterAggregateText
         (upd (quickFilterAggregateText w) node (Some (aggregateText w node))) w
  else w.

(** The text [setQuickFilter] leaves in [quickFilter]. *)
Definition parsedText (t : string) : option string :=
  if isEmpty t || negb (isClientSide (rowModelType grid)) then None
  else Some (toUpperCase grid t).

(** *** Readings of row-pass evaluation *)

(** Stage 1 of [doesRowPassFilter]: the quick filter, when one is present
    and not routed to aggregate mode. *)
Definition quickFilterStage (w : World) (node : ref) : Completion bool :=
  match quickFilter w with
  | Some _ =>
      if negb (aggFiltering w || pivotMode (columnModel grid))
      then snd (doesRowPassQuickFilter grid node w)
      else Normal true
  | None => Normal true
  end.

(** Stage 2: the external callback, when the cached flag is set. *)
Definition externalFilterStage (w : World) (node : ref) : bool :=
  if externalFilterPresent w
  then match doesExternalFilterPass_callback grid with
       | Some doesFilterPass => doesFilterPass (rowObjs w node)
       | None => false
       end
  else true.

(** What one filter instance answers for a row, if it has the method. *)
Definition filterAnswer (w : World) (node : ref) (targetAggregates : bool) (filter : ref)
  : option bool :=
  match IFilter.doesFilterPass (filterObjs w filter) with
  | Some doesFilterPass_ =>
      Some (doesFilterPass_ (IFilter.filterState (filterObjs w filter)) (rowObjs w node)
              (if targetAggregates then aggData (rowObjs w node) else data (rowObjs w node)))
  | None => None
  end.

(** The outcome of the loop of [doColumnFiltersPass]. *)
Fixpoint columnFiltersOutcome (w : World) (node : ref) (filterToSkip : option ref)
    (targetAggregates : bool) (filters : list ref) : Completion bool :=
  match filters with
  | [] => Normal true
  | filter :: rest =>
      if option_ref_eqb filterToSkip filter
      then columnFiltersOutcome w node filterToSkip targetAggregates rest
      else match filterAnswer w node targetAggregates filter with
           | None => Throw "Error: Filter is missing method doesFilterPass"
           | Some false => Normal false
           | Some true => columnFiltersOutcome w node filterToSkip targetAggregates rest
           end
  end.

(** The filters the loop consults: all but the excluded instance. *)
Definition consulted (filterToSkip : option ref) (filters : list ref) : list ref :=
  List.filter (fun filter => negb (option_ref_eqb filterToSkip filter)) filters.

(** *** Readings of the active filter sets *)

(** The instance a wrapper's promise has resolved with, if it has. *)
Definition resolvedFilter (w : World) (wrapper : ref) : option ref :=
  match filterPromise (wrapperObjs w wrapper) with
  | Some p => resolution p
  | None => None
  end.

Definition hasPromise (w : World) (wrapper : ref) : bool :=
  match filterPromise (wrapperObjs w wrapper) with
  | Some _ => true
  | None => false
  end.

(** The resolved instance of a wrapper when its [isFilterActive()] answers
    [true]. *)
Definition activeFilter (w : World) (wrapper : ref) : option ref :=
  match resolvedFilter w wrapper with
  | Some f =>
      match IFilter.isFilterActive (filterObjs w f) with
      | Some test => if test (IFilter.filterState (filterObjs w f)) then Some f else None
      | None => None
      end
  | None => None
  end.

(** The entries a loop over the wrappers reaches: it stops at a wrapper
    whose [filterPromise] is [null]. *)
Fixpoint visited (w : World) (entries : list (string * ref)) : list (string * ref) :=
  match entries with
  | [] => []
  | entry :: rest => if hasPromise w (snd entry) then entry :: visited w rest else []
  end.

Definition wrapperColumn (w : World) (wrapper : ref) : Column :=
  columnObjs w (column (wrapperObjs w wrapper)).

(** The active instances of the visited wrappers whose column is classified
    as [aggregate]. *)
Definition classified (aggregate : bool) (w : World) (entries : list (string * ref))
  : list ref :=
  flat_map (fun entry : string * ref =>
    match activeFilter w (snd entry) with
    | Some f =>
        if Bool.eqb (isAggFilter grid (groupAggFiltering grid) (wrapperColumn w (snd entry)))
             aggregate
        then [f] else []
    | None => []
    end) (visited w entries).

(** *** Readings of the model export *)

(** What a wrapper contributes to the exported model: the model of its
    resolved instance, when the instance has [getModel] and the model
    exists. *)
Definition exportedModel (w : World) (wrapper : ref) : option value :=
  match resolvedFilter w wrapper with
  | Some f =>
      match IFilter.getModel (filterObjs w f) with
      | Some getModel_ =>
          if exists_ (getModel_ (IFilter.filterState (filterObjs w f)))
          then Some (getModel_ (IFilter.filterState (filterObjs w f)))
          else None
      | None => None
      end
  | None => None
  end.

(** The warning [getFilterModel] logs for a wrapper whose resolved instance
    lacks [getModel]. *)
Definition getModelWarning (w : World) (wrapper : ref) : list string :=
  match resolvedFilter w wrapper with
  | Some f =>
      match IFilter.getModel (filterObjs w f) with
      | Some _ => []
      | None => ["AG Grid: filter API missing getModel method, which is needed for getFilterModel"]
      end
  | None => []
  end.

(** The object [getFilterModel] builds from the entries, on top of
    [result]. *)
Fixpoint exportEntries (w : World) (entries : list (string * ref))
    (result : list (string * value)) : list (string * value) :=
  match entries with
  | [] => result
  | entry :: rest =>
      exportEntries w rest
        (match exportedModel w (snd entry) with
         | Some model => setProperty result (fst entry) model
         | None => result
         end)
  end.

(** The world with more console output. *)
Definition warned (lines : list string) (w : World) : World :=
  set_console (console w ++ lines) w.

(** [columnModel.getPrimaryColumn(colId) || columnModel.getGridColumn(colId)] *)
Definition columnFor (w : World) (key : string) : option ref :=
  match findColumn w (primaryColumns (columnModel grid)) key with
  | Some c => Some c
  | None => findColumn w (gridColumns (columnModel grid)) key
  end.

(** The warning [setFilterModel] logs for a key of the model without a
    wrapper, when it skips the key. *)
Definition skipWarning (w : World) (key : string) : option string :=
  match columnFor w key with
  | None => Some ("AG Grid: setFilterModel() - no column found for colId: " ++ key)%string
  | Some c =>
      if filterAllowed (columnObjs w c) then None
      else Some ("AG Grid: setFilterModel() - unable to fully apply model, filtering disabled for colId: "
                 ++ key)%string
  end.

(** *** Readings of [putIntoGui] *)

(** The gui of an instance as [appendChild] receives it: built from its
    template when [getGui] gave a string; [None] without [getGui]. *)
Definition builtGui (fo : IFilterComp) : option Gui :=
  match IFilter.getGui fo with
  | Some getGui_ =>
      Some match getGui_ (IFilter.filterState fo) with
           | GuiValue (VString template) => loadTemplate (host grid) template
           | gui => gui
           end
  | None => None
  end.

(** An instance whose gui can be put into the element of the filter. *)
Definition mounts (fo : IFilterComp) : bool :=
  match builtGui fo with
  | Some GuiElement => true
  | _ => false
  end.

(** The warning for a gui that does not exist. *)
Definition guiWarning (fo : IFilterComp) : list string :=
  match IFilter.getGui fo with
  | Some getGui_ =>
      if guiExists (getGui_ (IFilter.filterState fo)) then []
      else [("AG Grid: getGui method from filter returned "
             ++ guiText (getGui_ (IFilter.filterState fo))
             ++ ", it should be a DOM element or an HTML template string.")%string]
  | None => []
  end.

(** What is thrown for an instance whose gui cannot be put in. *)
Definition guiError (fo : IFilterComp) : string :=
  match IFilter.getGui fo with
  | Some _ => TypeError_not_a_node
  | None => TypeError_not_a_function
  end.

(** How [putIntoGui] ends on a wrapper that has a promise: it waits while
    the instance is pending, and otherwise puts the gui in or throws. *)
Definition guiOutcome (w : World) (wrapper : ref) : Completion unit :=
  match resolvedFilter w wrapper with
  | Some f => if mounts (filterObjs w f) then Normal tt else Throw (guiError (filterObjs w f))
  | None => Normal tt
  end.

(** What [putIntoGui] logs and dispatches on such a wrapper. *)
Definition guiLog (w : World) (wrapper : ref) : list string :=
  match resolvedFilter w wrapper with
  | Some f => guiWarning (filterObjs w f)
  | None => []
  end.

Definition guiOpened (w : World) (wrapper : ref) (source : FilterRequestSource)
  : list GridEvent :=
  match resolvedFilter w wrapper with
  | Some f =>
      if mounts (filterObjs w f)
      then [EVENT_FILTER_OPENED (column (wrapperObjs w wrapper)) source]
      else []
  | None => []
  end.

(** A wrapper whose instantiation promise has not resolved yet. *)
Definition isPending (w : World) (wrapper : ref) : bool :=
  match filterPromise (wrapperObjs w wrapper) with
  | Some p => match resolution p with Some _ => false | None => true end
  | None => false
  end.

(** The wrapper map without the wrappers that are still pending. *)
Definition withoutPending (w : World) : World :=
  set_allColumnFilters
    (List.filter (fun entry => negb (isPending w (snd entry))) (allColumnFilters w)) w.

End Readings.

(** Two worlds with the same wrappers, instances and columns. *)
Definition sameObjects (w w' : World) : Prop :=
  wrapperObjs w' = wrapperObjs w /\ filterObjs w' = filterObjs w
  /\ columnObjs w' = columnObjs w.

(** [quickFilterParts] follows [quickFilter]. *)
Definition partsInSync (w : World) : Prop :=
  quickFilterParts w
  = match quickFilter w with
    | Some q => if isEmpty q then None else Some (split " " q)
    | None => None
    end.

(** The tokens of a text in the words of the specification: its maximal
    runs of characters other than whitespace. *)
Definition isWhitespace (c : ascii) : bool :=
  let n := nat_of_ascii c in
  (Nat.eqb n 32 || Nat.eqb n 9 || Nat.eqb n 10 || Nat.eqb n 11
   || Nat.eqb n 12 || Nat.eqb n 13)%bool.

Definition whitespaceTokens (s : string) : list string :=
  List.filter (fun piece => negb (isEmpty piece)) (splitBy isWhitespace s).

(** [keeps f c]: the computation [c] never changes the reading [f] of the
    world, whether it completes or throws. *)
Definition keeps {A B : Type} (f : World -> B) (c : M A) : Prop :=
  forall w, f (fst (c w)) = f w.

(* ===================================================================== *)
(** ** A small grid *)
(* ===================================================================== *)

(** Three columns (first name, last name, age) over two rows; a number
    filter that keeps its model as its state. *)
Module Sample.

(** A host for the sample, whose texts are ASCII: [toUpperCase] on the
    letters a-z, [toString] of the booleans, of the integers and of plain
    objects (no other value occurs in the sample), and templates that
    always describe a node. *)
Definition upperChar (c : ascii) : ascii :=
  let n := nat_of_ascii c in
  if ((97 <=? n)%nat && (n <=? 122)%nat)%bool then ascii_of_nat (n - 32) else c.

Fixpoint asciiUpperCase (s : string) : string :=
  match s with
  | EmptyString => EmptyString
  | String c s' => String (upperChar c) (asciiUpperCase s')
  end.

(** The text of a number, for the integers that a double holds exactly;
    any other number is outside the sample. *)
Definition numberText (x : float) : string :=
  match Prim2SF x with
  | S754_zero _ => "0"
  | S754_infinity false => "Infinity"
  | S754_infinity true => "-Infinity"
  | S754_nan => "NaN"
  | S754_finite s m e =>
      let magnitude :=
        if (0 <=? e)%Z then (Z.pos m * 2 ^ e)%Z else (Z.pos m / 2 ^ (- e))%Z in
      ((if s then "-" else "")
       ++ NilZero.string_of_uint (N.to_uint (Z.to_N magnitude)))%string
  end.

Definition plainToString (v : value) : string :=
  match v with
  | VBool true => "true"
  | VBool false => "false"
  | VNumber x => numberText x
  | VString s => s
  | VObject _ => "[object Object]"
  | _ => ""
  end.

Definition host : Host :=
  mkHost asciiUpperCase plainToString (fun _ => GuiElement)
    (fun s => match s with EmptyString => eq_refl | String _ _ => eq_refl end).

(** A second host, which also knows the accented letters of Latin-1: in
    UTF-8 the letters from a-grave to thorn are the byte 195 followed by a
    byte from 160 to 190 (183 is the division sign), and their capitals
    have the second byte 32 lower. *)
Definition upperLatin (c : ascii) : ascii :=
  let n := nat_of_ascii c in
  if ((160 <=? n)%nat && (n <=? 190)%nat && negb (n =? 183)%nat)%bool
  then ascii_of_nat (n - 32) else c.

Fixpoint latinUpperCase (s : string) : string :=
  match s with
  | EmptyString => EmptyString
  | String c s' =>
      match s' with
      | String d s'' =>
          if Ascii.eqb c (ascii_of_nat 195)
          then String c (String (upperLatin d) (latinUpperCase s''))
          else String (upperChar c) (latinUpperCase s')
      | EmptyString => String (upperChar c) EmptyString
      end
  end.

Definition latinUpperCase_isEmpty (s : string) : isEmpty (latinUpperCase s) = isEmpty s :=
  match s with
  | EmptyString => eq_refl
  | String c EmptyString => eq_refl
  | String c (String d s'') =>
      match Ascii.eqb c (ascii_of_nat 195) as b
        return isEmpty (if b then String c (String (upperLatin d) (latinUpperCase s''))
                        else String (upperChar c) (latinUpperCase (String d s''))) = false
      with
      | true => eq_refl
      | false => eq_refl
      end
  end.

Definition latinHost : Host :=
  mkHost latinUpperCase plainToString (fun _ => GuiElement) latinUpperCase_isEmpty.

(** The words cafe and CAFE with an acute accent on the last letter. *)
Definition cafe : string :=
  String "c" (String "a" (String "f"
    (String (ascii_of_nat 195) (String (ascii_of_nat 169) EmptyString)))).

Definition CAFE : string :=
  String "C" (String "A" (String "F"
    (String (ascii_of_nat 195) (String (ascii_of_nat 137) EmptyString)))).

Definition textColDef : ColDef := mkColDef (VBool true) VUndefined None.

Definition numberColDef : ColDef := mkColDef (VBool true) (VString "number") None.

Definition columns (r : ref) : Column :=
  match r with
  | 0 => mkColumn "firstName" textColDef true true false false
  | 1 => mkColumn "lastName" textColDef true true false false
  | 2 => mkColumn "age" numberColDef true true false false
  | _ => mkColumn "pivot_age" numberColDef false true false false
  end.

Definition rows (r : ref) : RowNode :=
  match r with
  | 0 => mkRowNode (VObject [("firstName", VString "John"); ("lastName", VString "Smith");
                             ("age", VNumber 15%float)]) VUndefined
  | _ => mkRowNode (VObject [("firstName", VString "Jane"); ("lastName", VString "Doe");
                             ("age", VNumber 5%float)]) VUndefined
  end.

Definition getValue (c : Column) (n : RowNode) : value :=
  match data n with
  | VObject fields => getProperty fields (colId c)
  | _ => VUndefined
  end.

Definition greaterThan (field : string) (model : value) (n : RowNode) (d : value) : bool :=
  match model, d with
  | VObject m, VObject fields =>
      match getProperty m "filter", getProperty fields field with
      | VNumber bound, VNumber x => PrimFloat.ltb bound x
      | _, _ => false
      end
  | _, _ => true
  end.

Definition storeModel (model state : value) : value * SetModelReturn :=
  (if exists_ model then model else VNull, ReturnsVoid).

Definition numberFilter (model : value) : IFilterComp :=
  mkFilter model (Some exists_) (Some (greaterThan "age")) (Some (fun state => state))
    (Some storeModel) None None (Some (fun _ => GuiElement)).

(** A filter that lacks [setModel]. *)
Definition readOnlyFilter : IFilterComp :=
  mkFilter VNull (Some exists_) (Some (fun _ _ _ => true)) (Some (fun state => state))
    None None None (Some (fun _ => GuiElement)).

Definition filterDetails (cd : ColDef) (defaultFilter : string) : option UserCompDetails :=
  Some (mkCompDetails defaultFilter (InstanceReady (numberFilter VNull))).

Definition grid (type : RowModelType) (usingCache : bool) : Grid :=
  mkGrid (mkColumnModel [0; 1; 2] [0; 1; 2] false false [0; 1] None)
    VUndefined type usingCache false false None None getValue filterDetails false [0; 1]
    host.

Definition noWrapper : FilterWrapper := mkFilterWrapper 0 None GuiNone None.

(** The manager before [init], with no wrapper yet. *)
Definition world : World :=
  mkWorld [] [] [] [] None None false false false false
    columns (fun _ => noWrapper) (fun _ => numberFilter VNull) rows (fun _ => None)
    (fun _ => None) (fun _ => mkApplyPromise false []) (fun _ => mkAllPromise 0 false [])
    10 [] [] [].

Definition ageModel : value :=
  VObject [("filterType", VString "number"); ("filter", VNumber 10%float);
           ("type", VString "greaterThan")].

Definition tab : string := String (ascii_of_nat 9) EmptyString.

(** The client-side grid after [init], and after the age model is set. *)
Definition started (usingCache : bool) : World :=
  fst (init (grid clientSide usingCache) world).

Definition filtered (usingCache : bool) : World :=
  fst (setFilterModel (grid clientSide usingCache) (Some [("age", ageModel)])
         (started usingCache)).

(** The grid after a first request for the filter of the age column. *)
Abbreviation requested :=
  (fst (getOrCreateFilterWrapper (grid clientSide true) 2 NO_UI (started true))).

End Sample.

(** [appends proj P c]: whatever [c] does, the list [proj] of the world only
    grows at its end, by items that satisfy [P]. *)
Definition appends {A T : Type} (proj : World -> list T) (P : T -> Prop) (c : M A) : Prop :=
  forall w, exists delta, proj (fst (c w)) = proj w ++ delta /\ Forall P delta.

Definition isFilterChanged (e : GridEvent) : bool :=
  match e with EVENT_FILTER_CHANGED _ _ => true | _ => false end.

(** The warning with the prefix AG-Grid, the only one of its kind. *)
Definition isUnableToCreate (line : string) : bool := startsWith "AG-Grid" line.

(** [emitsOnce e c]: [c] dispatches the filter-changed event [e] as its last
    event when it completes and no filter-changed event when it throws. *)
Definition emitsOnce (e : GridEvent) (c : M unit) : Prop :=
  forall w, exists delta,
    Forall (fun x => isFilterChanged x = false) delta
    /\ events (fst (c w))
       = events w ++ delta ++ match snd (c w) with Normal _ => [e] | Throw _ => [] end.

(** The promises of a list that have not resolved yet. *)
Definition pendingApplies (w : World) (promises : list ref) : list ref :=
  List.filter (fun a => negb (applyResolved (applyPromises w a))) promises.

Definition isNil {A : Type} (l : list A) : bool :=
  match l with [] => true | _ => false end.

(** [after] is [before] but for the promise stores and the allocation
    counter. *)
Definition onlyPromises (before after : World) : Prop :=
  after = set_applyPromises (applyPromises after)
            (set_allPromises (allPromises after)
               (set_nextRef (nextRef after) before)).

(** Everything of a column but its filter-active flag. *)
Definition columnShape (c : Column) : string * ColDef * bool * bool * bool :=
  (colId c, colDef c, primary c, filterAllowed c, valueActive c).

(** A wrapper whose instance answers [isFilterActive()] with [true]. *)
Definition isActive (w : World) (wrapper : ref) : bool :=
  match activeFilter w wrapper with Some _ => true | None => false end.

(** A wrapper whose instance, once resolved, has [isFilterActive]. *)
Definition answersIsFilterActive (w : World) (wrapper : ref) : bool :=
  match resolvedFilter w wrapper with
  | Some f =>
      match IFilter.isFilterActive (filterObjs w f) with Some _ => true | None => false end
  | None => true
  end.

(** What an instance in a given state contributes to the exported model. *)
Definition reported (fo : IFilterComp) (state : value) : option value :=
  match IFilter.getModel fo with
  | Some getModel_ => if exists_ (getModel_ state) then Some (getModel_ state) else None
  | None => None
  end.

Definition reportedBy (w : World) (filter : ref) : option value :=
  reported (filterObjs w filter) (IFilter.filterState (filterObjs w filter)).

(** The value read from an exported model for an instance: its model, or
    [undefined] when it has exported none. *)
Definition exportedValue (exported : option value) : value :=
  match exported with Some model => model | None => VUndefined end.

(** The methods of an instance, without its state. *)
Definition methodsOf (fo : IFilterComp) : IFilterComp :=
  mkFilter VUndefined (IFilter.isFilterActive fo) (IFilter.doesFilterPass fo)
    (IFilter.getModel fo) (IFilter.setModel fo) (IFilter.onAnyFilterChanged fo)
    (IFilter.onNewRowsLoaded fo) (IFilter.getGui fo).

(** An instance that takes back the model it reports: [setModel] with the
    reported model (or [undefined] when it reports none) answers at once and
    leaves the reported model as it was, whatever the state. *)
Definition roundTrips (fo : IFilterComp) : Prop :=
  exists setModel_,
    IFilter.setModel fo = Some setModel_
    /\ forall state,
         snd (setModel_ (exportedValue (reported fo state)) state) <> ReturnsPending
         /\ reported fo (fst (setModel_ (exportedValue (reported fo state)) state))
            = reported fo state.

(** [after] is [before] but for the states of the instances, the promise
    stores, the console and the allocation counter. *)
Definition onlyFilterStates (before after : World) : Prop :=
  after = set_applyPromises (applyPromises after)
            (set_allPromises (allPromises after)
               (set_filterObjs (filterObjs after)
                  (set_console (console after)
                     (set_nextRef (nextRef after) before))))
  /\ forall f, methodsOf (filterObjs after f) = methodsOf (filterObjs before f).

(** The column of a wrapper is still in the column model: among the primary
    columns for a primary column, among the grid columns otherwise. *)
Definition columnStillThere (grid : Grid) (w : World) (entry : string * ref) : bool :=
  match (if primary (columnObjs w (column (wrapperObjs w (snd entry))))
         then findColumn w (primaryColumns (columnModel grid)) (fst entry)
         else findColumn w (gridColumns (columnModel grid)) (fst entry)) with
  | Some _ => true
  | None => false
  end.

(** An instance that answers [setModel(null)] at once, whatever its state. *)
Definition takesNull (fo : IFilterComp) : Prop :=
  exists setModel_,
    IFilter.setModel fo = Some setModel_
    /\ forall state, snd (setModel_ VNull state) <> ReturnsPending.

(* ===================================================================== *)
(** ** More of the small grid *)
(* ===================================================================== *)

Module Scenario.

(** The sample grid, with the cache of the quick filter. *)
Definition grid : Grid := Sample.grid clientSide true.

(** After the age model is set: one wrapper (10) for the age column (2),
    with its instance (11) resolved. *)
Definition filtered : World := Sample.filtered true.

(** The same, with an instance that lacks [setModel]. *)
Definition readOnly : World :=
  set_filterObjs (upd (filterObjs filtered) 11 Sample.readOnlyFilter) filtered.

(** The sample grid with a component factory whose instances arrive
    later, and the manager after a request for the filter of the age
    column: the wrapper (10) waits for its instance, and [putIntoGui] waits
    with it. *)
Definition deferredGrid : Grid :=
  mkGrid (mkColumnModel [0; 1; 2] [0; 1; 2] false false [0; 1] None)
    VUndefined clientSide true false false None None Sample.getValue
    (fun _ defaultFilter => Some (mkCompDetails defaultFilter InstancePending))
    false [0; 1] Sample.host.

Definition pendingPromise : FilterPromise := mkFilterPromise None [ThenPutIntoGui NO_UI].

Definition waiting : World :=
  fst (getOrCreateFilterWrapper deferredGrid 2 NO_UI (fst (init deferredGrid Sample.world))).

(** The sample grid on the host that knows the accented letters, with
    rows whose last name is written in capitals in the first row and in
    small letters in the others. *)
Definition latinGrid : Grid :=
  mkGrid (mkColumnModel [0; 1; 2] [0; 1; 2] false false [0; 1] None)
    VUndefined clientSide true false false None None Sample.getValue Sample.filterDetails
    false [0; 1] Sample.latinHost.

Definition latinRows (r : ref) : RowNode :=
  match r with
  | 0 => mkRowNode (VObject [("firstName", VString "Jean"); ("lastName", VString Sample.CAFE);
                             ("age", VNumber 15%float)]) VUndefined
  | _ => mkRowNode (VObject [("firstName", VString "Jane"); ("lastName", VString Sample.cafe);
                             ("age", VNumber 5%float)]) VUndefined
  end.

Definition latinStarted : World :=
  fst (init latinGrid (set_rowObjs latinRows Sample.world)).

(** A filter whose [getGui] gives nothing. *)
Definition headlessFilter : IFilterComp :=
  mkFilter VNull (Some exists_) (Some (Sample.greaterThan "age")) (Some (fun state => state))
    (Some Sample.storeModel) None None (Some (fun _ => GuiValue VUndefined)).

(** The sample grid with an external filter that lets the rows of the
    Smiths through. *)
Definition isSmith (n : RowNode) : bool :=
  match data n with
  | VObject fields => value_eqb (getProperty fields "lastName") (VString "Smith")
  | _ => false
  end.

Definition screenedGrid : Grid :=
  mkGrid (mkColumnModel [0; 1; 2] [0; 1; 2] false false [0; 1] None)
    VUndefined clientSide true false false (Some true) (Some isSmith) Sample.getValue
    Sample.filterDetails false [0; 1] Sample.host.

Definition strictModel : value :=
  VObject [("filterType", VString "number"); ("filter", VNumber 20%float);
           ("type", VString "greaterThan")].

(** That grid with the quick filter text o and two column filters: ages
    above 10 on the age column (instance 11) and ages above 20 on the first
    name column (instance 14). *)
Definition screened : World :=
  fst (setQuickFilter screenedGrid (VString "o")
         (fst (setFilterModel screenedGrid
                 (Some [("age", Sample.ageModel); ("firstName", strictModel)])
                 (fst (init screenedGrid Sample.world))))).

End Scenario.

(** The wrappers whose column is gone from the column model, and the
    others, in map order. *)
Definition goneWrappers (grid : Grid) (w : World) (entries : list (string * ref))
  : list (string * ref) :=
  List.filter (fun e => negb (columnStillThere grid w e)) entries.

Definition keptWrappers (grid : Grid) (w : World) (entries : list (string * ref))
  : list (string * ref) :=
  List.filter (fun e => columnStillThere grid w e) entries.

(** The sample grid once the age column has left the column model. *)
Definition gridWithoutAge : Grid :=
  mkGrid (mkColumnModel [0; 1] [0; 1] false false [0; 1] None)
    VUndefined clientSide true false false None None Sample.getValue Sample.filterDetails
    false [0; 1] Sample.host.

(* ===================================================================== *)
(** * Properties *)
(* ===================================================================== *)

(** ** Strings *)

Section StringFacts.

Local Open Scope string_scope.

Lemma append_nil_r (s : string) : s ++ "" = s.
Proof. induction s as [|c s IH]; simpl; [reflexivity | now rewrite IH]. Qed.

Lemma append_assoc (a b c : string) : (a ++ b) ++ c = a ++ (b ++ c).
Proof. induction a as [|x a IH]; simpl; [reflexivity | now rewrite IH]. Qed.

Lemma upperChar_idempotent (c : ascii) :
  Sample.upperChar (Sample.upperChar c) = Sample.upperChar c.
Proof. destruct c as [[] [] [] [] [] [] [] []]; reflexivity. Qed.

Lemma asciiUpperCase_idempotent (s : string) :
  Sample.asciiUpperCase (Sample.asciiUpperCase s) = Sample.asciiUpperCase s.
Proof.
  induction s as [|c s IH]; simpl; [reflexivity|].
  now rewrite upperChar_idempotent, IH.
Qed.

Lemma isEmpty_toUpperCase (grid : Grid) (s : string) :
  isEmpty (toUpperCase grid s) = isEmpty s.
Proof. apply toUpperCase_isEmpty. Qed.

Lemma isEmpty_true (s : string) : isEmpty s = true <-> s = "".
Proof. destruct s; simpl; split; congruence. Qed.

Lemma startsWith_spec (p s : string) :
  startsWith p s = true <-> exists r, s = p ++ r.
Proof.
  revert s; induction p as [|a p IH]; intros s; simpl.
  - split; [intros _; now exists s | reflexivity].
  - destruct s as [|b s].
    + split; [discriminate | intros [r Hr]; discriminate].
    + rewrite andb_true_iff, Ascii.eqb_eq, IH. split.
      * intros [-> [r ->]]. now exists r.
      * intros [r Hr]. injection Hr as -> ->. split; [reflexivity | now exists r].
Qed.

Lemma indexOfFrom_range (s p : string) (i : Z) :
  (0 <= i)%Z -> (indexOfFrom i s p = -1 \/ i <= indexOfFrom i s p)%Z.
Proof.
  revert i; induction s as [|c s IH]; intros i Hi; simpl.
  - destruct (startsWith p ""); [right; lia | now left].
  - destruct (startsWith p (String c s)); [right; lia|].
    destruct (IH (i + 1)%Z ltac:(lia)) as [H | H]; [now left | right; lia].
Qed.

Lemma indexOfFrom_found (s p : string) (i : Z) :
  (0 <= i)%Z -> ((i <= indexOfFrom i s p)%Z <-> occurs p s).
Proof.
  revert i; induction s as [|c s IH]; intros i Hi; simpl.
  - destruct (startsWith p "") eqn:E.
    + split; [intros _ | lia].
      apply startsWith_spec in E as [r Hr]. exists "", r. exact Hr.
    + split; [lia|]. intros [a [b Hab]].
      destruct a; [|discriminate]. simpl in Hab.
      assert (startsWith p "" = true) by (apply startsWith_spec; now exists b).
      congruence.
  - destruct (startsWith p (String c s)) eqn:E.
    + split; [intros _ | lia].
      apply startsWith_spec in E as [r Hr]. exists "", r. exact Hr.
    + destruct (indexOfFrom_range s p (i + 1)%Z ltac:(lia)) as [Hm | Hge].
      * rewrite Hm. split; [lia|]. intros [a [b Hab]].
        destruct a as [|x a]; simpl in Hab.
        -- assert (startsWith p (String c s) = true)
             by (apply startsWith_spec; now exists b).
           congruence.
        -- injection Hab as -> ->.
           assert (occurs p (a ++ p ++ b)) as Ho by (now exists a, b).
           apply (IH (i + 1)%Z ltac:(lia)) in Ho. lia.
      * split; [intros _ | lia].
        apply (IH (i + 1)%Z ltac:(lia)) in Hge as [a [b ->]].
        now exists (String c a), b.
Qed.

Lemma includes_occurs (s p : string) : includes s p = true <-> occurs p s.
Proof.
  unfold includes, indexOf. rewrite Z.leb_le.
  apply indexOfFrom_found; lia.
Qed.

Lemma includes_empty (s : string) : includes s "" = true.
Proof. apply includes_occurs. now exists "", s. Qed.

Lemma occurs_append_l (p a b : string) : occurs p a -> occurs p (a ++ b).
Proof.
  intros [x [y ->]]. exists x, (y ++ b).
  now rewrite !append_assoc.
Qed.

Lemma occurs_append_r (p a b : string) : occurs p b -> occurs p (a ++ b).
Proof.
  intros [x [y ->]]. exists (a ++ x), y.
  now rewrite !append_assoc.
Qed.

(** A string without the character [c] that starts before a [c] ends before
    it. *)
Lemma prefix_before_char (c : ascii) (p y a b : string) :
  contains_char c p = false ->
  p ++ y = a ++ String c b ->
  exists r, a = p ++ r.
Proof.
  revert a; induction p as [|x p IH]; intros a Hc H; simpl in *.
  - now exists a.
  - apply orb_false_iff in Hc as [Hx Hp].
    destruct a as [|a0 a]; simpl in H; injection H as -> H.
    + rewrite Ascii.eqb_refl in Hx. discriminate.
    + destruct (IH a Hp H) as [r ->]. now exists r.
Qed.

(** An occurrence of a string without [c] never straddles a [c]. *)
Lemma occurs_across_char (c : ascii) (p a b : string) :
  contains_char c p = false ->
  occurs p (a ++ String c b) -> occurs p a \/ occurs p b.
Proof.
  intros Hc [x [y H]]. revert a H; induction x as [|x0 x IH]; intros a H.
  - simpl in H. symmetry in H.
    destruct (prefix_before_char c p y a b Hc H) as [r ->].
    left. now exists "", r.
  - destruct a as [|a0 a]; simpl in H; injection H as -> H.
    + right. subst b. now exists x, y.
    + destruct (IH a H) as [[u [v ->]] | Hb]; [left | now right].
      now exists (String x0 u), v.
Qed.

Lemma occurs_join (c : ascii) (p : string) (l : list string) :
  contains_char c p = false -> p <> "" ->
  (occurs p (join (String c "") l) <-> exists s, In s l /\ occurs p s).
Proof.
  intros Hc Hne. induction l as [|s l IH].
  - simpl. split.
    + intros [a [b H]]. destruct a; [|discriminate]. destruct p; [congruence | discriminate].
    + intros [s [[] _]].
  - destruct l as [|s' l].
    + simpl. split; [intros H; exists s; auto | intros [s0 [[<- | []] H]]; exact H].
    + change (join (String c "") (s :: s' :: l))
        with (s ++ String c (join (String c "") (s' :: l))).
      split.
      * intros H. apply occurs_across_char in H as [H | H]; [| |exact Hc].
        -- exists s. split; [now left | exact H].
        -- apply IH in H as [s0 [Hin Ho]]. exists s0. split; [now right | exact Ho].
      * intros [s0 [[<- | Hin] Ho]].
        -- now apply occurs_append_l.
        -- apply (occurs_append_r p s (String c _)).
           apply (occurs_append_r p (String c "") _).
           apply IH. now exists s0.
Qed.

End StringFacts.

(** ** Computations *)

Section MonadFacts.

Context {B : Type} (f : World -> B).

Lemma keeps_ret {A} (a : A) : keeps f (ret a).
Proof. intros w; reflexivity. Qed.

Lemma keeps_throw {A} (e : string) : keeps f (@throw A e).
Proof. intros w; reflexivity. Qed.

Lemma keeps_gets {A} (g : World -> A) : keeps f (gets g).
Proof. intros w; reflexivity. Qed.

Lemma keeps_modify (g : World -> World) :
  (forall w, f (g w) = f w) -> keeps f (modify g).
Proof. intros H w; apply H. Qed.

Lemma keeps_bind {A C} (c : M A) (k : A -> M C) :
  keeps f c -> (forall a, keeps f (k a)) -> keeps f (bind c k).
Proof.
  intros Hc Hk w. unfold bind. specialize (Hc w).
  destruct (c w) as [w' [a | e]]; simpl in *.
  - now rewrite Hk.
  - exact Hc.
Qed.

Lemma keeps_forEach {A} (l : list A) (body : A -> M unit) :
  (forall x, keeps f (body x)) -> keeps f (forEach l body).
Proof.
  intros H. induction l as [|x l IH]; simpl.
  - apply keeps_ret.
  - apply keeps_bind; [apply H | intros _; exact IH].
Qed.

Lemma keeps_every {A} (l : list A) (test : A -> M bool) :
  (forall x, keeps f (test x)) -> keeps f (every l test).
Proof.
  intros H. induction l as [|x l IH]; simpl.
  - apply keeps_ret.
  - apply keeps_bind; [apply H | intros []; [exact IH | apply keeps_ret]].
Qed.

Lemma keeps_some {A} (l : list A) (test : A -> M bool) :
  (forall x, keeps f (test x)) -> keeps f (some l test).
Proof.
  intros H. induction l as [|x l IH]; simpl.
  - apply keeps_ret.
  - apply keeps_bind; [apply H | intros []; [apply keeps_ret | exact IH]].
Qed.

Lemma keeps_when (b : bool) (c : M unit) : keeps f c -> keeps f (when b c).
Proof. intros H. destruct b; [exact H | apply keeps_ret]. Qed.

Lemma keeps_pushEach {A} (l : list A) (body : A -> M (option ref)) acc :
  (forall x, keeps f (body x)) -> keeps f (pushEach l body acc).
Proof.
  intros H. revert acc. induction l as [|x l IH]; intros acc; simpl.
  - apply keeps_ret.
  - apply keeps_bind; [apply H | intros a; apply IH].
Qed.

End MonadFacts.

(** Breaks a goal [keeps f c] down along the structure of [c]. *)
Ltac keeps_step :=
  match goal with
  | |- keeps _ (ret _) => apply keeps_ret
  | |- keeps _ (throw _) => apply keeps_throw
  | |- keeps _ (gets _) => apply keeps_gets
  | |- keeps _ (bind _ _) => apply keeps_bind; [| intros ?]
  | |- keeps _ (forEach _ _) => apply keeps_forEach; intros ?
  | |- keeps _ (every _ _) => apply keeps_every; intros ?
  | |- keeps _ (some _ _) => apply keeps_some; intros ?
  | |- keeps _ (when _ _) => apply keeps_when
  | |- keeps _ (pushEach _ _ _) => apply keeps_pushEach; intros ?
  | |- keeps _ (modify _) => apply keeps_modify; intros ?; reflexivity
  | |- keeps _ alloc => intros ?; reflexivity
  | |- keeps _ (match ?x with _ => _ end) => destruct x
  | |- keeps _ (if ?x then _ else _) => destruct x
  | |- keeps _ (let (_, _) := ?x in _) => destruct x
  end.

Ltac keeps_tac := repeat keeps_step.

(** ** The quick filter, as functions of the world *)

Section QuickFilterFacts.

Variable grid : Grid.

Lemma getQuickFilterTextForColumn_reading (col node : ref) (w : World) :
  getQuickFilterTextForColumn grid col node w
  = (w, Normal (columnQuickFilterText grid (columnObjs w col) (rowObjs w node))).
Proof. reflexivity. Qed.

Lemma some_NoCache (cols : list ref) (node : ref) (part : string) (w : World) :
  some cols (fun col =>
    bind (getQuickFilterTextForColumn grid col node) (fun text =>
      ret (exists_ (textValue text)
           && match text with Some p => includes p part | None => false end))) w
  = (w, Normal (existsb (partInColumn part)
                  (map (fun col => columnQuickFilterText grid (columnObjs w col) (rowObjs w node))
                     cols))).
Proof.
  induction cols as [|col cols IH]; [reflexivity|].
  simpl. unfold bind at 1. unfold bind at 1.
  rewrite getQuickFilterTextForColumn_reading. simpl.
  destruct (columnQuickFilterText grid (columnObjs w col) (rowObjs w node)) as [p|]; simpl.
  - destruct (negb (isEmpty p) && includes p part); [reflexivity | exact IH].
  - exact IH.
Qed.

Lemma doesRowPassQuickFilterNoCache_reading (node : ref) (part : string) (w : World) :
  doesRowPassQuickFilterNoCache grid node part w
  = (w, Normal (existsb (partInColumn part) (columnTexts grid w node))).
Proof. apply some_NoCache. Qed.

Lemma aggregateRowForQuickFilter_loop_reading (cols : list ref) (node : ref)
    (acc : list string) (w : World) :
  aggregateRowForQuickFilter_loop grid cols node acc w
  = (w, Normal (acc ++ flat_map keptText
                  (map (fun col => columnQuickFilterText grid (columnObjs w col) (rowObjs w node))
                     cols))).
Proof.
  revert acc; induction cols as [|col cols IH]; intros acc; simpl.
  - now rewrite app_nil_r.
  - unfold bind. rewrite getQuickFilterTextForColumn_reading.
    rewrite IH. f_equal. f_equal.
    destruct (columnQuickFilterText grid (columnObjs w col) (rowObjs w node)) as [p|]; simpl.
    + destruct (isEmpty p); simpl; [reflexivity | now rewrite <- app_assoc].
    + reflexivity.
Qed.

Lemma aggregateRowForQuickFilter_reading (node : ref) (w : World) :
  aggregateRowForQuickFilter grid node w
  = (set_quickFilterAggregateText
       (upd (quickFilterAggregateText w) node (Some (aggregateText grid w node))) w,
     Normal tt).
Proof.
  unfold aggregateRowForQuickFilter, bind.
  rewrite aggregateRowForQuickFilter_loop_reading. reflexivity.
Qed.

Lemma upd_same {A} (store : ref -> A) (r : ref) (x : A) : upd store r x r = x.
Proof. unfold upd. now rewrite Nat.eqb_refl. Qed.

Lemma upd_other {A} (store : ref -> A) (r r' : ref) (x : A) :
  r' <> r -> upd store r x r' = store r'.
Proof. intros H. unfold upd. now apply Nat.eqb_neq in H as ->. Qed.

Lemma doesRowPassQuickFilterCache_reading (node : ref) (part : string) (w : World) :
  doesRowPassQuickFilterCache grid node part w
  = (afterCacheCheck grid w node, Normal (includes (searchedText grid w node) part)).
Proof.
  unfold doesRowPassQuickFilterCache, afterCacheCheck, searchedText, bind, gets, when.
  destruct (quickFilterAggregateText w node) as [t|] eqn:E; simpl.
  - destruct (isEmpty t) eqn:Et.
    + rewrite aggregateRowForQuickFilter_reading. simpl. now rewrite upd_same.
    + unfold ret. simpl. now rewrite E.
  - rewrite aggregateRowForQuickFilter_reading. simpl. now rewrite upd_same.
Qed.

Lemma searchedText_afterCacheCheck (node : ref) (w : World) :
  searchedText grid (afterCacheCheck grid w node) node = searchedText grid w node.
Proof.
  unfold afterCacheCheck, searchedText.
  destruct (quickFilterAggregateText w node) as [t|] eqn:E; simpl.
  - destruct (isEmpty t) eqn:Et; simpl.
    + rewrite upd_same. now destruct (isEmpty (aggregateText grid w node)).
    + now rewrite E, Et.
  - rewrite upd_same. now destruct (isEmpty (aggregateText grid w node)).
Qed.

Lemma every_cache (node : ref) (parts : list string) (w : World) :
  snd (every parts (doesRowPassQuickFilterCache grid node) w)
  = Normal (forallb (fun part => includes (searchedText grid w node) part) parts).
Proof.
  revert w; induction parts as [|part parts IH]; intros w; [reflexivity|].
  simpl. unfold bind. rewrite doesRowPassQuickFilterCache_reading.
  destruct (includes (searchedText grid w node) part); simpl; [|reflexivity].
  rewrite IH. now rewrite searchedText_afterCacheCheck.
Qed.

Lemma every_noCache (node : ref) (parts : list string) (w : World) :
  every parts (doesRowPassQuickFilterNoCache grid node) w
  = (w, Normal (forallb (fun part => existsb (partInColumn part) (columnTexts grid w node)) parts)).
Proof.
  induction parts as [|part parts IH]; [reflexivity|].
  simpl. unfold bind. rewrite doesRowPassQuickFilterNoCache_reading.
  destruct (existsb (partInColumn part) (columnTexts grid w node)); simpl;
    [exact IH | reflexivity].
Qed.

(** The verdict of [doesRowPassQuickFilter] once the parts are set: every
    part matches. *)
Lemma doesRowPassQuickFilter_reading (node : ref) (parts : list string) (w : World) :
  quickFilterParts w = Some parts ->
  snd (doesRowPassQuickFilter grid node w)
  = Normal (forallb (partMatches grid w node) parts).
Proof.
  intros Hp. unfold doesRowPassQuickFilter, bind, gets. rewrite Hp.
  unfold partMatches. destruct (cacheQuickFilter grid).
  - apply (every_cache node parts w).
  - apply (f_equal snd (every_noCache node parts w)).
Qed.

Lemma doesRowPassQuickFilter_no_parts (node : ref) (w : World) :
  quickFilterParts w = None ->
  doesRowPassQuickFilter grid node w = (w, Throw TypeError_null).
Proof.
  intros Hp. unfold doesRowPassQuickFilter, bind, gets. now rewrite Hp.
Qed.

Lemma forallb_Permutation {A} (test : A -> bool) (l l' : list A) :
  Permutation l l' -> forallb test l = forallb test l'.
Proof.
  intros H. induction H as [| x l l' _ IH | x y l | l l' l'' _ IH1 _ IH2]; simpl.
  - reflexivity.
  - now rewrite IH.
  - destruct (test x), (test y); reflexivity.
  - congruence.
Qed.

End QuickFilterFacts.

(** ** What the filter-changed protocol leaves alone *)

Ltac head_of t :=
  lazymatch t with
  | ?f _ => head_of f
  | _ => t
  end.

(** Unfolds the method at the head of a [keeps] goal. *)
Ltac keeps_unfold :=
  lazymatch goal with
  | |- keeps _ ?c => let h := head_of c in unfold h
  end.

Ltac keeps_all := repeat (keeps_step || keeps_unfold).

Section FrameFacts.

Variable grid : Grid.

Lemma onFilterChanged_keeps_quickFilter filterInstance attrs columns :
  keeps quickFilter (onFilterChanged grid filterInstance attrs columns).
Proof. keeps_all. Qed.

Lemma onFilterChanged_keeps_quickFilterParts filterInstance attrs columns :
  keeps quickFilterParts (onFilterChanged grid filterInstance attrs columns).
Proof. keeps_all. Qed.

End FrameFacts.

(** ** Row-pass evaluation, as functions of the world *)

Section RowPassFacts.

Variable grid : Grid.

Lemma doColumnFiltersPass_loop_reading (filters : list ref) (node : ref)
    (skip : option ref) (agg : bool) (w : World) :
  doColumnFiltersPass_loop filters node skip agg w
  = (w, columnFiltersOutcome w node skip agg filters).
Proof.
  induction filters as [|f filters IH]; [reflexivity|].
  simpl. destruct (option_ref_eqb skip f); [exact IH|].
  unfold bind, gets, filterAnswer. simpl.
  destruct (IFilter.doesFilterPass (filterObjs w f)) as [pass|]; [|reflexivity].
  simpl.
  destruct (pass (IFilter.filterState (filterObjs w f)) (rowObjs w node)
              (if agg then aggData (rowObjs w node) else data (rowObjs w node)));
    simpl; [exact IH | reflexivity].
Qed.

Lemma doColumnFiltersPass_reading (node : ref) (skip : option ref) (agg : bool) (w : World) :
  doColumnFiltersPass node skip agg w
  = (w, columnFiltersOutcome w node skip agg
          (if agg then activeAggregateFilters w else activeColumnFilters w)).
Proof.
  unfold doColumnFiltersPass, bind, gets. apply doColumnFiltersPass_loop_reading.
Qed.

Lemma columnFiltersOutcome_same (w w' : World) node skip agg filters :
  filterObjs w' = filterObjs w -> rowObjs w' = rowObjs w ->
  columnFiltersOutcome w' node skip agg filters
  = columnFiltersOutcome w node skip agg filters.
Proof.
  intros Hf Hr. induction filters as [|f filters IH]; [reflexivity|].
  simpl. unfold filterAnswer. rewrite Hf, Hr, IH. reflexivity.
Qed.

(** The loop answers [true] exactly when every consulted filter has the
    method and lets the row pass. *)
Lemma columnFiltersOutcome_true (w : World) node skip agg filters :
  columnFiltersOutcome w node skip agg filters = Normal true
  <-> Forall (fun f => filterAnswer w node agg f = Some true) (consulted skip filters).
Proof.
  induction filters as [|f filters IH]; simpl.
  - split; [constructor | reflexivity].
  - destruct (option_ref_eqb skip f); simpl; [exact IH|].
    destruct (filterAnswer w node agg f) as [[]|] eqn:E.
    + rewrite IH. split; [now constructor | now inversion 1].
    + split; [discriminate | inversion 1; congruence].
    + split; [discriminate | inversion 1; congruence].
Qed.

(** With the method on every consulted filter, the loop is the conjunction
    of their answers. *)
Lemma columnFiltersOutcome_conjunction (w : World) node skip agg filters :
  Forall (fun f => filterAnswer w node agg f <> None) (consulted skip filters) ->
  columnFiltersOutcome w node skip agg filters
  = Normal (forallb (fun f => match filterAnswer w node agg f with
                              | Some b => b
                              | None => false
                              end) (consulted skip filters)).
Proof.
  induction filters as [|f filters IH]; simpl; [reflexivity|].
  destruct (option_ref_eqb skip f); simpl; [exact IH|].
  intros H. inversion H as [|? ? Hf Hrest]; subst.
  destruct (filterAnswer w node agg f) as [[]|]; simpl.
  - now apply IH.
  - reflexivity.
  - congruence.
Qed.

Lemma doesRowPassQuickFilter_keeps {B} (f : World -> B) (node : ref) :
  (forall x w, f (set_quickFilterAggregateText x w) = f w) ->
  keeps f (doesRowPassQuickFilter grid node).
Proof.
  intros Hf. unfold doesRowPassQuickFilter.
  apply keeps_bind; [apply keeps_gets | intros [parts|]; [|apply keeps_throw]].
  apply keeps_every. intros part. destruct (cacheQuickFilter grid).
  - intros w. rewrite doesRowPassQuickFilterCache_reading. simpl.
    unfold afterCacheCheck. destruct (noAggregateText _); [apply Hf | reflexivity].
  - intros w. now rewrite doesRowPassQuickFilterNoCache_reading.
Qed.

Lemma failsWhen_external (node : ref) (w : World) :
  failsWhen isExternalFilterPresent (doesExternalFilterPass grid node) w
  = (w, Normal (negb (externalFilterStage grid w node))).
Proof.
  unfold failsWhen, isExternalFilterPresent, doesExternalFilterPass, externalFilterStage,
    bind, gets, ret.
  destruct (externalFilterPresent w); [|reflexivity].
  destruct (doesExternalFilterPass_callback grid); reflexivity.
Qed.

Lemma failsWhen_column (node : ref) (skip : option ref) (w : World) :
  failsWhen isColumnFilterPresent (doColumnFiltersPass node skip false) w
  = (w, match columnFiltersOutcome w node skip false (activeColumnFilters w) with
        | Normal a => Normal (negb a)
        | Throw e => Throw e
        end).
Proof.
  unfold failsWhen, isColumnFilterPresent, bind, gets, ret.
  destruct (activeColumnFilters w) as [|f l] eqn:Ea; [reflexivity|].
  cbn [negb Nat.eqb List.length].
  rewrite doColumnFiltersPass_reading, Ea.
  destruct (columnFiltersOutcome w node skip false (f :: l)); reflexivity.
Qed.

(** Stages 2 and 3 of [doesRowPassFilter]. *)
Lemma laterStages_reading (node : ref) (skip : option ref) (w : World) :
  bind (failsWhen isExternalFilterPresent (doesExternalFilterPass grid node))
    (fun externalFails =>
       if externalFails then ret false
       else
         bind (failsWhen isColumnFilterPresent (doColumnFiltersPass node skip false))
           (fun columnFails => if columnFails then ret false else ret true)) w
  = (w, if externalFilterStage grid w node
        then columnFiltersOutcome w node skip false (activeColumnFilters w)
        else Normal false).
Proof.
  unfold bind at 1. rewrite failsWhen_external.
  destruct (externalFilterStage grid w node); simpl; [|reflexivity].
  unfold bind. rewrite failsWhen_column.
  now destruct (columnFiltersOutcome w node skip false (activeColumnFilters w)) as [[]|].
Qed.

Lemma laterStages_same (w w1 : World) node skip :
  externalFilterPresent w1 = externalFilterPresent w ->
  activeColumnFilters w1 = activeColumnFilters w ->
  filterObjs w1 = filterObjs w -> rowObjs w1 = rowObjs w ->
  (if externalFilterStage grid w1 node
   then columnFiltersOutcome w1 node skip false (activeColumnFilters w1)
   else Normal false)
  = (if externalFilterStage grid w node
     then columnFiltersOutcome w node skip false (activeColumnFilters w)
     else Normal false).
Proof.
  intros He Ha Hf Hr. unfold externalFilterStage. rewrite He, Ha, Hr.
  now rewrite (columnFiltersOutcome_same w w1).
Qed.

(** Stage 1, with the world it leaves. *)
Lemma quickStage_reading (node : ref) (w : World) :
  exists w1,
    failsWhen (isNonAggregateQuickFilterPresent grid) (doesRowPassQuickFilter grid node) w
    = (w1, match quickFilterStage grid w node with
           | Normal a => Normal (negb a)
           | Throw e => Throw e
           end)
    /\ externalFilterPresent w1 = externalFilterPresent w
    /\ activeColumnFilters w1 = activeColumnFilters w
    /\ filterObjs w1 = filterObjs w /\ rowObjs w1 = rowObjs w.
Proof.
  unfold failsWhen, isNonAggregateQuickFilterPresent, isQuickFilterPresent, quickFilterStage,
    bind, gets, ret.
  destruct (quickFilter w) as [q|]; simpl; [|now exists w].
  destruct (negb (aggFiltering w || pivotMode (columnModel grid))); simpl; [|now exists w].
  pose proof (doesRowPassQuickFilter_keeps externalFilterPresent node (fun _ _ => eq_refl) w).
  pose proof (doesRowPassQuickFilter_keeps activeColumnFilters node (fun _ _ => eq_refl) w).
  pose proof (doesRowPassQuickFilter_keeps filterObjs node (fun _ _ => eq_refl) w).
  pose proof (doesRowPassQuickFilter_keeps rowObjs node (fun _ _ => eq_refl) w).
  destruct (doesRowPassQuickFilter grid node w) as [w1 [a|e]]; simpl in *;
    exists w1; auto.
Qed.

(** [doesRowPassFilter], stage after stage. *)
Lemma doesRowPassFilter_reading (node : ref) (skip : option ref) (w : World) :
  snd (doesRowPassFilter grid node skip w)
  = match quickFilterStage grid w node with
    | Throw e => Throw e
    | Normal false => Normal false
    | Normal true =>
        if externalFilterStage grid w node
        then columnFiltersOutcome w node skip false (activeColumnFilters w)
        else Normal false
    end.
Proof.
  unfold doesRowPassFilter. unfold bind at 1.
  destruct (quickStage_reading node w) as [w1 [E [He [Ha [Hf Hr]]]]]. rewrite E.
  destruct (quickFilterStage grid w node) as [[]|e]; simpl; try reflexivity.
  rewrite laterStages_reading. simpl. now apply laterStages_same.
Qed.

End RowPassFacts.

(** ** The active filter sets, as functions of the world *)

Section ActiveFilterFacts.

Variable grid : Grid.

Lemma classified_same (agg : bool) (w w' : World) (entries : list (string * ref)) :
  sameObjects w w' -> classified grid agg w' entries = classified grid agg w entries.
Proof.
  intros [Hw [Hf Hc]]. unfold classified.
  assert (visited w' entries = visited w entries) as ->.
  { induction entries as [|e entries IH]; simpl; [reflexivity|].
    unfold hasPromise. now rewrite Hw, IH. }
  unfold activeFilter, resolvedFilter, wrapperColumn. now rewrite Hw, Hf, Hc.
Qed.

Lemma classified_single (agg : bool) (w : World) (entry : string * ref) :
  classified grid agg w [entry]
  = match filterPromise (wrapperObjs w (snd entry)) with
    | Some p =>
        match resolution p with
        | Some f =>
            match IFilter.isFilterActive (filterObjs w f) with
            | Some test =>
                if test (IFilter.filterState (filterObjs w f))
                then if Bool.eqb (isAggFilter grid (groupAggFiltering grid)
                                    (columnObjs w (column (wrapperObjs w (snd entry))))) agg
                     then [f] else []
                else []
            | None => []
            end
        | None => []
        end
    | None => []
    end.
Proof.
  unfold classified, visited, hasPromise.
  destruct (filterPromise (wrapperObjs w (snd entry))) as [p|] eqn:Ep; simpl; [|reflexivity].
  rewrite app_nil_r. unfold activeFilter, resolvedFilter, wrapperColumn. rewrite Ep.
  destruct (resolution p) as [f|]; [|reflexivity].
  destruct (IFilter.isFilterActive (filterObjs w f)) as [test|]; [|reflexivity].
  destruct (test (IFilter.filterState (filterObjs w f))); reflexivity.
Qed.

(** One turn of the loop of [updateActiveFilters]. *)
Lemma updateActiveFilters_entry_reading (entry : string * ref) (w : World) :
  exists w1,
    updateActiveFilters_entry grid (groupAggFiltering grid) entry w
    = (w1, if hasPromise w (snd entry) then Normal tt else Throw TypeError_null)
    /\ sameObjects w w1
    /\ allColumnFilters w1 = allColumnFilters w
    /\ activeAggregateFilters w1
       = activeAggregateFilters w ++ classified grid true w [entry]
    /\ activeColumnFilters w1
       = activeColumnFilters w ++ classified grid false w [entry].
Proof.
  rewrite !classified_single.
  unfold updateActiveFilters_entry, hasPromise, filterPromise_resolveNow, filterPromiseOf,
    updateActiveFilters_isFilterActive, bind, gets, ret, throw, sameObjects.
  simpl.
  destruct (filterPromise (wrapperObjs w (snd entry))) as [p|] eqn:Ep; simpl.
  2: { exists w. rewrite ?app_nil_r. repeat split. }
  destruct (resolution p) as [f|] eqn:Er; simpl.
  2: { exists w. rewrite ?app_nil_r. repeat split. }
  destruct (IFilter.isFilterActive (filterObjs w f)) as [test|]; simpl.
  - destruct (test (IFilter.filterState (filterObjs w f))); simpl.
    + rewrite Ep. simpl. rewrite Er. simpl. unfold modify.
      destruct (isAggFilter grid (groupAggFiltering grid)
                  (columnObjs w (column (wrapperObjs w (snd entry))))); simpl;
        eexists; (split; [reflexivity|]); simpl; rewrite ?app_nil_r; repeat split.
    + exists w. rewrite ?app_nil_r. repeat split.
  - eexists. split; [reflexivity|]. simpl. rewrite ?app_nil_r. repeat split.
Qed.

Lemma sameObjects_refl (w : World) : sameObjects w w.
Proof. repeat split. Qed.

Lemma sameObjects_trans (w1 w2 w3 : World) :
  sameObjects w1 w2 -> sameObjects w2 w3 -> sameObjects w1 w3.
Proof. intros [? [? ?]] [? [? ?]]. repeat split; congruence. Qed.

Lemma classified_cons (agg : bool) (w : World) entry entries :
  classified grid agg w (entry :: entries)
  = if hasPromise w (snd entry)
    then classified grid agg w [entry] ++ classified grid agg w entries
    else [].
Proof.
  unfold classified. simpl. destruct (hasPromise w (snd entry)); [|reflexivity].
  simpl. now rewrite app_nil_r.
Qed.

(** The loop of [updateActiveFilters]: it completes exactly when every
    wrapper has a promise, and it appends the classified instances. *)
Lemma updateActiveFilters_loop_reading (entries : list (string * ref)) (w : World) :
  exists w1,
    forEach entries (updateActiveFilters_entry grid (groupAggFiltering grid)) w
    = (w1, if forallb (fun e => hasPromise w (snd e)) entries
           then Normal tt else Throw TypeError_null)
    /\ sameObjects w w1
    /\ allColumnFilters w1 = allColumnFilters w
    /\ activeAggregateFilters w1
       = activeAggregateFilters w ++ classified grid true w entries
    /\ activeColumnFilters w1
       = activeColumnFilters w ++ classified grid false w entries.
Proof.
  revert w; induction entries as [|entry entries IH]; intros w.
  - exists w. simpl. unfold classified. simpl. rewrite !app_nil_r.
    repeat split.
  - destruct (updateActiveFilters_entry_reading entry w) as [w1 [E [Hs [Hm [Ha Hc]]]]].
    simpl. unfold bind. rewrite E.
    rewrite (classified_cons true w entry entries), (classified_cons false w entry entries).
    destruct (hasPromise w (snd entry)) eqn:Hp; simpl.
    + destruct (IH w1) as [w2 [E2 [Hs2 [Hm2 [Ha2 Hc2]]]]].
      exists w2. rewrite E2.
      assert (forallb (fun e => hasPromise w1 (snd e)) entries
              = forallb (fun e => hasPromise w (snd e)) entries) as ->.
      { unfold hasPromise. destruct Hs as [Hw _]. now rewrite Hw. }
      split; [reflexivity|].
      split; [eapply sameObjects_trans; eassumption|].
      split; [congruence|].
      rewrite Ha2, Hc2, Ha, Hc, !(classified_same _ w w1) by assumption.
      now rewrite <- !app_assoc.
    + exists w1. rewrite classified_single in Ha, Hc. unfold hasPromise in Hp.
      destruct (filterPromise (wrapperObjs w (snd entry))); [discriminate|]. auto.
Qed.

Lemma updateActiveFilters_reading (w : World) :
  exists w1,
    updateActiveFilters grid w
    = (w1, if forallb (fun e => hasPromise w (snd e)) (allColumnFilters w)
           then Normal tt else Throw TypeError_null)
    /\ sameObjects w w1
    /\ allColumnFilters w1 = allColumnFilters w
    /\ activeAggregateFilters w1 = classified grid true w (allColumnFilters w)
    /\ activeColumnFilters w1 = classified grid false w (allColumnFilters w).
Proof.
  unfold updateActiveFilters, bind, modify, gets. simpl.
  destruct (updateActiveFilters_loop_reading (allColumnFilters w)
              (set_activeAggregateFilters [] (set_activeColumnFilters [] w)))
    as [w1 [E [Hs [Hm [Ha Hc]]]]].
  exists w1. simpl in *. rewrite E.
  rewrite (classified_same true w) in Ha by (repeat split).
  rewrite (classified_same false w) in Hc by (repeat split).
  split; [simpl; now destruct (forallb _ _)|].
  repeat split; try assumption; apply Hs.
Qed.

End ActiveFilterFacts.

(** ** Wrappers: creation, reuse and disposal *)

Section WrapperFacts.

Variable grid : Grid.

Lemma pair_of_snd {A C : Type} (p : A * C) (c : C) : snd p = c -> p = (fst p, c).
Proof. destruct p; simpl; now intros ->. Qed.

Lemma bind_Normal {A C} (c : M A) (k : A -> M C) (w w2 : World) (x : C) :
  bind c k w = (w2, Normal x) ->
  exists w1 a, c w = (w1, Normal a) /\ k a w1 = (w2, Normal x).
Proof.
  unfold bind. destruct (c w) as [w1 [a|e]]; intros H; [|discriminate].
  now exists w1, a.
Qed.

Lemma map_get_set {A} (m : list (string * A)) (key : string) (v : A) :
  map_get (map_set m key v) key = Some v.
Proof.
  induction m as [|[k x] m IH]; simpl.
  - now rewrite String.eqb_refl.
  - destruct (String.eqb k key) eqn:E; simpl; rewrite E; [reflexivity | exact IH].
Qed.

Lemma map_get_delete {A} (m : list (string * A)) (key : string) :
  map_get (map_delete m key) key = None.
Proof.
  induction m as [|[k x] m IH]; simpl; [reflexivity|].
  destruct (String.eqb k key) eqn:E; simpl; [exact IH | now rewrite E].
Qed.

(** The callback of [putIntoGui], case by case. *)
Lemma putIntoGui_callback_reading (wrapper : ref) (source : FilterRequestSource)
    (f : ref) (w : World) :
  let fo := filterObjs w f in
  exists w1,
    putIntoGui_callback grid wrapper source f w
    = (w1, if mounts grid fo then Normal tt else Throw (guiError fo))
    /\ console w1 = console w ++ guiWarning fo
    /\ events w1
       = events w
         ++ (if mounts grid fo
             then [EVENT_FILTER_OPENED (column (wrapperObjs w wrapper)) source] else [])
    /\ allColumnFilters w1 = allColumnFilters w
    /\ allColumnListeners w1 = allColumnListeners w
    /\ nextRef w1 = nextRef w
    /\ filterObjs w1 = filterObjs w
    /\ columnObjs w1 = columnObjs w
    /\ destroyedBeans w1 = destroyedBeans w
    /\ (forall x, filterPromise (wrapperObjs w1 x) = filterPromise (wrapperObjs w x))
    /\ (forall x, column (wrapperObjs w1 x) = column (wrapperObjs w x))
    /\ (forall x, compDetails (wrapperObjs w1 x) = compDetails (wrapperObjs w x)).
Proof.
  intros fo.
  assert (forall w' : World,
            (forall x, filterPromise (upd (wrapperObjs w') wrapper
                         (mkFilterWrapper (column (wrapperObjs w' wrapper))
                            (filterPromise (wrapperObjs w' wrapper)) GuiMounted
                            (compDetails (wrapperObjs w' wrapper))) x)
                       = filterPromise (wrapperObjs w' x))
            /\ (forall x, column (upd (wrapperObjs w') wrapper
                         (mkFilterWrapper (column (wrapperObjs w' wrapper))
                            (filterPromise (wrapperObjs w' wrapper)) GuiMounted
                            (compDetails (wrapperObjs w' wrapper))) x)
                       = column (wrapperObjs w' x))
            /\ (forall x, compDetails (upd (wrapperObjs w') wrapper
                         (mkFilterWrapper (column (wrapperObjs w' wrapper))
                            (filterPromise (wrapperObjs w' wrapper)) GuiMounted
                            (compDetails (wrapperObjs w' wrapper))) x)
                       = compDetails (wrapperObjs w' x))) as Hupd.
  { intros w'. repeat split; intros x; unfold upd;
      destruct (Nat.eqb x wrapper) eqn:Ex; try reflexivity;
      apply Nat.eqb_eq in Ex; now subst x. }
  unfold putIntoGui_callback, mounts, builtGui, guiWarning, guiError, appendChild,
    setGuiPromise, dispatchEvent, console_warn, when, bind, gets, modify, ret, throw.
  fold fo.
  destruct (IFilter.getGui fo) as [getGui_|].
  - destruct (getGui_ (IFilter.filterState fo)) as [|v] eqn:Eg.
    + cbn [guiExists negb]. eexists. split; [reflexivity|]. cbn -[upd].
      rewrite app_nil_r. repeat split; try apply (Hupd w). now rewrite upd_same.
    + destruct v as [| | b | n | s | items | fields];
        try (cbn [guiExists exists_ negb]; eexists; split; [reflexivity|]; cbn -[upd];
             rewrite ?app_nil_r; now repeat split).
      cbn [guiExists exists_]. destruct (isEmpty s); cbn [negb];
        destruct (loadTemplate (host grid) s); eexists; (split; [reflexivity|]);
        cbn -[upd]; rewrite ?app_nil_r; repeat split;
        try apply (Hupd w); try apply (Hupd (set_console _ w)); now rewrite ?upd_same.
  - eexists. split; [reflexivity|]. rewrite !app_nil_r. now repeat split.
Qed.

(** [putIntoGui] on a wrapper that has a promise: how it ends, what it
    logs and dispatches, and what it leaves as it was. *)
Lemma putIntoGui_reading (wrapper : ref) (source : FilterRequestSource) (w : World) :
  hasPromise w wrapper = true ->
  exists w1,
    putIntoGui grid wrapper source w = (w1, guiOutcome grid w wrapper)
    /\ allColumnFilters w1 = allColumnFilters w
    /\ allColumnListeners w1 = allColumnListeners w
    /\ nextRef w1 = nextRef w
    /\ filterObjs w1 = filterObjs w
    /\ columnObjs w1 = columnObjs w
    /\ destroyedBeans w1 = destroyedBeans w
    /\ (forall x, resolvedFilter w1 x = resolvedFilter w x)
    /\ (forall x, column (wrapperObjs w1 x) = column (wrapperObjs w x))
    /\ console w1 = console w ++ guiLog w wrapper
    /\ events w1 = events w ++ guiOpened grid w wrapper source.
Proof.
  unfold hasPromise, putIntoGui, filterPromise_then, filterPromiseOf, guiOutcome, guiLog,
    guiOpened, resolvedFilter.
  destruct (filterPromise (wrapperObjs w wrapper)) as [p|] eqn:Ep; [intros _|discriminate].
  unfold bind, gets, ret. repeat (rewrite Ep; cbn -[upd putIntoGui_callback]).
  destruct (resolution p) as [f|] eqn:Er; cbn -[upd putIntoGui_callback].
  - destruct (putIntoGui_callback_reading wrapper source f w)
      as [w1 [E [Hc [He [H1 [H2 [H3 [H4 [H5 [H6 [H7 [H8 _]]]]]]]]]]]].
    rewrite E. exists w1.
    split; [now destruct (mounts grid (filterObjs w f))|].
    repeat match goal with |- _ /\ _ => split end; try assumption.
    intros x. now rewrite H7.
  - unfold setGuiPromise, bind, modify, ret. eexists. split; [reflexivity|].
    cbn -[upd]. rewrite !app_nil_r.
    repeat match goal with |- _ /\ _ => split end; try reflexivity;
      intros x; unfold upd, addWaiter;
      rewrite ?Nat.eqb_refl; destruct (Nat.eqb x wrapper) eqn:Ex; simpl;
      try reflexivity; apply Nat.eqb_eq in Ex; subst x; rewrite ?Ep; simpl;
      now rewrite ?Er.
Qed.

(** A request for a column whose wrapper is in the map. *)
Lemma getOrCreateFilterWrapper_cached (col wrapper : ref) (source : FilterRequestSource)
    (w : World) :
  filterAllowed (columnObjs w col) = true ->
  map_get (allColumnFilters w) (colId (columnObjs w col)) = Some wrapper ->
  hasPromise w wrapper = true ->
  exists w1,
    getOrCreateFilterWrapper grid col source w
    = (w1, match (if isNoUi source then Normal tt else guiOutcome grid w wrapper) with
           | Normal _ => Normal (Some wrapper)
           | Throw e => Throw e
           end)
    /\ allColumnFilters w1 = allColumnFilters w
    /\ allColumnListeners w1 = allColumnListeners w
    /\ nextRef w1 = nextRef w
    /\ filterObjs w1 = filterObjs w
    /\ columnObjs w1 = columnObjs w
    /\ destroyedBeans w1 = destroyedBeans w
    /\ (forall x, resolvedFilter w1 x = resolvedFilter w x)
    /\ (forall x, column (wrapperObjs w1 x) = column (wrapperObjs w x))
    /\ console w1 = console w ++ (if isNoUi source then [] else guiLog w wrapper)
    /\ events w1
       = events w ++ (if isNoUi source then [] else guiOpened grid w wrapper source).
Proof.
  intros Ha Hm Hp. unfold getOrCreateFilterWrapper, cachedFilter. unfold bind at 1, gets.
  rewrite Ha. cbn [negb]. unfold bind at 1. rewrite Hm. unfold bind at 1.
  destruct (isNoUi source) eqn:En; cbn [negb when].
  - exists w. cbn [ret]. rewrite !app_nil_r. now repeat split.
  - destruct (putIntoGui_reading wrapper source w Hp) as [w1 [E H]].
    rewrite E. exists w1. split; [|exact H].
    now destruct (guiOutcome grid w wrapper) as [[]|e].
Qed.

Lemma putIntoGui_keeps_columnObjs wrapper source :
  keeps columnObjs (putIntoGui grid wrapper source).
Proof. keeps_all. Qed.

Lemma putIntoGui_keeps_allColumnFilters wrapper source :
  keeps allColumnFilters (putIntoGui grid wrapper source).
Proof. keeps_all. Qed.

Lemma createFilterWrapper_keeps_columnObjs col source :
  keeps columnObjs (createFilterWrapper grid col source).
Proof. keeps_all. Qed.

(** What a request that returns a wrapper leaves in the map. *)
Lemma getOrCreateFilterWrapper_result (col wrapper : ref) (source : FilterRequestSource)
    (w w1 : World) :
  getOrCreateFilterWrapper grid col source w = (w1, Normal (Some wrapper)) ->
  filterAllowed (columnObjs w1 col) = true
  /\ map_get (allColumnFilters w1) (colId (columnObjs w1 col)) = Some wrapper.
Proof.
  unfold getOrCreateFilterWrapper. intros H.
  apply bind_Normal in H as [wa [c [Hc H]]]. injection Hc as <- <-.
  destruct (filterAllowed (columnObjs w col)) eqn:Ha; simpl in H; [|discriminate].
  apply bind_Normal in H as [wa [cached [Hc H]]]. injection Hc as <- <-.
  destruct (map_get (allColumnFilters w) (colId (columnObjs w col))) as [fw|] eqn:Hm.
  - apply bind_Normal in H as [w' [[] [Hg H]]]. injection H as <- <-.
    assert (columnObjs w' = columnObjs w /\ allColumnFilters w' = allColumnFilters w)
      as [Hco Hcf].
    { destruct source; simpl in Hg; try (injection Hg as <-; now split).
      - pose proof (putIntoGui_keeps_columnObjs fw COLUMN_MENU w) as K1.
        pose proof (putIntoGui_keeps_allColumnFilters fw COLUMN_MENU w) as K2.
        rewrite Hg in K1, K2. now split.
      - pose proof (putIntoGui_keeps_columnObjs fw TOOLBAR w) as K1.
        pose proof (putIntoGui_keeps_allColumnFilters fw TOOLBAR w) as K2.
        rewrite Hg in K1, K2. now split. }
    now rewrite Hco, Hcf.
  - apply bind_Normal in H as [w' [fw [Hg H]]].
    pose proof (createFilterWrapper_keeps_columnObjs col source w) as K.
    rewrite Hg in K. simpl in K.
    unfold bind, modify, ret in H. simpl in H. injection H as <- <-. simpl.
    rewrite K, Ha. split; [reflexivity | apply map_get_set].
Qed.

(** [disposeFilterWrapper] on a resolved instance whose [setModel] does
    not defer. *)
Lemma disposeFilterWrapper_reading (wrapper f : ref) (source : DestroySource) (w : World)
    (setModel_ : value -> value -> value * SetModelReturn) :
  resolvedFilter w wrapper = Some f ->
  IFilter.setModel (filterObjs w f) = Some setModel_ ->
  snd (setModel_ VNull (IFilter.filterState (filterObjs w f))) <> ReturnsPending ->
  let col := column (wrapperObjs w wrapper) in
  let c := columnObjs w col in
  exists w1,
    disposeFilterWrapper wrapper source w = (w1, Normal tt)
    /\ IFilter.filterState (filterObjs w1 f)
       = fst (setModel_ VNull (IFilter.filterState (filterObjs w f)))
    /\ allColumnFilters w1 = map_delete (allColumnFilters w) (colId c)
    /\ columnObjs w1
       = upd (columnObjs w) col
           (mkColumn (colId c) (colDef c) (primary c) (filterAllowed c) (valueActive c) false)
    /\ events w1 = events w ++ [EVENT_FILTER_DESTROYED source col]
    /\ destroyedBeans w1 = destroyedBeans w ++ [f]
    /\ nextRef w1 = nextRef w
    /\ wrapperObjs w1 = wrapperObjs w.
Proof.
  unfold resolvedFilter. intros Hr Hs Hp.
  unfold disposeFilterWrapper, filterPromise_then, filterPromiseOf,
    disposeFilterWrapper_callback, callSetModel, modelPromise_then,
    disposeFilterWrapper_finish, setFilterActive, dispatchEvent, bind, gets, modify, ret.
  destruct (filterPromise (wrapperObjs w wrapper)) as [p|] eqn:Ep; [|discriminate].
  simpl. rewrite Hr. rewrite Hs.
  destruct (setModel_ VNull (IFilter.filterState (filterObjs w f))) as [state' returned]
    eqn:Em.
  simpl in Hp. simpl.
  destruct returned; [| |congruence];
    (eexists; split; [reflexivity|]); simpl; rewrite upd_same; simpl;
    repeat split; rewrite ?upd_same; reflexivity.
Qed.

(** A request for a filterable column with no wrapper in the map, when the
    component factory hands out a ready instance: a new wrapper and a new
    instance are made; the wrapper is stored when the gui of the instance
    was put in, and otherwise the request throws before that. *)
Lemma getOrCreateFilterWrapper_fresh (col : ref) (source : FilterRequestSource) (w : World)
    (details : UserCompDetails) (instance : IFilterComp) :
  filterAllowed (columnObjs w col) = true ->
  map_get (allColumnFilters w) (colId (columnObjs w col)) = None ->
  createFilterInstance grid (columnObjs w col) = Some details ->
  newAgStackInstance details = InstanceReady instance ->
  exists w1,
    getOrCreateFilterWrapper grid col source w
    = (w1, if mounts grid instance then Normal (Some (nextRef w))
           else Throw (guiError instance))
    /\ resolvedFilter w1 (nextRef w) = Some (S (nextRef w))
    /\ filterObjs w1 (S (nextRef w)) = instance
    /\ column (wrapperObjs w1 (nextRef w)) = col
    /\ allColumnFilters w1
       = (if mounts grid instance
          then map_set (allColumnFilters w) (colId (columnObjs w col)) (nextRef w)
          else allColumnFilters w)
    /\ nextRef w1 = S (S (nextRef w))
    /\ columnObjs w1 = columnObjs w
    /\ events w1
       = events w ++ (if mounts grid instance then [EVENT_FILTER_OPENED col source] else [])
    /\ console w1 = console w ++ guiWarning instance
    /\ allColumnListeners w1
       = (if mounts grid instance
          then listeners_set (allColumnListeners w) (colId (columnObjs w col))
          else allColumnListeners w).
Proof.
  intros Ha Hm Hd Hi.
  unfold getOrCreateFilterWrapper, cachedFilter, createFilterWrapper, putIntoGui,
    filterPromise_then, filterPromiseOf, alloc.
  unfold bind at 1, gets. rewrite Ha. cbn [negb]. unfold bind at 1. rewrite Hm.
  unfold bind at 1. unfold bind at 1, gets. rewrite Hd, Hi.
  repeat (unfold bind at 1; cbn -[upd putIntoGui_callback]; rewrite ?upd_same).
  unfold ret. cbn -[upd putIntoGui_callback].
  match goal with
  | |- context [putIntoGui_callback grid ?a ?b ?c ?W] =>
      pose proof (putIntoGui_callback_reading a b c W) as R
  end.
  cbn -[upd putIntoGui_callback mounts guiError guiWarning] in R.
  rewrite ?upd_same in R. cbn -[upd putIntoGui_callback mounts guiError guiWarning] in R.
  destruct R as [w1 [E [Hc [He [H1 [H2 [H3 [H4 [H5 [H6 [H7 [H8 H9]]]]]]]]]]]].
  rewrite E.
  destruct (mounts grid instance) eqn:Emounts.
  - repeat (unfold bind at 1; cbn -[upd]).
    eexists. split; [reflexivity|]. unfold resolvedFilter. cbn -[upd].
    rewrite H7, H8, H4, H1, H2, H3, H5, Hc, He. rewrite !upd_same. cbn.
    now repeat split.
  - eexists. split; [reflexivity|]. unfold resolvedFilter. cbn -[upd].
    rewrite H7, H8, H4, H1, H2, H3, H5, Hc, He. rewrite !upd_same. cbn.
    now repeat split.
Qed.

End WrapperFacts.

(** ** The model export, as a function of the world *)

Section ExportFacts.

Lemma warned_nil (w : World) : warned [] w = w.
Proof. unfold warned. rewrite app_nil_r. now destruct w. Qed.

Lemma warned_warned (a b : list string) (w : World) :
  warned b (warned a w) = warned (a ++ b) w.
Proof. unfold warned. simpl. now rewrite app_assoc. Qed.

Lemma getFilterModel_entry_reading (result : list (string * value))
    (entry : string * ref) (w : World) :
  getFilterModel_entry result entry w
  = if hasPromise w (snd entry)
    then (warned (getModelWarning w (snd entry)) w,
          Normal (match exportedModel w (snd entry) with
                  | Some model => setProperty result (fst entry) model
                  | None => result
                  end))
    else (w, Throw TypeError_null).
Proof.
  destruct entry as [key wrapper].
  unfold getFilterModel_entry, filterPromise_resolveNow, filterPromiseOf, hasPromise,
    getModelWarning, exportedModel, resolvedFilter, console_warn, bind, gets, modify, ret,
    throw.
  simpl. destruct (filterPromise (wrapperObjs w wrapper)) as [p|]; [|reflexivity].
  destruct (resolution p) as [f|]; simpl; [|now rewrite warned_nil].
  destruct (IFilter.getModel (filterObjs w f)) as [g|]; simpl; [|reflexivity].
  rewrite warned_nil.
  now destruct (exists_ (g (IFilter.filterState (filterObjs w f)))).
Qed.

Lemma readings_warned (lines : list string) (w : World) :
  (forall x, hasPromise (warned lines w) x = hasPromise w x)
  /\ (forall x, exportedModel (warned lines w) x = exportedModel w x)
  /\ (forall x, getModelWarning (warned lines w) x = getModelWarning w x).
Proof. repeat split. Qed.

Lemma visited_warned (lines : list string) (w : World) entries :
  visited (warned lines w) entries = visited w entries.
Proof.
  induction entries as [|e entries IH]; simpl; [reflexivity|].
  rewrite IH. reflexivity.
Qed.

Lemma exportEntries_warned (lines : list string) (w : World) entries result :
  exportEntries (warned lines w) entries result = exportEntries w entries result.
Proof.
  revert result. induction entries as [|e entries IH]; intros result; simpl;
    [reflexivity|].
  rewrite IH. reflexivity.
Qed.

(** The loop of [getFilterModel]: it stops with a [TypeError] at the first
    wrapper without a promise. *)
Lemma getFilterModel_loop_reading (entries : list (string * ref))
    (result : list (string * value)) (w : World) :
  getFilterModel_loop entries result w
  = (warned (flat_map (fun e => getModelWarning w (snd e)) (visited w entries)) w,
     if forallb (fun e => hasPromise w (snd e)) entries
     then Normal (exportEntries w entries result)
     else Throw TypeError_null).
Proof.
  revert result w. induction entries as [|entry entries IH]; intros result w; simpl.
  - now rewrite warned_nil.
  - unfold bind. rewrite getFilterModel_entry_reading.
    destruct (hasPromise w (snd entry)) eqn:Hp; simpl; [|now rewrite warned_nil].
    rewrite IH, warned_warned, visited_warned, exportEntries_warned. reflexivity.
Qed.

Lemma getFilterModel_reading (w : World) :
  getFilterModel w
  = (warned (flat_map (fun e => getModelWarning w (snd e))
               (visited w (allColumnFilters w))) w,
     if forallb (fun e => hasPromise w (snd e)) (allColumnFilters w)
     then Normal (exportEntries w (allColumnFilters w) [])
     else Throw TypeError_null).
Proof. unfold getFilterModel, bind, gets. apply getFilterModel_loop_reading. Qed.

Lemma getProperty_setProperty (fields : list (string * value)) (key key' : string)
    (v : value) :
  getProperty (setProperty fields key v) key'
  = if String.eqb key key' then v else getProperty fields key'.
Proof.
  induction fields as [|[k x] fields IH]; simpl.
  - now destruct (String.eqb key key').
  - destruct (String.eqb k key) eqn:E; simpl.
    + apply String.eqb_eq in E as ->. now destruct (String.eqb key key').
    + rewrite IH. destruct (String.eqb k key') eqn:E'; [|reflexivity].
      apply String.eqb_eq in E' as ->. now rewrite String.eqb_sym, E.
Qed.

Lemma exportEntries_other (w : World) (entries : list (string * ref))
    (result : list (string * value)) (key : string) :
  ~ In key (map fst entries) ->
  getProperty (exportEntries w entries result) key = getProperty result key.
Proof.
  revert result. induction entries as [|[k wr] entries IH]; intros result Hn; simpl in *.
  - reflexivity.
  - rewrite IH by tauto.
    destruct (exportedModel w wr); [|reflexivity].
    rewrite getProperty_setProperty.
    destruct (String.eqb k key) eqn:E; [|reflexivity].
    apply String.eqb_eq in E. tauto.
Qed.

Lemma exportEntries_lookup (w : World) (entries : list (string * ref))
    (result : list (string * value)) (key : string) (wrapper : ref) :
  NoDup (map fst entries) -> In (key, wrapper) entries ->
  getProperty (exportEntries w entries result) key
  = match exportedModel w wrapper with
    | Some model => model
    | None => getProperty result key
    end.
Proof.
  revert result. induction entries as [|[k wr] entries IH]; intros result Hd Hin;
    simpl in *; [contradiction|].
  inversion Hd as [|? ? Hnot Hd']; subst.
  destruct Hin as [Heq | Hin].
  - injection Heq as -> ->. rewrite exportEntries_other by exact Hnot.
    destruct (exportedModel w wrapper); [|reflexivity].
    now rewrite getProperty_setProperty, String.eqb_refl.
  - rewrite (IH _ Hd' Hin).
    destruct (exportedModel w wrapper); [reflexivity|].
    destruct (exportedModel w wr); [|reflexivity].
    rewrite getProperty_setProperty.
    destruct (String.eqb k key) eqn:E; [|reflexivity].
    apply String.eqb_eq in E as ->. exfalso. apply Hnot.
    apply in_map_iff. now exists (key, wrapper).
Qed.

Lemma exportedModel_exists (w : World) (wrapper : ref) (model : value) :
  exportedModel w wrapper = Some model -> exists_ model = true.
Proof.
  unfold exportedModel. destruct (resolvedFilter w wrapper) as [f|]; [|discriminate].
  destruct (IFilter.getModel (filterObjs w f)) as [g|]; [|discriminate].
  destruct (exists_ (g _)) eqn:E; [|discriminate]. now intros [= <-].
Qed.

Lemma setProperty_Forall (P : string * value -> Prop) fields key v :
  Forall P fields -> (forall k, P (k, v)) -> (forall k x, P (k, x) -> P (k, x)) ->
  Forall P (setProperty fields key v).
Proof.
  intros Hf Hv _. induction Hf as [|[k x] fields Hx Hf IH]; simpl.
  - constructor; [apply Hv | constructor].
  - destruct (String.eqb k key); constructor; auto.
Qed.

Lemma exportEntries_exist (w : World) (entries : list (string * ref))
    (result : list (string * value)) :
  Forall (fun kv => exists_ (snd kv) = true) result ->
  Forall (fun kv => exists_ (snd kv) = true) (exportEntries w entries result).
Proof.
  revert result. induction entries as [|[k wr] entries IH]; intros result Hr; simpl;
    [exact Hr|].
  apply IH. destruct (exportedModel w wr) as [model|] eqn:E; [|exact Hr].
  apply setProperty_Forall; auto.
  intros k0. simpl. now apply exportedModel_exists in E.
Qed.

End ExportFacts.

(** ** Lists of the world that only grow *)

Section AppendFacts.

Context {T : Type} (proj : World -> list T) (P : T -> Prop).

Lemma appends_ret {A} (a : A) : appends proj P (ret a).
Proof. intros w. exists []. simpl. now rewrite app_nil_r. Qed.

Lemma appends_throw {A} (e : string) : appends proj P (@throw A e).
Proof. intros w. exists []. simpl. now rewrite app_nil_r. Qed.

Lemma appends_gets {A} (g : World -> A) : appends proj P (gets g).
Proof. intros w. exists []. simpl. now rewrite app_nil_r. Qed.

Lemma appends_same {A} (c : M A) : keeps proj c -> appends proj P c.
Proof. intros K w. exists []. rewrite K. now rewrite app_nil_r. Qed.

Lemma appends_one (g : World -> World) (x : World -> T) :
  (forall w, proj (g w) = proj w ++ [x w]) -> (forall w, P (x w)) ->
  appends proj P (modify g).
Proof. intros Hg Hx w. exists [x w]. simpl. split; [apply Hg | now constructor]. Qed.

Lemma appends_bind {A C} (c : M A) (k : A -> M C) :
  appends proj P c -> (forall a, appends proj P (k a)) -> appends proj P (bind c k).
Proof.
  intros Hc Hk w. unfold bind. destruct (Hc w) as [d1 [E1 F1]].
  destruct (c w) as [w1 [a|e]]; simpl in *.
  - destruct (Hk a w1) as [d2 [E2 F2]]. exists (d1 ++ d2).
    rewrite E2, E1, app_assoc. split; [reflexivity | now apply Forall_app].
  - now exists d1.
Qed.

Lemma appends_forEach {A} (l : list A) (body : A -> M unit) :
  (forall x, appends proj P (body x)) -> appends proj P (forEach l body).
Proof.
  intros H. induction l as [|x l IH]; simpl.
  - apply appends_ret.
  - apply appends_bind; [apply H | intros _; exact IH].
Qed.

Lemma appends_pushEach {A} (l : list A) (body : A -> M (option ref)) acc :
  (forall x, appends proj P (body x)) -> appends proj P (pushEach l body acc).
Proof.
  intros H. revert acc. induction l as [|x l IH]; intros acc; simpl.
  - apply appends_ret.
  - apply appends_bind; [apply H | intros a; apply IH].
Qed.

Lemma appends_when (b : bool) (c : M unit) : appends proj P c -> appends proj P (when b c).
Proof. intros H. destruct b; [exact H | apply appends_ret]. Qed.

End AppendFacts.

(** Breaks a goal [appends proj P c] down along the structure of [c]; what
    is left are the writes to the list itself. *)
Ltac appends_step :=
  match goal with
  | |- appends _ _ (ret _) => apply appends_ret
  | |- appends _ _ (throw _) => apply appends_throw
  | |- appends _ _ (gets _) => apply appends_gets
  | |- appends _ _ (bind _ _) => apply appends_bind; [| intros ?]
  | |- appends _ _ (forEach _ _) => apply appends_forEach; intros ?
  | |- appends _ _ (when _ _) => apply appends_when
  | |- appends _ _ (pushEach _ _ _) => apply appends_pushEach; intros ?
  | |- appends _ _ alloc => apply appends_same; intros ?; reflexivity
  | |- appends _ _ (modify _) =>
      first [ apply appends_same; apply keeps_modify; intros ?; reflexivity
            | eapply appends_one; [intros ?; reflexivity | intros ?; simpl; try reflexivity] ]
  | |- appends _ _ (match ?x with _ => _ end) => destruct x
  | |- appends _ _ (if ?x then _ else _) => destruct x
  | |- appends _ _ (let (_, _) := ?x in _) => destruct x
  end.

Ltac appends_unfold :=
  lazymatch goal with
  | |- appends _ _ ?c => let h := head_of c in unfold h
  end.

Ltac appends_all := repeat (appends_step || appends_unfold).

Section AppendInstances.

Variable grid : Grid.

(** Nothing before the dispatch in [onFilterChanged] is a filter-changed
    event. *)
Lemma getOrCreateFilterWrapper_events col source :
  appends events (fun e => isFilterChanged e = false)
    (getOrCreateFilterWrapper grid col source).
Proof. appends_all. Qed.

(** The one line a request can log is the warning of [putIntoGui]. *)
Lemma getOrCreateFilterWrapper_console col source :
  appends console (fun line => isUnableToCreate line = false)
    (getOrCreateFilterWrapper grid col source).
Proof. appends_all. Qed.

End AppendInstances.

(** ** The events and warnings of the filter-changed protocol *)

Section ProtocolFacts.

Variable grid : Grid.

Lemma emitsOnce_bind {A} (e : GridEvent) (c : M A) (k : A -> M unit) :
  appends events (fun x => isFilterChanged x = false) c ->
  (forall a, emitsOnce e (k a)) -> emitsOnce e (bind c k).
Proof.
  intros Hc Hk w. unfold bind. destruct (Hc w) as [d1 [E1 F1]].
  destruct (c w) as [w1 [a|err]]; simpl in *.
  - destruct (Hk a w1) as [d2 [F2 E2]]. exists (d1 ++ d2).
    split; [now apply Forall_app|]. rewrite E2, E1, <- !app_assoc. reflexivity.
  - exists d1. split; [exact F1|]. now rewrite app_nil_r.
Qed.

Lemma emitsOnce_dispatch (e : GridEvent) :
  emitsOnce e (bind (dispatchEvent e) (fun _ =>
               modify (set_processingFilterChange false))).
Proof. intros w. exists []. split; [constructor | reflexivity]. Qed.

Lemma onFilterChanged_emitsOnce filterInstance attrs columns :
  emitsOnce
    (EVENT_FILTER_CHANGED (match columns with Some cs => cs | None => [] end) attrs)
    (onFilterChanged grid filterInstance attrs columns).
Proof.
  unfold onFilterChanged.
  repeat (apply emitsOnce_bind; [solve [appends_all] | intros ?]).
  apply emitsOnce_dispatch.
Qed.

Lemma getFilterModel_console :
  appends console (fun line => isUnableToCreate line = false) getFilterModel.
Proof.
  intros w. rewrite getFilterModel_reading. simpl.
  eexists. split; [reflexivity|].
  apply Forall_forall. intros line Hin. apply in_flat_map in Hin as [e [_ Hin]].
  unfold getModelWarning in Hin.
  destruct (resolvedFilter w (snd e)) as [f|]; [|contradiction].
  destruct (IFilter.getModel (filterObjs w f)); [contradiction|].
  destruct Hin as [<- | []]. reflexivity.
Qed.

Lemma getFilterModel_events : keeps events getFilterModel.
Proof. intros w. now rewrite getFilterModel_reading. Qed.

End ProtocolFacts.

Ltac console_all :=
  repeat (appends_step || apply getFilterModel_console || appends_unfold).

Section ConsoleFacts.

Variable grid : Grid.

Lemma setModelOnFilterWrapper_console wrapper newModel :
  appends console (fun line => isUnableToCreate line = false)
    (setModelOnFilterWrapper grid wrapper newModel).
Proof. console_all. Qed.

End ConsoleFacts.

(* ===================================================================== *)
(** * The quick filter *)
(* ===================================================================== *)

Section QuickFilterText.

Variable grid : Grid.

Lemma parseQuickFilter_not_client_side (v : value) (w : World) :
  rowModelType grid <> clientSide ->
  parseQuickFilter grid v w
  = (if exists_ v
     then set_console
            (console w ++ ["AG Grid - Quick filtering only works with the Client-Side Row Model"]) w
     else w,
     Normal None).
Proof.
  intros H. unfold parseQuickFilter.
  destruct (exists_ v); [|reflexivity].
  destruct (rowModelType grid); [congruence | reflexivity ..].
Qed.

Lemma parseQuickFilter_text (t : string) (w : World) :
  rowModelType grid = clientSide ->
  parseQuickFilter grid (VString t) w
  = (w, Normal (if isEmpty t then None else Some (toUpperCase grid t))).
Proof.
  intros H. unfold parseQuickFilter. simpl.
  destruct (isEmpty t); [reflexivity|]. simpl. now rewrite H.
Qed.

Lemma parseQuickFilter_result (t : string) (w : World) :
  snd (parseQuickFilter grid (VString t) w) = Normal (parsedText grid t)
  /\ quickFilter (fst (parseQuickFilter grid (VString t) w)) = quickFilter w
  /\ quickFilterParts (fst (parseQuickFilter grid (VString t) w)) = quickFilterParts w.
Proof.
  unfold parseQuickFilter, parsedText. simpl.
  destruct (isEmpty t); simpl; [auto|].
  destruct (isClientSide (rowModelType grid)); simpl; auto.
Qed.

Lemma option_string_eqb_eq (a b : option string) :
  option_string_eqb a b = true <-> a = b.
Proof.
  destruct a as [x|], b as [y|]; simpl; try (split; congruence).
  rewrite String.eqb_eq. split; congruence.
Qed.

Lemma setQuickFilter_quickFilter (t : string) (w : World) :
  quickFilter (fst (setQuickFilter grid (VString t) w)) = parsedText grid t.
Proof.
  unfold setQuickFilter. simpl. unfold bind at 1.
  destruct (parseQuickFilter_result t w) as [Hr [Hq _]].
  destruct (parseQuickFilter grid (VString t) w) as [w1 r] eqn:E. simpl in *. subst r.
  unfold bind at 1, gets. simpl.
  destruct (option_string_eqb (quickFilter w1) (parsedText grid t)) eqn:Eq; simpl.
  - apply option_string_eqb_eq in Eq. exact Eq.
  - assert (keeps quickFilter
              (bind setQuickFilterParts (fun _ => onFilterChanged grid None None None))) as K.
    { apply keeps_bind; [unfold setQuickFilterParts; keeps_tac | intros _].
      apply onFilterChanged_keeps_quickFilter. }
    unfold bind at 1. unfold modify at 1. rewrite K. reflexivity.
Qed.

Lemma setQuickFilter_partsInSync (t : string) (w : World) :
  partsInSync w -> partsInSync (fst (setQuickFilter grid (VString t) w)).
Proof.
  intros Hs. unfold setQuickFilter. simpl. unfold bind at 1.
  destruct (parseQuickFilter_result t w) as [Hr [Hq Hp]].
  destruct (parseQuickFilter grid (VString t) w) as [w1 r] eqn:E. simpl in *. subst r.
  unfold bind at 1, gets. simpl.
  destruct (option_string_eqb (quickFilter w1) (parsedText grid t)) eqn:Eq; simpl.
  - unfold partsInSync in *. now rewrite Hq, Hp.
  - unfold partsInSync.
    pose proof (onFilterChanged_keeps_quickFilter grid None None None) as K1.
    pose proof (onFilterChanged_keeps_quickFilterParts grid None None None) as K2.
    unfold bind, modify, setQuickFilterParts. simpl.
    rewrite K1, K2. reflexivity.
Qed.

Lemma init_partsInSync (w : World) :
  quickFilter w = None -> quickFilterParts w = None ->
  partsInSync (fst (init grid w)).
Proof.
  intros Hq Hp. unfold init, bind at 1.
  assert (quickFilter (fst (parseQuickFilter grid (quickFilterText grid) w)) = None
          /\ quickFilterParts (fst (parseQuickFilter grid (quickFilterText grid) w)) = None)
    as [Hq1 Hp1].
  { unfold parseQuickFilter.
    destruct (exists_ (quickFilterText grid)); simpl; [|auto].
    destruct (isClientSide (rowModelType grid)); simpl; [|auto].
    destruct (quickFilterText grid); simpl; auto. }
  destruct (parseQuickFilter grid (quickFilterText grid) w) as [w1 [parsed | e]]; simpl in *.
  - unfold partsInSync, isExternalFilterPresentCallback.
    destruct (isExternalFilterPresent_callback grid); reflexivity.
  - unfold partsInSync. now rewrite Hq1, Hp1.
Qed.

End QuickFilterText.

Section QuickFilterClaims.

Variable grid : Grid.

(** Two texts with the same uppercase are set alike. *)
Lemma setQuickFilter_upper (t u : string) (w : World) :
  toUpperCase grid u = toUpperCase grid t ->
  setQuickFilter grid (VString u) w = setQuickFilter grid (VString t) w.
Proof.
  intros H. unfold setQuickFilter. simpl.
  assert (parseQuickFilter grid (VString u) = parseQuickFilter grid (VString t))
    as ->; [|reflexivity].
  unfold parseQuickFilter. simpl.
  rewrite <- (isEmpty_toUpperCase grid u), <- (isEmpty_toUpperCase grid t), H.
  reflexivity.
Qed.

Lemma partMatches_meaning (w : World) (node : ref) (part : string) :
  partMatches grid w node part = true
  <-> if cacheQuickFilter grid
      then occurs part (searchedText grid w node)
      else exists text, In (Some text) (columnTexts grid w node)
                        /\ text <> "" /\ occurs part text.
Proof.
  unfold partMatches. destruct (cacheQuickFilter grid).
  - apply includes_occurs.
  - rewrite existsb_exists. split.
    + intros [[text|] [Hin Hm]]; simpl in Hm; [|discriminate].
      apply andb_true_iff in Hm as [Hne Hinc].
      exists text. repeat split; [exact Hin | | now apply includes_occurs].
      intros ->. discriminate.
    + intros [text [Hin [Hne Ho]]]. exists (Some text). split; [exact Hin|].
      simpl. apply andb_true_iff. split; [|now apply includes_occurs].
      destruct text; [congruence | reflexivity].
Qed.

(** The parts after a non-empty text was set on a client-side grid. *)
Lemma setQuickFilter_parts (t : string) (w : World) :
  partsInSync w -> rowModelType grid = clientSide -> t <> "" ->
  quickFilterParts (fst (setQuickFilter grid (VString t) w))
  = Some (split " " (toUpperCase grid t)).
Proof.
  intros Hs Hc Ht.
  pose proof (setQuickFilter_partsInSync grid t w Hs) as Hs1.
  pose proof (setQuickFilter_quickFilter grid t w) as Hq.
  unfold partsInSync in Hs1. rewrite Hq in Hs1.
  unfold parsedText in Hs1. rewrite Hc in Hs1. simpl in Hs1.
  destruct (isEmpty t) eqn:Et; [apply isEmpty_true in Et; congruence|].
  simpl in Hs1. now rewrite isEmpty_toUpperCase, Et in Hs1.
Qed.

(** C5. Quick-filter matching is case-insensitive, because both sides of
    the substring search are uppercased by the host's [toUpperCase].  On
    the client-side row model the text stored for a non-empty [t] is
    [t.toUpperCase()], the text of a column for a row is
    [value.toString().toUpperCase()], and the verdict for a row is whether
    every part of the stored text is found in those texts.  So two texts
    with the same uppercase leave the manager in the same state and give
    every row the same quick-filter verdict and the same overall verdict;
    and when uppercasing the uppercase of [t] changes nothing, this holds of
    [t] and its uppercase. *)
Theorem quick_filter_case_insensitive (t u : string) (w : World) (node : ref)
    (skip : option ref) :
  let w1 := fst (setQuickFilter grid (VString t) w) in
  let w2 := fst (setQuickFilter grid (VString u) w) in
  let w3 := fst (setQuickFilter grid (VString (toUpperCase grid t)) w) in
  quickFilter w1
  = (if isEmpty t then None
     else match rowModelType grid with
          | clientSide => Some (toUpperCase grid t)
          | _ => None
          end)
  /\ (forall col,
        let c := columnObjs w1 col in
        let n := rowObjs w1 node in
        let v := match getQuickFilterText (colDef c) with
                 | Some formatter => formatter (valueService_getValue grid c n) n
                 | None => valueService_getValue grid c n
                 end in
        snd (getQuickFilterTextForColumn grid col node w1)
        = Normal (if exists_ v then Some (toUpperCase grid (toString grid v)) else None))
  /\ (partsInSync w -> rowModelType grid = clientSide -> t <> "" ->
      snd (doesRowPassQuickFilter grid node w1)
      = Normal (forallb (partMatches grid w1 node) (split " " (toUpperCase grid t)))
      /\ forall part,
           partMatches grid w1 node part = true
           <-> if cacheQuickFilter grid
               then occurs part (searchedText grid w1 node)
               else exists text, In (Some text) (columnTexts grid w1 node)
                                 /\ text <> "" /\ occurs part text)
  /\ (toUpperCase grid u = toUpperCase grid t ->
      setQuickFilter grid (VString u) w = setQuickFilter grid (VString t) w
      /\ doesRowPassQuickFilter grid node w2 = doesRowPassQuickFilter grid node w1
      /\ doesRowPassFilter grid node skip w2 = doesRowPassFilter grid node skip w1)
  /\ (toUpperCase grid (toUpperCase grid t) = toUpperCase grid t ->
      setQuickFilter grid (VString (toUpperCase grid t)) w
      = setQuickFilter grid (VString t) w
      /\ doesRowPassQuickFilter grid node w3 = doesRowPassQuickFilter grid node w1
      /\ doesRowPassFilter grid node skip w3 = doesRowPassFilter grid node skip w1).
Proof.
  intros w1 w2 w3. subst w1 w2 w3.
  split.
  { rewrite setQuickFilter_quickFilter. unfold parsedText.
    destruct (isEmpty t); [reflexivity|]. now destruct (rowModelType grid). }
  split; [intros col; reflexivity|].
  split.
  { intros Hs Hc Ht. split; [|intros part; apply partMatches_meaning].
    apply doesRowPassQuickFilter_reading. now apply setQuickFilter_parts. }
  split; intros H; rewrite (setQuickFilter_upper t _ w H); now repeat split.
Qed.

(** C4, as amended. The quick-filter parts are the pieces of the uppercased
    text between single space characters (empty pieces kept, no other
    character separates), and a row passes the quick filter iff every part
    matches, whatever the order of the parts: a part matches when it occurs
    in the row's aggregated text (cached mode) or in the text of some
    quick-filter column (uncached mode). *)
Theorem quick_filter_parts_conjunction (t : string) (w : World) (node : ref)
    (reordered : list string) :
  partsInSync w -> rowModelType grid = clientSide -> t <> "" ->
  let w1 := fst (setQuickFilter grid (VString t) w) in
  let parts := split " " (toUpperCase grid t) in
  quickFilterParts w1 = Some parts
  /\ snd (doesRowPassQuickFilter grid node w1)
     = Normal (forallb (partMatches grid w1 node) parts)
  /\ (Permutation parts reordered ->
      forallb (partMatches grid w1 node) reordered
      = forallb (partMatches grid w1 node) parts)
  /\ (forall part,
        partMatches grid w1 node part = true
        <-> if cacheQuickFilter grid
            then occurs part (searchedText grid w1 node)
            else exists text, In (Some text) (columnTexts grid w1 node)
                              /\ text <> "" /\ occurs part text).
Proof.
  intros Hs Hc Ht w1 parts.
  assert (quickFilterParts w1 = Some parts) as Hp.
  { pose proof (setQuickFilter_partsInSync grid t w Hs) as Hs1.
    pose proof (setQuickFilter_quickFilter grid t w) as Hq.
    fold w1 in Hs1, Hq. unfold partsInSync in Hs1. rewrite Hq in Hs1.
    unfold parsedText in Hs1. rewrite Hc in Hs1. simpl in Hs1.
    destruct (isEmpty t) eqn:Et; [apply isEmpty_true in Et; congruence|].
    simpl in Hs1. now rewrite isEmpty_toUpperCase, Et in Hs1. }
  split; [exact Hp|]. split; [now apply doesRowPassQuickFilter_reading|].
  split; [intros HP; symmetry; now apply forallb_Permutation|].
  intros part. apply partMatches_meaning.
Qed.

(** C6. The cached aggregate text of a row is the join, with the one-newline
    separator, of the texts of the quick-filter columns: each is the value
    service's value, passed through the column's [getQuickFilterText] when
    supplied, turned to a string and uppercased; missing values contribute
    nothing.  A search part without a newline is found in the joined text
    exactly when it is found in one of the joined texts: text from two
    columns never merges. *)
Theorem aggregate_text_joins_column_texts (node : ref) (w : World) (part : string) :
  aggregateRowForQuickFilter grid node w
  = (set_quickFilterAggregateText
       (upd (quickFilterAggregateText w) node
          (Some (join QUICK_FILTER_SEPARATOR (joinedParts grid w node)))) w,
     Normal tt)
  /\ QUICK_FILTER_SEPARATOR = String (ascii_of_nat 10) ""
  /\ joinedParts grid w node
     = flat_map (fun col =>
         match snd (getQuickFilterTextForColumn grid col node w) with
         | Normal (Some text) => if isEmpty text then [] else [text]
         | _ => []
         end) (allColumnsForQuickFilter (columnModel grid))
  /\ (forall col,
        let c := columnObjs w col in
        let n := rowObjs w node in
        let v := match getQuickFilterText (colDef c) with
                 | Some formatter => formatter (valueService_getValue grid c n) n
                 | None => valueService_getValue grid c n
                 end in
        snd (getQuickFilterTextForColumn grid col node w)
        = Normal (if exists_ v then Some (toUpperCase grid (toString grid v)) else None))
  /\ (contains_char (ascii_of_nat 10) part = false -> part <> "" ->
      includes (join QUICK_FILTER_SEPARATOR (joinedParts grid w node)) part
      = existsb (fun text => includes text part) (joinedParts grid w node)).
Proof.
  split; [apply aggregateRowForQuickFilter_reading|].
  split; [reflexivity|].
  split.
  { unfold joinedParts, columnTexts. rewrite flat_map_concat_map, map_map.
    now rewrite <- flat_map_concat_map. }
  split; [intros col; reflexivity|].
  intros Hc Hne.
  apply eq_true_iff_eq. rewrite includes_occurs, existsb_exists.
  unfold QUICK_FILTER_SEPARATOR. rewrite (occurs_join _ part _ Hc Hne).
  split; intros [s [Hin Ho]]; exists s; (split; [exact Hin|]);
    now apply includes_occurs.
Qed.

End QuickFilterClaims.

(* ===================================================================== *)
(** * Row-pass evaluation *)
(* ===================================================================== *)

Section RowPassClaims.

Variable grid : Grid.

(** C1. [doesRowPassFilter] runs three stages in a fixed order and stops at
    the first that fails or throws: the quick filter (only when one is
    present and not routed to aggregate mode), the external filter (only
    when the cached flag is set), and the active column filters in order,
    without the excluded instance.  The external stage is the answer of the
    grid's [doesExternalFilterPass] callback for the row, and [false] when
    the grid has no such callback; it changes nothing.  The last stage
    stops at the first consulted filter that answers [false] and throws at
    one that lacks [doesFilterPass].  The verdict is [true] exactly when the
    quick filter stage and the external stage pass and every consulted
    column filter answers [true]; with [doesFilterPass] on every consulted
    filter, the last stage is the conjunction of their answers. *)
Theorem doesRowPassFilter_three_stages (node : ref) (skip : option ref) (w : World) :
  let verdict := snd (doesRowPassFilter grid node skip w) in
  let quickApplies :=
    match quickFilter w with
    | Some _ => negb (aggFiltering w || pivotMode (columnModel grid))
    | None => false
    end in
  let callbackAnswer :=
    match doesExternalFilterPass_callback grid with
    | Some doesFilterPass => doesFilterPass (rowObjs w node)
    | None => false
    end in
  let stage1 := if quickApplies then snd (doesRowPassQuickFilter grid node w) else Normal true in
  let stage2 := if externalFilterPresent w then callbackAnswer else true in
  let stage3 := snd (doColumnFiltersPass node skip false w) in
  verdict = match stage1 with
            | Throw e => Throw e
            | Normal false => Normal false
            | Normal true => if stage2 then stage3 else Normal false
            end
  /\ doesExternalFilterPass grid node w = (w, Normal callbackAnswer)
  /\ stage3 = columnFiltersOutcome w node skip false (activeColumnFilters w)
  /\ (verdict = Normal true
      <-> stage1 = Normal true /\ stage2 = true
          /\ Forall (fun f => filterAnswer w node false f = Some true)
               (consulted skip (activeColumnFilters w)))
  /\ (Forall (fun f => filterAnswer w node false f <> None)
        (consulted skip (activeColumnFilters w)) ->
      stage3 = Normal (forallb (fun f => match filterAnswer w node false f with
                                         | Some b => b
                                         | None => false
                                         end)
                         (consulted skip (activeColumnFilters w)))).
Proof.
  intros verdict quickApplies callbackAnswer stage1 stage2 stage3.
  assert (stage1 = quickFilterStage grid w node) as E1.
  { unfold stage1, quickApplies, quickFilterStage.
    destruct (quickFilter w); [|reflexivity].
    now destruct (negb (aggFiltering w || pivotMode (columnModel grid))). }
  assert (stage2 = externalFilterStage grid w node) as E2 by reflexivity.
  assert (stage3 = columnFiltersOutcome w node skip false (activeColumnFilters w)) as E3.
  { unfold stage3. now rewrite doColumnFiltersPass_reading. }
  assert (verdict = match stage1 with
            | Throw e => Throw e
            | Normal false => Normal false
            | Normal true => if stage2 then stage3 else Normal false
            end) as Ev.
  { unfold verdict. rewrite doesRowPassFilter_reading, E1, E2, E3.
    destruct (quickFilterStage grid w node) as [[]|]; reflexivity. }
  split; [exact Ev|]. split.
  { unfold doesExternalFilterPass, callbackAnswer.
    now destruct (doesExternalFilterPass_callback grid). }
  split; [exact E3|]. split.
  - rewrite Ev, E3, <- columnFiltersOutcome_true.
    destruct stage1 as [[]|]; try (split; [discriminate | intros [? _]; discriminate]).
    destruct stage2; try (split; [discriminate | intros [_ [? _]]; discriminate]).
    split; [auto | now intros [_ [_ ?]]].
  - intros H. rewrite E3. now apply columnFiltersOutcome_conjunction.
Qed.

(** C10. Off the client-side row model every quick-filter text is parsed to
    [null], with nothing but a console warning for a text that exists; so
    after [setQuickFilter] and after [init] no quick filter is present, the
    quick-filter stage of neither row-pass evaluation applies, and the
    verdict of [doesRowPassFilter] is that of the external and the column
    filter stages alone. *)
Theorem quick_filter_off_client_side (t : string) (w : World) (node : ref)
    (skip : option ref) :
  rowModelType grid <> clientSide ->
  let w' := fst (setQuickFilter grid (VString t) w) in
  parseQuickFilter grid (VString t) w
  = (if isEmpty t then w
     else set_console
            (console w ++ ["AG Grid - Quick filtering only works with the Client-Side Row Model"]) w,
     Normal None)
  /\ quickFilter w' = None
  /\ quickFilter (fst (init grid w)) = None
  /\ snd (isQuickFilterPresent w') = Normal false
  /\ snd (isNonAggregateQuickFilterPresent grid w') = Normal false
  /\ snd (isAggregateQuickFilterPresent grid w') = Normal false
  /\ snd (doesRowPassFilter grid node skip w')
     = (if externalFilterStage grid w' node
        then snd (doColumnFiltersPass node skip false w')
        else Normal false).
Proof.
  intros Hc w'.
  assert (quickFilter w' = None) as Hq.
  { unfold w'. rewrite setQuickFilter_quickFilter. unfold parsedText.
    destruct (rowModelType grid) eqn:E; [congruence|..]; simpl;
      rewrite orb_true_r; reflexivity. }
  split.
  { rewrite (parseQuickFilter_not_client_side grid _ w Hc). simpl.
    now destruct (isEmpty t). }
  split; [exact Hq|]. split.
  { unfold init, bind at 1.
    rewrite (parseQuickFilter_not_client_side grid _ w Hc).
    unfold isExternalFilterPresentCallback.
    destruct (exists_ (quickFilterText grid)), (isExternalFilterPresent_callback grid);
      reflexivity. }
  unfold isNonAggregateQuickFilterPresent, isAggregateQuickFilterPresent,
    isQuickFilterPresent, bind, gets, ret. simpl. rewrite Hq. simpl.
  repeat split.
  rewrite doesRowPassFilter_reading, doColumnFiltersPass_reading.
  unfold quickFilterStage. now rewrite Hq.
Qed.

End RowPassClaims.

(* ===================================================================== *)
(** * The active filter sets *)
(* ===================================================================== *)

Section ActiveFilterClaims.

Variable grid : Grid.

Lemma isAggFilter_rule (c : Column) :
  isAggFilter grid (groupAggFiltering grid) c
  = negb (primary c)
    || (valueActive c && negb (pivotActive (columnModel grid))
        && (pivotMode (columnModel grid) || groupAggFiltering grid)).
Proof.
  unfold isAggFilter.
  destruct (primary c), (valueActive c), (pivotActive (columnModel grid)),
    (pivotMode (columnModel grid)), (groupAggFiltering grid); reflexivity.
Qed.

Lemma classified_members (agg : bool) (w : World) (entries : list (string * ref)) (f : ref) :
  In f (classified grid agg w entries) ->
  exists entry, In entry entries /\ activeFilter w (snd entry) = Some f
    /\ isAggFilter grid (groupAggFiltering grid) (wrapperColumn w (snd entry)) = agg.
Proof.
  unfold classified. rewrite in_flat_map. intros [entry [Hin Hf]].
  exists entry. split.
  - clear Hf. induction entries as [|e entries IH]; simpl in *; [contradiction|].
    destruct (hasPromise w (snd e)); [|contradiction].
    destruct Hin as [-> | Hin]; [now left | right; now apply IH].
  - destruct (activeFilter w (snd entry)) as [f'|]; [|contradiction].
    destruct (Bool.eqb _ agg) eqn:E; [|contradiction].
    destruct Hf as [-> | []]. split; [reflexivity | now apply Bool.eqb_prop].
Qed.

Lemma activeFilter_resolved (w : World) (wrapper f : ref) :
  activeFilter w wrapper = Some f -> resolvedFilter w wrapper = Some f.
Proof.
  unfold activeFilter. destruct (resolvedFilter w wrapper) as [f'|]; [|discriminate].
  destruct (IFilter.isFilterActive (filterObjs w f')) as [test|]; [|discriminate].
  destruct (test _); [congruence | discriminate].
Qed.

(** C3. When the active filter sets are rebuilt, each active filter goes to
    the aggregate set when [isAggFilter] holds of its column and to the
    column set otherwise, where [isAggFilter] holds of every non-primary
    column, and of a primary column iff it is an active value column, pivot
    is not active, and pivot mode is on or group-aggregate-filtering is
    enabled.  So a primary column that is not a value column is never
    classified as aggregate, and every member of the aggregate set comes
    from a wrapper whose column is non-primary or an active value column. *)
Theorem aggregate_classification (w : World) :
  let w' := fst (updateActiveFilters grid w) in
  let enabled := groupAggFiltering grid in
  (forall c : Column,
     isAggFilter grid enabled c
     = negb (primary c)
       || (valueActive c && negb (pivotActive (columnModel grid))
           && (pivotMode (columnModel grid) || enabled)))
  /\ activeAggregateFilters w' = classified grid true w (allColumnFilters w)
  /\ activeColumnFilters w' = classified grid false w (allColumnFilters w)
  /\ (forall c : Column,
        primary c && negb (valueActive c) && isAggFilter grid enabled c = false)
  /\ Forall (fun f =>
       exists entry, In entry (allColumnFilters w)
         /\ activeFilter w (snd entry) = Some f
         /\ (primary (wrapperColumn w (snd entry)) = false
             \/ valueActive (wrapperColumn w (snd entry)) = true))
       (activeAggregateFilters w').
Proof.
  intros w' enabled.
  destruct (updateActiveFilters_reading grid w) as [w1 [E [_ [_ [Ha Hc]]]]].
  assert (w' = w1) as -> by (unfold w'; now rewrite E).
  split; [apply isAggFilter_rule|].
  split; [exact Ha|]. split; [exact Hc|]. split.
  - intros c. unfold enabled. rewrite isAggFilter_rule.
    destruct (primary c), (valueActive c); reflexivity.
  - rewrite Ha. apply Forall_forall. intros f Hin.
    apply classified_members in Hin as [entry [Hin [Hf Hagg]]].
    exists entry. split; [exact Hin|]. split; [exact Hf|].
    rewrite isAggFilter_rule in Hagg.
    destruct (primary (wrapperColumn w (snd entry))); [|now left].
    destruct (valueActive (wrapperColumn w (snd entry))); [now right | discriminate].
Qed.

Lemma classified_withoutPending (agg : bool) (w : World) (entries : list (string * ref)) :
  classified grid agg w
    (List.filter (fun entry => negb (isPending w (snd entry))) entries)
  = classified grid agg w entries.
Proof.
  induction entries as [|e entries IH]; [reflexivity|].
  simpl. rewrite classified_cons.
  destruct (isPending w (snd e)) eqn:Ep; simpl.
  - rewrite IH. unfold isPending, hasPromise in *. rewrite classified_single.
    destruct (filterPromise (wrapperObjs w (snd e))) as [p|]; [|discriminate].
    destruct (resolution p); [discriminate | reflexivity].
  - rewrite classified_cons, IH. reflexivity.
Qed.

(** C8. After the active filter sets are rebuilt, every member of either
    set is the instance some wrapper's promise has already resolved with;
    a wrapper whose promise is still pending contributes to neither set
    (the sets are those of the wrapper map without the pending wrappers);
    and [doColumnFiltersPass] consults the members of these sets only. *)
Theorem active_sets_hold_resolved_instances (w : World) (node : ref)
    (skip : option ref) (targetAggregates : bool) :
  let w' := fst (updateActiveFilters grid w) in
  let w'' := fst (updateActiveFilters grid (withoutPending w)) in
  Forall (fun f =>
    exists entry, In entry (allColumnFilters w')
      /\ isPending w' (snd entry) = false
      /\ resolvedFilter w' (snd entry) = Some f)
    (activeColumnFilters w' ++ activeAggregateFilters w')
  /\ activeColumnFilters w' = activeColumnFilters w''
  /\ activeAggregateFilters w' = activeAggregateFilters w''
  /\ doColumnFiltersPass node skip targetAggregates w'
     = (w', columnFiltersOutcome w' node skip targetAggregates
              (if targetAggregates then activeAggregateFilters w'
               else activeColumnFilters w')).
Proof.
  intros w' w''.
  destruct (updateActiveFilters_reading grid w) as [w1 [E [Hs [Hm [Ha Hc]]]]].
  assert (w' = w1) as -> by (unfold w'; now rewrite E).
  destruct (updateActiveFilters_reading grid (withoutPending w))
    as [w2 [E2 [_ [_ [Ha2 Hc2]]]]].
  assert (w'' = w2) as -> by (unfold w''; now rewrite E2).
  split.
  - apply Forall_forall. intros f Hin.
    assert (exists entry, In entry (allColumnFilters w)
                          /\ activeFilter w (snd entry) = Some f) as [entry [Hi Hf]].
    { apply in_app_or in Hin as [Hin | Hin]; [rewrite Hc in Hin | rewrite Ha in Hin];
        apply classified_members in Hin as [entry [Hi [Hf _]]]; now exists entry. }
    exists entry. rewrite Hm. split; [exact Hi|].
    apply activeFilter_resolved in Hf.
    unfold isPending, resolvedFilter in *. destruct Hs as [-> _].
    destruct (filterPromise (wrapperObjs w (snd entry))) as [p|]; [|discriminate].
    rewrite Hf. auto.
  - assert (sameObjects w (withoutPending w)) as Hsame by (repeat split).
    rewrite (classified_same grid true w (withoutPending w)) in Ha2 by exact Hsame.
    rewrite (classified_same grid false w (withoutPending w)) in Hc2 by exact Hsame.
    unfold withoutPending in Ha2, Hc2. simpl in Ha2, Hc2.
    rewrite classified_withoutPending in Ha2.
    rewrite classified_withoutPending in Hc2.
    split; [congruence|]. split; [congruence|].
    apply doColumnFiltersPass_reading.
Qed.

End ActiveFilterClaims.


(* ===================================================================== *)
(** * The wrapper lifecycle *)
(* ===================================================================== *)

Section WrapperClaims.

Variable grid : Grid.

(** X7. The life of a wrapper whose instance has a gui that can be put
    into the element of the filter ([getGui] gives a node, or a template
    that describes one).  After a request for a filterable column returned
    a wrapper (whose instance has resolved), a second request returns the
    same wrapper and makes nothing new: the map, the allocation counter and
    the instances are as they were.  Destroying the wrapper calls
    [setModel(null)] on the instance, destroys the bean, sets the column's
    filter-active flag to [false], removes the wrapper from the map and
    dispatches [filter-destroyed].  A request after that makes a new
    wrapper with a new instance, when the gui of that instance can be put
    in as well. *)
Theorem wrapper_lifecycle (col wrapper f : ref) (first second third : FilterRequestSource)
    (source : DestroySource) (w w1 : World)
    (setModel_ : value -> value -> value * SetModelReturn)
    (details : UserCompDetails) (instance : IFilterComp) :
  getOrCreateFilterWrapper grid col first w = (w1, Normal (Some wrapper)) ->
  resolvedFilter w1 wrapper = Some f ->
  column (wrapperObjs w1 wrapper) = col ->
  mounts grid (filterObjs w1 f) = true ->
  IFilter.setModel (filterObjs w1 f) = Some setModel_ ->
  snd (setModel_ VNull (IFilter.filterState (filterObjs w1 f))) <> ReturnsPending ->
  wrapper < nextRef w1 -> f < nextRef w1 ->
  createFilterInstance grid (columnObjs w1 col) = Some details ->
  newAgStackInstance details = InstanceReady instance ->
  mounts grid instance = true ->
  exists (w2 w3 w4 : World) (wrapper' f' : ref),
    getOrCreateFilterWrapper grid col second w1 = (w2, Normal (Some wrapper))
    /\ allColumnFilters w2 = allColumnFilters w1
    /\ nextRef w2 = nextRef w1
    /\ filterObjs w2 = filterObjs w1
    /\ resolvedFilter w2 wrapper = Some f
    /\ disposeFilterWrapper wrapper source w2 = (w3, Normal tt)
    /\ IFilter.filterState (filterObjs w3 f)
       = fst (setModel_ VNull (IFilter.filterState (filterObjs w1 f)))
    /\ map_get (allColumnFilters w3) (colId (columnObjs w3 col)) = None
    /\ filterActive (columnObjs w3 col) = false
    /\ events w3 = events w2 ++ [EVENT_FILTER_DESTROYED source col]
    /\ destroyedBeans w3 = destroyedBeans w2 ++ [f]
    /\ getOrCreateFilterWrapper grid col third w3 = (w4, Normal (Some wrapper'))
    /\ wrapper' <> wrapper
    /\ resolvedFilter w4 wrapper' = Some f'
    /\ f' <> f
    /\ filterObjs w4 f' = instance
    /\ map_get (allColumnFilters w4) (colId (columnObjs w4 col)) = Some wrapper'.
Proof.
  intros H1 Hr Hcol Hgui Hs Hp Hw Hf Hd Hi Hgui'.
  destruct (getOrCreateFilterWrapper_result grid col wrapper first w w1 H1) as [Ha Hm].
  assert (hasPromise w1 wrapper = true) as Hhas.
  { unfold hasPromise, resolvedFilter in *.
    now destruct (filterPromise (wrapperObjs w1 wrapper)). }
  destruct (getOrCreateFilterWrapper_cached grid col wrapper second w1 Ha Hm Hhas)
    as [w2 [E2 [Hm2 [_ [Hn2 [Hf2 [Hc2 [_ [Hr2 [Hcol2 _]]]]]]]]]].
  assert (guiOutcome grid w1 wrapper = Normal tt) as Hout.
  { unfold guiOutcome. now rewrite Hr, Hgui. }
  rewrite Hout in E2.
  assert (getOrCreateFilterWrapper grid col second w1 = (w2, Normal (Some wrapper))) as E2'.
  { rewrite E2. now destruct (isNoUi second). }
  clear E2.
  assert (resolvedFilter w2 wrapper = Some f) as Hr' by (now rewrite Hr2).
  assert (IFilter.setModel (filterObjs w2 f) = Some setModel_) as Hs' by (now rewrite Hf2).
  assert (snd (setModel_ VNull (IFilter.filterState (filterObjs w2 f))) <> ReturnsPending)
    as Hp' by (now rewrite Hf2).
  destruct (disposeFilterWrapper_reading wrapper f source w2 setModel_ Hr' Hs' Hp')
    as [w3 [E3 [Hst3 [Hm3 [Hc3 [He3 [Hb3 [Hn3 Hw3]]]]]]]].
  rewrite Hcol2, Hcol in Hm3, Hc3, He3. rewrite Hc2 in Hm3, Hc3.
  assert (columnObjs w3 col
          = mkColumn (colId (columnObjs w1 col)) (colDef (columnObjs w1 col))
              (primary (columnObjs w1 col)) (filterAllowed (columnObjs w1 col))
              (valueActive (columnObjs w1 col)) false) as Hc3'.
  { rewrite Hc3. apply upd_same. }
  assert (filterAllowed (columnObjs w3 col) = true) as Ha3 by (now rewrite Hc3').
  assert (map_get (allColumnFilters w3) (colId (columnObjs w3 col)) = None) as Hm3'.
  { rewrite Hc3', Hm3. simpl. apply map_get_delete. }
  assert (createFilterInstance grid (columnObjs w3 col) = Some details) as Hd3.
  { rewrite <- Hd, Hc3'. reflexivity. }
  destruct (getOrCreateFilterWrapper_fresh grid col third w3 details instance Ha3 Hm3' Hd3 Hi)
    as [w4 [E4 [Hr4 [Hf4 [_ [Hm4 [_ [Hc4 _]]]]]]]].
  rewrite Hgui' in E4, Hm4.
  assert (map_get (allColumnFilters w4) (colId (columnObjs w3 col)) = Some (nextRef w3))
    as Hm4' by (rewrite Hm4; apply map_get_set).
  exists w2, w3, w4, (nextRef w3), (S (nextRef w3)).
  rewrite Hc4.
  repeat (split; [first [assumption | lia | now rewrite Hc3' | idtac]|]);
    try assumption; try lia.
  now rewrite Hst3, Hf2.
Qed.

End WrapperClaims.

(* ===================================================================== *)
(** * Further properties of the manager *)
(* ===================================================================== *)

(** ** The loop over the active filters *)

Section ColumnFilterLoop.

Variable grid : Grid.

Lemma option_ref_eqb_true (a : option ref) (b : ref) :
  option_ref_eqb a b = true <-> a = Some b.
Proof.
  destruct a as [x|]; simpl; [|split; discriminate].
  rewrite Nat.eqb_eq. split; congruence.
Qed.

Lemma columnFiltersOutcome_consulted (w : World) node skip agg filters :
  columnFiltersOutcome w node skip agg filters
  = columnFiltersOutcome w node None agg (consulted skip filters).
Proof.
  induction filters as [|f filters IH]; [reflexivity|].
  simpl. destruct (option_ref_eqb skip f); simpl; [exact IH|].
  now rewrite IH.
Qed.

Lemma outcome_throw (w : World) node agg (l : list ref) (e : string) :
  columnFiltersOutcome w node None agg l = Throw e
  <-> e = "Error: Filter is missing method doesFilterPass"
      /\ exists pre f post, l = pre ++ f :: post
           /\ Forall (fun g => filterAnswer w node agg g = Some true) pre
           /\ filterAnswer w node agg f = None.
Proof.
  induction l as [|g l IH]; simpl.
  - split; [discriminate | intros [_ [[|? ?] [f [post [H _]]]]]; discriminate].
  - destruct (filterAnswer w node agg g) as [[]|] eqn:Eg.
    + rewrite IH. split.
      * intros [He [pre [f [post [-> [Hp Hf]]]]]]. split; [exact He|].
        exists (g :: pre), f, post. repeat split; [now constructor | exact Hf].
      * intros [He [[|x pre] [f [post [Hl [Hp Hf]]]]]]; simpl in Hl;
          injection Hl as -> ->; [congruence|].
        split; [exact He|]. exists pre, f, post. inversion Hp. auto.
    + split; [discriminate|].
      intros [_ [[|x pre] [f [post [Hl [Hp Hf]]]]]]; simpl in Hl;
        injection Hl as -> ->; [congruence | inversion Hp; congruence].
    + split.
      * intros H. injection H as <-. split; [reflexivity|].
        exists [], g, l. repeat split; [constructor | exact Eg].
      * intros [-> _]. reflexivity.
Qed.

Lemma outcome_false (w : World) node agg (l : list ref) :
  columnFiltersOutcome w node None agg l = Normal false
  <-> exists pre f post, l = pre ++ f :: post
        /\ Forall (fun g => filterAnswer w node agg g = Some true) pre
        /\ filterAnswer w node agg f = Some false.
Proof.
  induction l as [|g l IH]; simpl.
  - split; [discriminate | intros [[|? ?] [f [post [H _]]]]; discriminate].
  - destruct (filterAnswer w node agg g) as [[]|] eqn:Eg.
    + rewrite IH. split.
      * intros [pre [f [post [-> [Hp Hf]]]]].
        exists (g :: pre), f, post. repeat split; [now constructor | exact Hf].
      * intros [[|x pre] [f [post [Hl [Hp Hf]]]]]; simpl in Hl;
          injection Hl as -> ->; [congruence|].
        exists pre, f, post. inversion Hp. auto.
    + split; [intros _ | reflexivity].
      exists [], g, l. repeat split; [constructor | exact Eg].
    + split; [discriminate|].
      intros [[|x pre] [f [post [Hl [Hp Hf]]]]]; simpl in Hl;
        injection Hl as -> ->; [congruence | inversion Hp; congruence].
Qed.

(** X1. [doColumnFiltersPass] leaves the world as it is and goes through the
    consulted filters in order: it throws exactly when it reaches a filter
    without [doesFilterPass] before any filter rejects the row, it answers
    [false] exactly when a filter rejects the row before any filter lacks
    the method, and [true] exactly when every consulted filter has the
    method and accepts.  The excluded instance is never consulted: the
    outcome does not depend on what it is. *)
Theorem doColumnFiltersPass_outcomes (node : ref) (skip : option ref)
    (targetAggregates : bool) (w : World) (excluded : ref) (changed : IFilterComp) :
  let active := if targetAggregates then activeAggregateFilters w else activeColumnFilters w in
  let filters := consulted skip active in
  let answer := filterAnswer w node targetAggregates in
  let reached (last : option bool) :=
    exists pre f post, filters = pre ++ f :: post
      /\ Forall (fun g => answer g = Some true) pre /\ answer f = last in
  let outcome := snd (doColumnFiltersPass node skip targetAggregates w) in
  fst (doColumnFiltersPass node skip targetAggregates w) = w
  /\ (outcome = Throw "Error: Filter is missing method doesFilterPass" <-> reached None)
  /\ (outcome = Normal false <-> reached (Some false))
  /\ (outcome = Normal true <-> Forall (fun g => answer g = Some true) filters)
  /\ snd (doColumnFiltersPass node (Some excluded) targetAggregates
            (set_filterObjs (upd (filterObjs w) excluded changed) w))
     = snd (doColumnFiltersPass node (Some excluded) targetAggregates w).
Proof.
  intros active filters answer reached outcome.
  assert (outcome = columnFiltersOutcome w node None targetAggregates filters) as Eo.
  { unfold outcome. rewrite doColumnFiltersPass_reading. simpl.
    apply columnFiltersOutcome_consulted. }
  split; [now rewrite doColumnFiltersPass_reading|].
  split.
  { rewrite Eo, outcome_throw. unfold reached. split; [now intros [_ H] | now split]. }
  split; [rewrite Eo; apply outcome_false|].
  split.
  { unfold outcome. rewrite doColumnFiltersPass_reading. simpl.
    apply columnFiltersOutcome_true. }
  rewrite !doColumnFiltersPass_reading. simpl.
  fold active. clear. induction active as [|f l IH]; [reflexivity|].
  simpl. destruct (Nat.eqb excluded f) eqn:E; [exact IH|].
  unfold filterAnswer at 1. simpl. rewrite upd_other.
  - fold (filterAnswer w node targetAggregates f). now rewrite IH.
  - intros ->. now rewrite Nat.eqb_refl in E.
Qed.

End ColumnFilterLoop.

(** ** Aggregate row-pass evaluation *)

Section AggregatePass.

Variable grid : Grid.

Lemma failsWhen_aggregate (node : ref) (skip : option ref) (w : World) :
  failsWhen isAggregateFilterPresent (doAggregateFiltersPass node skip) w
  = (w, match columnFiltersOutcome w node skip true (activeAggregateFilters w) with
        | Normal a => Normal (negb a)
        | Throw e => Throw e
        end).
Proof.
  unfold failsWhen, isAggregateFilterPresent, doAggregateFiltersPass, bind, gets, ret.
  destruct (activeAggregateFilters w) as [|f l] eqn:Ea; [reflexivity|].
  cbn [negb Nat.eqb List.length].
  rewrite doColumnFiltersPass_reading, Ea.
  destruct (columnFiltersOutcome w node skip true (f :: l)); reflexivity.
Qed.

(** The quick-filter stage of the aggregate evaluation, with the world it
    leaves. *)
Lemma aggregateQuickStage_reading (node : ref) (w : World) :
  exists w1,
    failsWhen (isAggregateQuickFilterPresent grid) (doesRowPassQuickFilter grid node) w
    = (w1, match (if match quickFilter w with
                     | Some _ => aggFiltering w || pivotMode (columnModel grid)
                     | None => false
                     end
                  then snd (doesRowPassQuickFilter grid node w) else Normal true) with
           | Normal a => Normal (negb a)
           | Throw e => Throw e
           end)
    /\ activeAggregateFilters w1 = activeAggregateFilters w
    /\ filterObjs w1 = filterObjs w /\ rowObjs w1 = rowObjs w.
Proof.
  unfold failsWhen, isAggregateQuickFilterPresent, isQuickFilterPresent, bind, gets, ret.
  destruct (quickFilter w) as [q|]; simpl; [|now exists w].
  destruct (aggFiltering w || pivotMode (columnModel grid)); simpl; [|now exists w].
  pose proof (doesRowPassQuickFilter_keeps grid activeAggregateFilters node
                (fun _ _ => eq_refl) w).
  pose proof (doesRowPassQuickFilter_keeps grid filterObjs node (fun _ _ => eq_refl) w).
  pose proof (doesRowPassQuickFilter_keeps grid rowObjs node (fun _ _ => eq_refl) w).
  destruct (doesRowPassQuickFilter grid node w) as [w1 [a|e]]; simpl in *;
    exists w1; auto.
Qed.

(** X2. [doesRowPassAggregateFilters] has two stages, in order and stopping at
    the first failure: the quick filter, when one is present and routed to
    aggregate mode (group-aggregate filtering or pivot mode), then the
    active aggregate filters against the row's aggregated data.  The
    external filter plays no part.  A present quick filter is routed to
    exactly one of the two evaluations. *)
Theorem doesRowPassAggregateFilters_stages (node : ref) (skip : option ref) (w : World)
    (flag : bool) :
  let routed := aggFiltering w || pivotMode (columnModel grid) in
  let present := match quickFilter w with Some _ => true | None => false end in
  let stage1 := if present && routed
                then snd (doesRowPassQuickFilter grid node w) else Normal true in
  let stage2 := snd (doColumnFiltersPass node skip true w) in
  snd (doesRowPassAggregateFilters grid node skip w)
  = match stage1 with
    | Throw e => Throw e
    | Normal false => Normal false
    | Normal true => stage2
    end
  /\ snd (doesRowPassAggregateFilters grid node skip (set_externalFilterPresent flag w))
     = snd (doesRowPassAggregateFilters grid node skip w)
  /\ snd (isAggregateQuickFilterPresent grid w) = Normal (present && routed)
  /\ snd (isNonAggregateQuickFilterPresent grid w) = Normal (present && negb routed).
Proof.
  intros routed present stage1 stage2.
  assert (forall w0 : World,
    snd (doesRowPassAggregateFilters grid node skip w0)
    = match (if match quickFilter w0 with
                 | Some _ => aggFiltering w0 || pivotMode (columnModel grid)
                 | None => false
                 end
              then snd (doesRowPassQuickFilter grid node w0) else Normal true) with
      | Throw e => Throw e
      | Normal false => Normal false
      | Normal true => columnFiltersOutcome w0 node skip true (activeAggregateFilters w0)
      end) as Reading.
  { intros w0. unfold doesRowPassAggregateFilters. unfold bind at 1.
    destruct (aggregateQuickStage_reading node w0) as [w1 [E [Ha [Hf Hr]]]]. rewrite E.
    destruct (if match quickFilter w0 with
                 | Some _ => aggFiltering w0 || pivotMode (columnModel grid)
                 | None => false
                 end
              then snd (doesRowPassQuickFilter grid node w0) else Normal true)
      as [[]|e]; simpl; try reflexivity.
    unfold bind. rewrite failsWhen_aggregate, Ha.
    rewrite (columnFiltersOutcome_same w0 w1) by assumption.
    now destruct (columnFiltersOutcome w0 node skip true (activeAggregateFilters w0))
      as [[]|]. }
  split.
  { rewrite Reading. unfold stage1, stage2, present, routed.
    rewrite doColumnFiltersPass_reading.
    destruct (quickFilter w); reflexivity. }
  split.
  { rewrite !Reading. simpl.
    assert (snd (doesRowPassQuickFilter grid node (set_externalFilterPresent flag w))
            = snd (doesRowPassQuickFilter grid node w)) as ->.
    2: { now rewrite (columnFiltersOutcome_same w (set_externalFilterPresent flag w)). }
    unfold doesRowPassQuickFilter, bind, gets. simpl.
    destruct (quickFilterParts w) as [parts|]; [|reflexivity].
    destruct (cacheQuickFilter grid).
    - now rewrite !every_cache.
    - now rewrite !every_noCache. }
  unfold isAggregateQuickFilterPresent, isNonAggregateQuickFilterPresent,
    isQuickFilterPresent, bind, gets, ret. simpl.
  unfold present, routed. now destruct (quickFilter w).
Qed.

End AggregatePass.

(** ** The exported model *)

Section ExportedModel.

(** X3. [getFilterModel] goes through the wrappers in map order and throws a
    [TypeError] at the first wrapper whose [filterPromise] is [null];
    otherwise it returns an object that holds, under each column id, the
    model of the wrapper's resolved instance when the instance has
    [getModel] and the model exists, and nothing for any other key: no
    missing value is ever exported and a pending wrapper exports nothing.
    Its only effect is a console warning for each resolved instance without
    [getModel]. *)
Theorem getFilterModel_export (w : World) (key : string) (wrapper : ref) :
  let entries := allColumnFilters w in
  let exported := exportEntries w entries [] in
  getFilterModel w
  = (warned (flat_map (fun e => getModelWarning w (snd e)) (visited w entries)) w,
     if forallb (fun e => hasPromise w (snd e)) entries
     then Normal exported else Throw TypeError_null)
  /\ Forall (fun kv => exists_ (snd kv) = true) exported
  /\ (NoDup (map fst entries) -> In (key, wrapper) entries ->
      getProperty exported key
      = match exportedModel w wrapper with Some model => model | None => VUndefined end)
  /\ (~ In key (map fst entries) -> getProperty exported key = VUndefined)
  /\ (isPending w wrapper = true -> exportedModel w wrapper = None).
Proof.
  intros entries exported.
  split; [apply getFilterModel_reading|].
  split; [apply exportEntries_exist; constructor|].
  split; [intros Hd Hin; now apply exportEntries_lookup|].
  split; [intros Hn; now apply exportEntries_other|].
  unfold isPending, exportedModel, resolvedFilter.
  destruct (filterPromise (wrapperObjs w wrapper)) as [p|]; [|reflexivity].
  now destruct (resolution p).
Qed.

End ExportedModel.

(** ** Requests for a wrapper *)

Section Requests.

Variable grid : Grid.

Lemma createFilterWrapper_then_set (col : ref) (source : FilterRequestSource) (w : World) :
  snd (bind (createFilterWrapper grid col source) (fun filterWrapper =>
         bind (modify (fun w0 =>
                 set_allColumnFilters
                   (map_set (allColumnFilters w0) (colId (columnObjs w col)) filterWrapper) w0))
           (fun _ =>
              bind (modify (fun w0 =>
                      set_allColumnListeners
                        (listeners_set (allColumnListeners w0) (colId (columnObjs w col))) w0))
                (fun _ => ret (Some filterWrapper)))) w)
  <> Normal None.
Proof.
  unfold bind at 1.
  destruct (createFilterWrapper grid col source w) as [w1 [fw|e]]; simpl; discriminate.
Qed.

(** X4. A request that completes returns [null] exactly when the column does
    not allow filtering, and then it changes nothing; so in [setFilterModel],
    where the column was just checked, the warning for a wrapper that could
    not be created (the one warning that starts with AG-Grid) is never
    logged. *)
Theorem getOrCreateFilterWrapper_null (col : ref) (source : FilterRequestSource)
    (w : World) (model : list (string * value)) (key : string) :
  (snd (getOrCreateFilterWrapper grid col source w) = Normal None
   <-> filterAllowed (columnObjs w col) = false)
  /\ (if filterAllowed (columnObjs w col) then True
      else getOrCreateFilterWrapper grid col source w = (w, Normal None))
  /\ exists logged,
       console (fst (setFilterModel_remaining grid model key w)) = console w ++ logged
       /\ Forall (fun line => isUnableToCreate line = false) logged
       /\ isUnableToCreate
            ("AG-Grid: setFilterModel() - unable to fully apply model, unable to create filter for colId: "
             ++ key)%string = true.
Proof.
  assert (forall c s w0, filterAllowed (columnObjs w0 c) = true ->
          snd (getOrCreateFilterWrapper grid c s w0) <> Normal None) as Hsome.
  { intros c s w0 Ha. unfold getOrCreateFilterWrapper, bind at 1, gets. rewrite Ha.
    cbn [negb]. unfold bind at 1, cachedFilter, gets.
    destruct (map_get (allColumnFilters w0) (colId (columnObjs w0 c))) as [fw|].
    - unfold bind. destruct (when _ _ w0) as [w1 [[]|e]]; simpl; discriminate.
    - apply createFilterWrapper_then_set. }
  split; [|split].
  - destruct (filterAllowed (columnObjs w col)) eqn:Ha.
    + split; [intros H; now apply Hsome in H | discriminate].
    + split; [reflexivity|]. intros _.
      unfold getOrCreateFilterWrapper, bind, gets. now rewrite Ha.
  - destruct (filterAllowed (columnObjs w col)) eqn:Ha; [exact I|].
    unfold getOrCreateFilterWrapper, bind, gets. now rewrite Ha.
  - assert (exists logged,
              console (fst (setFilterModel_remaining grid model key w)) = console w ++ logged
              /\ Forall (fun line => isUnableToCreate line = false) logged)
      as [logged [E F]]; [|exists logged; repeat split; assumption].
    unfold setFilterModel_remaining, getPrimaryOrGridColumn. unfold bind at 1, gets.
    destruct (match findColumn w (primaryColumns (columnModel grid)) key with
              | Some c => Some c
              | None => findColumn w (gridColumns (columnModel grid)) key
              end) as [c|].
    2: { eexists. split; [reflexivity|]. now repeat constructor. }
    unfold bind at 1, gets. destruct (filterAllowed (columnObjs w c)) eqn:Ha; simpl.
    2: { eexists. split; [reflexivity|]. now repeat constructor. }
    unfold bind at 1.
    pose proof (Hsome c NO_UI w Ha) as Hne.
    destruct (getOrCreateFilterWrapper_console grid c NO_UI w) as [d0 [E0 F0]].
    destruct (getOrCreateFilterWrapper grid c NO_UI w) as [w1 [[fw|]|e]]; simpl in *.
    + destruct (setModelOnFilterWrapper_console grid fw (getProperty model key) w1)
        as [d [E F]].
      unfold bind. destruct (setModelOnFilterWrapper grid fw (getProperty model key) w1)
        as [w2 [a|e]]; simpl in *; exists (d0 ++ d);
        (split; [rewrite app_assoc, <- E0; exact E | now apply Forall_app]).
    + congruence.
    + exists d0. auto.
Qed.

End Requests.

(** ** A filter without [setModel] *)

Section MissingSetModel.

Variable grid : Grid.

Lemma setModelOnFilterWrapper_missing (wrapper f : ref) (newModel : value) (w : World) :
  resolvedFilter w wrapper = Some f ->
  IFilter.setModel (filterObjs w f) = None ->
  exists w1,
    setModelOnFilterWrapper grid wrapper newModel w
    = (w1, Throw "TypeError: filter.setModel is not a function")
    /\ console w1
       = console w
         ++ ["AG Grid: filter missing setModel method, which is needed for setFilterModel"]
    /\ applyPromises w1 (nextRef w) = mkApplyPromise true []
    /\ events w1 = events w /\ filterObjs w1 = filterObjs w
    /\ allColumnFilters w1 = allColumnFilters w.
Proof.
  unfold resolvedFilter. intros Hr Hs.
  unfold setModelOnFilterWrapper, filterPromise_then, filterPromiseOf,
    setModelOnFilterWrapper_callback, callSetModel, resolveApply, console_warn, alloc,
    bind, gets, modify, ret, throw.
  simpl. destruct (filterPromise (wrapperObjs w wrapper)) as [p|]; [|discriminate].
  rewrite Hr. simpl. rewrite Hs. simpl. rewrite upd_same. simpl. rewrite Hs.
  eexists. split; [reflexivity|]. simpl. rewrite upd_same. repeat split.
Qed.

(** X5. When the first wrapper of the map holds a resolved instance without
    [setModel], [setFilterModel] does not skip it: after the warning the
    call of the missing method throws a [TypeError] out of [setFilterModel],
    whatever the model.  Nothing is applied to any filter and no
    filter-changed event is dispatched. *)
Theorem setFilterModel_missing_setModel (model : option (list (string * value)))
    (key : string) (wrapper f : ref) (rest : list (string * ref)) (w : World) :
  allColumnFilters w = (key, wrapper) :: rest ->
  forallb (fun e => hasPromise w (snd e)) (allColumnFilters w) = true ->
  resolvedFilter w wrapper = Some f ->
  IFilter.setModel (filterObjs w f) = None ->
  let after := fst (setFilterModel grid model w) in
  snd (setFilterModel grid model w) = Throw "TypeError: filter.setModel is not a function"
  /\ console after
     = console w
       ++ flat_map (fun e => getModelWarning w (snd e)) (allColumnFilters w)
       ++ ["AG Grid: filter missing setModel method, which is needed for setFilterModel"]
  /\ filterObjs after = filterObjs w
  /\ events after = events w.
Proof.
  intros Hm Hp Hr Hs after.
  assert (visited w (allColumnFilters w) = allColumnFilters w) as Hv.
  { clear - Hp. induction (allColumnFilters w) as [|e l IH]; simpl in *; [reflexivity|].
    apply andb_true_iff in Hp as [-> Hp]. now rewrite IH. }
  set (w0 := warned (flat_map (fun e => getModelWarning w (snd e)) (allColumnFilters w)) w).
  assert (resolvedFilter w0 wrapper = Some f) as Hr0 by exact Hr.
  assert (IFilter.setModel (filterObjs w0 f) = None) as Hs0 by exact Hs.
  assert (exists w1,
            setFilterModel grid model w
            = (w1, Throw "TypeError: filter.setModel is not a function")
            /\ console w1
               = console w0
                 ++ ["AG Grid: filter missing setModel method, which is needed for setFilterModel"]
            /\ events w1 = events w0 /\ filterObjs w1 = filterObjs w0)
    as [w1 [E [Hc [He Hf]]]].
  { unfold setFilterModel. unfold bind at 1. rewrite getFilterModel_reading, Hp, Hv.
    fold w0. unfold bind at 1, gets.
    assert (allColumnFilters w0 = (key, wrapper) :: rest) as -> by exact Hm.
    destruct model as [model|].
    - destruct (setModelOnFilterWrapper_missing wrapper f (getProperty model key) w0 Hr0 Hs0)
        as [w1 [E [Hc [_ [He [Hf _]]]]]].
      exists w1. simpl. unfold bind, setFilterModel_existing. rewrite E. auto.
    - destruct (setModelOnFilterWrapper_missing wrapper f VNull w0 Hr0 Hs0)
        as [w1 [E [Hc [_ [He [Hf _]]]]]].
      exists w1. simpl. unfold bind. rewrite E. auto. }
  unfold after. rewrite E. simpl. rewrite Hc, He, Hf. unfold w0. simpl.
  rewrite <- app_assoc. auto.
Qed.

End MissingSetModel.

(** ** Keys of the model that cannot be applied *)

Section SkippedKeys.

Variable grid : Grid.

(** X6. For a key of the model that names no column, or a column that does
    not allow filtering, the second loop of [setFilterModel] logs one
    warning, pushes no promise, changes nothing else and goes on with the
    next key. *)
Theorem setFilterModel_skips_key (model : list (string * value)) (key : string)
    (keys : list string) (pushed : list ref) (w : World) :
  match skipWarning grid w key with
  | Some warning =>
      setFilterModel_remaining grid model key w = (warned [warning] w, Normal None)
      /\ pushEach (key :: keys) (setFilterModel_remaining grid model) pushed w
         = pushEach keys (setFilterModel_remaining grid model) pushed (warned [warning] w)
  | None =>
      exists c, columnFor grid w key = Some c /\ filterAllowed (columnObjs w c) = true
  end.
Proof.
  unfold skipWarning.
  assert (forall warning,
    setFilterModel_remaining grid model key w = (warned [warning] w, Normal None) ->
    pushEach (key :: keys) (setFilterModel_remaining grid model) pushed w
    = pushEach keys (setFilterModel_remaining grid model) pushed (warned [warning] w))
    as Loop.
  { intros warning E. simpl. unfold bind at 1. now rewrite E. }
  destruct (columnFor grid w key) as [c|] eqn:Ec.
  - destruct (filterAllowed (columnObjs w c)) eqn:Ha; [now exists c|].
    assert (setFilterModel_remaining grid model key w
            = (warned ["AG Grid: setFilterModel() - unable to fully apply model, filtering disabled for colId: "
                       ++ key]%string w, Normal None)) as E.
    { unfold setFilterModel_remaining, getPrimaryOrGridColumn, bind, gets.
      unfold columnFor in Ec. rewrite Ec, Ha. reflexivity. }
    split; [exact E | now apply Loop].
  - assert (setFilterModel_remaining grid model key w
            = (warned ["AG Grid: setFilterModel() - no column found for colId: " ++ key]%string
                 w, Normal None)) as E.
    { unfold setFilterModel_remaining, getPrimaryOrGridColumn, bind, gets.
      unfold columnFor in Ec. rewrite Ec. reflexivity. }
    split; [exact E | now apply Loop].
Qed.

End SkippedKeys.

(** ** The join of the apply promises *)

Section Join.

Lemma onlyPromises_refl (w : World) : onlyPromises w w.
Proof. unfold onlyPromises. now destruct w. Qed.

Lemma onlyPromises_trans (a b c : World) :
  onlyPromises a b -> onlyPromises b c -> onlyPromises a c.
Proof.
  unfold onlyPromises. intros Hab Hbc. rewrite Hbc at 1. rewrite Hab at 1.
  now destruct a.
Qed.

Lemma pendingApplies_same (w w' : World) (l : list ref) :
  (forall a, applyResolved (applyPromises w' a) = applyResolved (applyPromises w a)) ->
  pendingApplies w' l = pendingApplies w l.
Proof.
  intros H. unfold pendingApplies. apply filter_ext. intros a. now rewrite H.
Qed.

Lemma pendingApplies_length (w : World) (l : list ref) :
  (List.length (pendingApplies w l) <= List.length l)%nat.
Proof. apply filter_length_le. Qed.

Variable grid : Grid.

Lemma all_loop (allPromise : ref) (l : list ref) :
  forall (w : World) (r : Z),
  allPromises w allPromise = mkAllPromise r false [] ->
  (Z.of_nat (List.length l) <= r)%Z ->
  exists w1,
    forEach l (fun apply =>
      p <- gets (fun w => applyPromises w apply) ;;
      if applyResolved p then all_callback grid allPromise
      else
        modify (fun w =>
          set_applyPromises
            (upd (applyPromises w) apply
               (mkApplyPromise false (applyWaiters p ++ [allPromise]))) w))%js w
    = (w1, Normal tt)
    /\ allPromises w1 allPromise
       = mkAllPromise
           (r - Z.of_nat (List.length l) + Z.of_nat (List.length (pendingApplies w l)))
           (negb (isNil l)
            && Z.eqb (r - Z.of_nat (List.length l)
                      + Z.of_nat (List.length (pendingApplies w l))) 0)
           []
    /\ (forall a, applyResolved (applyPromises w1 a) = applyResolved (applyPromises w a))
    /\ (forall a, incl (applyWaiters (applyPromises w a)) (applyWaiters (applyPromises w1 a)))
    /\ (forall a, In a (pendingApplies w l) -> In allPromise (applyWaiters (applyPromises w1 a)))
    /\ (forall other, other <> allPromise -> allPromises w1 other = allPromises w other)
    /\ nextRef w1 = nextRef w
    /\ onlyPromises w w1.
Proof.
  induction l as [|x rest IH]; intros w r Hrec Hlen.
  - exists w. simpl. repeat split; try easy.
    + rewrite Hrec. f_equal. lia.
    + apply onlyPromises_refl.
  - simpl forEach. unfold bind at 1. unfold bind at 1, gets at 1.
    cbn [List.length] in Hlen.
    destruct (applyResolved (applyPromises w x)) eqn:Hx.
    + (* resolved: the count goes down *)
      unfold all_callback at 1. unfold bind at 1, gets at 1. rewrite Hrec.
      unfold bind at 1, modify at 1. cbn [remainingToResolve allResolved allWaiters].
      destruct (Z.eqb (r - 1) 0) eqn:Hz.
      * apply Z.eqb_eq in Hz.
        assert (rest = []) as ->.
        { destruct rest; [reflexivity|]. simpl List.length in Hlen. lia. }
        unfold resolveAll, bind, gets, modify. cbn -[upd Z.sub Z.add Z.of_nat].
        rewrite upd_same. cbn -[upd Z.sub Z.add Z.of_nat].
        eexists. split; [reflexivity|]. cbn -[upd Z.sub Z.add Z.of_nat].
        unfold pendingApplies. cbn -[upd Z.sub Z.add Z.of_nat]. rewrite Hx. cbn -[upd Z.sub Z.add Z.of_nat].
        repeat apply conj.
        -- rewrite upd_same.
           replace (r - Z.of_nat 1 + Z.of_nat 0)%Z with 0%Z by lia.
           now rewrite Hz.
        -- reflexivity.
        -- intros a. apply incl_refl.
        -- intros a [].
        -- intros other Ho. now rewrite !upd_other by congruence.
        -- reflexivity.
        -- unfold onlyPromises. now destruct w.
      * apply Z.eqb_neq in Hz. unfold ret at 1.
        match goal with |- context [forEach rest ?b ?w'] =>
          destruct (IH w' (r - 1)%Z) as (w1 & E & Hp & Hf & Hi & Hn & Ho & Hr & Hfr)
        end.
        { cbn -[upd Z.sub Z.add Z.of_nat]. now rewrite upd_same. }
        { simpl List.length in Hlen. lia. }
        exists w1. split; [exact E|].
        assert (pendingApplies w (x :: rest) = pendingApplies w rest) as Epend.
        { unfold pendingApplies. cbn -[upd Z.sub Z.add Z.of_nat]. now rewrite Hx. }
        rewrite Epend.
        match type of Hp with context [pendingApplies ?w' rest] =>
          replace (pendingApplies w' rest) with (pendingApplies w rest) in *
            by (symmetry; apply pendingApplies_same; intros a; reflexivity)
        end.
        repeat apply conj.
        -- rewrite Hp. simpl List.length.
           replace (r - 1 - Z.of_nat (List.length rest))%Z
             with (r - Z.of_nat (S (List.length rest)))%Z by lia.
           f_equal. destruct rest; [|reflexivity]. cbn -[upd Z.sub Z.add Z.of_nat].
           cbn [List.length] in Hlen. symmetry. apply Z.eqb_neq. lia.
        -- exact Hf.
        -- exact Hi.
        -- exact Hn.
        -- intros other Hne. rewrite Ho by exact Hne. cbn -[upd Z.sub Z.add Z.of_nat]. now rewrite upd_other by congruence.
        -- exact Hr.
        -- eapply onlyPromises_trans; [|exact Hfr]. unfold onlyPromises. now destruct w.
    + (* pending: the join waits on it *)
      unfold modify at 1.
      match goal with |- context [forEach rest ?b ?w'] =>
        destruct (IH w' r) as (w1 & E & Hp & Hf & Hi & Hn & Ho & Hr & Hfr)
      end.
      { cbn -[upd Z.sub Z.add Z.of_nat]. exact Hrec. }
      { simpl List.length in Hlen. lia. }
      exists w1. split; [exact E|].
      assert (forall a,
        applyResolved
          (applyPromises
             (set_applyPromises
                (upd (applyPromises w) x
                   (mkApplyPromise false (applyWaiters (applyPromises w x) ++ [allPromise]))) w) a)
        = applyResolved (applyPromises w a)) as Hsame.
      { intros a. cbn -[upd Z.sub Z.add Z.of_nat]. destruct (Nat.eq_dec a x) as [->|Hne].
        - now rewrite upd_same.
        - now rewrite upd_other by congruence. }
      rewrite (pendingApplies_same _ _ rest Hsame) in Hp, Hn.
      assert (pendingApplies w (x :: rest) = x :: pendingApplies w rest) as Epend.
      { unfold pendingApplies. cbn -[upd Z.sub Z.add Z.of_nat]. now rewrite Hx. }
      rewrite Epend.
      pose proof (pendingApplies_length w rest) as Hle.
      repeat apply conj.
      -- rewrite Hp. simpl List.length. f_equal; [lia|].
         cbn [isNil negb andb].
         transitivity false.
         ++ apply andb_false_iff. right. apply Z.eqb_neq. lia.
         ++ symmetry. apply Z.eqb_neq. lia.
      -- intros a. now rewrite Hf.
      -- intros a. eapply incl_tran; [|apply Hi]. cbn -[upd Z.sub Z.add Z.of_nat].
         destruct (Nat.eq_dec a x) as [->|Hne].
         ++ rewrite upd_same. cbn -[upd Z.sub Z.add Z.of_nat]. apply incl_appl, incl_refl.
         ++ rewrite upd_other by congruence. apply incl_refl.
      -- intros a [<-|Ha]; [|now apply Hn].
         apply (Hi x). cbn -[upd Z.sub Z.add Z.of_nat]. rewrite upd_same. cbn -[upd Z.sub Z.add Z.of_nat]. apply in_or_app. right. now left.
      -- intros other Hne. now rewrite Ho.
      -- exact Hr.
      -- eapply onlyPromises_trans; [|exact Hfr]. unfold onlyPromises. now destruct w.
Qed.

(** [AgPromise.all(promises)] returns a fresh promise that counts the
    promises still pending: it is resolved at once exactly when the list is
    not empty and every promise of it is resolved; for the empty list it is
    left unresolved with nothing to count down.  Each pending promise gets
    the join as a waiter, no promise changes its resolution, and only the
    promise stores and the allocation counter change. *)
Theorem AgPromise_all_join (promises : list ref) (w : World) :
  exists w1,
    AgPromise_all grid promises w = (w1, Normal (nextRef w))
    /\ allPromises w1 (nextRef w)
       = mkAllPromise (Z.of_nat (List.length (pendingApplies w promises)))
           (negb (isNil promises) && isNil (pendingApplies w promises)) []
    /\ (forall a, applyResolved (applyPromises w1 a) = applyResolved (applyPromises w a))
    /\ (forall a, In a (pendingApplies w promises) ->
                  In (nextRef w) (applyWaiters (applyPromises w1 a)))
    /\ (forall other, other <> nextRef w -> allPromises w1 other = allPromises w other)
    /\ nextRef w1 = S (nextRef w)
    /\ onlyPromises w w1.
Proof.
  unfold AgPromise_all. unfold bind at 1, alloc at 1. unfold bind at 1, modify at 1.
  unfold bind at 1.
  match goal with |- context [forEach promises ?b ?w'] =>
    destruct (all_loop (nextRef w) promises w' (Z.of_nat (List.length promises)))
      as (w1 & E & Hp & Hf & Hi & Hn & Ho & Hr & Hfr)
  end.
  { cbn -[upd Z.of_nat]. now rewrite upd_same. }
  { lia. }
  rewrite E. exists w1. split; [reflexivity|].
  match type of Hp with context [pendingApplies ?w' promises] =>
    replace (pendingApplies w' promises) with (pendingApplies w promises) in *
      by (symmetry; apply pendingApplies_same; intros a; reflexivity)
  end.
  repeat apply conj.
  - rewrite Hp. f_equal; [lia|]. f_equal.
    replace (Z.of_nat (List.length promises) - Z.of_nat (List.length promises)
             + Z.of_nat (List.length (pendingApplies w promises)))%Z
      with (Z.of_nat (List.length (pendingApplies w promises))) by lia.
    now destruct (pendingApplies w promises).
  - exact Hf.
  - exact Hn.
  - intros other Hne. rewrite Ho by exact Hne. cbn -[upd]. now rewrite upd_other by congruence.
  - exact Hr.
  - eapply onlyPromises_trans; [|exact Hfr]. unfold onlyPromises. now destruct w.
Qed.

End Join.

(** ** The filter-changed protocol *)

Section Protocol.

Variable grid : Grid.

(** X8. [onFilterChanged] dispatches exactly one filter-changed event, as
    its last event and with the columns it was given, when it completes,
    and none when it throws.  When it completes the processing flag is down
    again and the external-filter flag holds the answer of the grid's
    callback ([false] without one).  The quick filter is never touched. *)
Theorem onFilterChanged_protocol (filterInstance : option ref) (attrs : option value)
    (columns : option (list ref)) (w : World) :
  let out := onFilterChanged grid filterInstance attrs columns w in
  let event := EVENT_FILTER_CHANGED (match columns with Some cs => cs | None => [] end) attrs in
  (exists delta,
     Forall (fun e => isFilterChanged e = false) delta
     /\ events (fst out)
        = events w ++ delta ++ match snd out with Normal _ => [event] | Throw _ => [] end)
  /\ (forall u, snd out = Normal u ->
        processingFilterChange (fst out) = false
        /\ externalFilterPresent (fst out)
           = match isExternalFilterPresent_callback grid with Some b => b | None => false end)
  /\ quickFilter (fst out) = quickFilter w
  /\ quickFilterParts (fst out) = quickFilterParts w.
Proof.
  intros out event. split; [|split; [|split]].
  - apply (onFilterChanged_emitsOnce grid filterInstance attrs columns w).
  - intros u Hu.
    assert (out = (fst out, Normal u)) as Hout by (now apply pair_of_snd).
    subst out. revert Hout. generalize (fst (onFilterChanged grid filterInstance attrs columns w)).
    intros w2 Hout. unfold onFilterChanged in Hout.
    apply bind_Normal in Hout as (w1 & a1 & _ & Hout).
    apply bind_Normal in Hout as (w1' & a2 & _ & Hout).
    apply bind_Normal in Hout as (w1'' & a3 & _ & Hout).
    apply bind_Normal in Hout as (w3 & present & Hp & Hout).
    apply bind_Normal in Hout as (w4 & a4 & Hm & Hout).
    apply bind_Normal in Hout as (w5 & entries & He & Hout).
    apply bind_Normal in Hout as (w6 & a5 & Hloop & Hout).
    unfold bind, modify, dispatchEvent in Hout. injection Hout as <- _.
    split; [reflexivity|]. cbn.
    unfold gets in He. injection He as <- <-.
    unfold modify in Hm. injection Hm as <- _.
    match type of Hloop with forEach ?l ?b ?w' = _ =>
      assert (keeps externalFilterPresent (forEach l b)) as K by keeps_all;
      specialize (K w'); rewrite Hloop in K; simpl in K; rewrite K
    end.
    unfold isExternalFilterPresentCallback in Hp.
    destruct (isExternalFilterPresent_callback grid); unfold ret in Hp; now injection Hp as _ <-.
  - apply onFilterChanged_keeps_quickFilter.
  - apply onFilterChanged_keeps_quickFilterParts.
Qed.

End Protocol.

(** ** The filter-active flag of the columns *)

Section ColumnFlags.

Variable grid : Grid.

Lemma updateFilterFlagInColumns_entry_reading (entry : string * ref) (w : World) :
  hasPromise w (snd entry) = true ->
  updateFilterFlagInColumns_entry entry w
  = if answersIsFilterActive w (snd entry)
    then (fst (setFilterActive (column (wrapperObjs w (snd entry)))
                 (isActive w (snd entry)) w), Normal tt)
    else (w, Throw TypeError_not_a_function).
Proof.
  unfold hasPromise, updateFilterFlagInColumns_entry, filterPromise_resolveNow, filterPromiseOf,
    answersIsFilterActive, isActive, activeFilter, resolvedFilter, bind, gets.
  destruct (filterPromise (wrapperObjs w (snd entry))) as [p|]; [intros _|discriminate].
  unfold ret. destruct (resolution p) as [f|]; [|reflexivity].
  destruct (IFilter.isFilterActive (filterObjs w f)) as [test|]; [|reflexivity].
  unfold setFilterActive, modify. cbn.
  now destruct (test (IFilter.filterState (filterObjs w f))).
Qed.

Lemma updateFilterFlagInColumns_loop (w : World) (entries : list (string * ref)) :
  forall w',
  wrapperObjs w' = wrapperObjs w -> filterObjs w' = filterObjs w ->
  forallb (fun e => hasPromise w (snd e)) entries = true ->
  exists w1,
    forEach entries updateFilterFlagInColumns_entry w'
    = (w1, if forallb (fun e => answersIsFilterActive w (snd e)) entries
           then Normal tt else Throw TypeError_not_a_function)
    /\ w1 = set_columnObjs (columnObjs w1) w'
    /\ (forall c, columnShape (columnObjs w1 c) = columnShape (columnObjs w' c))
    /\ (forall c, (forall e, In e entries -> column (wrapperObjs w (snd e)) <> c) ->
                  columnObjs w1 c = columnObjs w' c)
    /\ (forallb (fun e => answersIsFilterActive w (snd e)) entries = true ->
        forall pre e post, entries = pre ++ e :: post ->
          (forall e', In e' post ->
             column (wrapperObjs w (snd e')) <> column (wrapperObjs w (snd e))) ->
          filterActive (columnObjs w1 (column (wrapperObjs w (snd e)))) = isActive w (snd e)).
Proof.
  induction entries as [|x rest IH]; intros w' Hw Hf Hp.
  - exists w'. simpl. repeat apply conj; try easy.
    + now destruct w'.
    + intros _ [|] ? ? ?; discriminate.
  - simpl in Hp. apply andb_true_iff in Hp as [Hx Hp].
    simpl forEach. unfold bind at 1.
    assert (hasPromise w' (snd x) = true) as Hx' by (unfold hasPromise in *; now rewrite Hw).
    rewrite (updateFilterFlagInColumns_entry_reading x w' Hx').
    assert (answersIsFilterActive w' (snd x) = answersIsFilterActive w (snd x)) as ->.
    { unfold answersIsFilterActive, resolvedFilter. now rewrite Hw, Hf. }
    assert (isActive w' (snd x) = isActive w (snd x)) as ->.
    { unfold isActive, activeFilter, resolvedFilter. now rewrite Hw, Hf. }
    rewrite Hw. simpl forallb.
    destruct (answersIsFilterActive w (snd x)) eqn:Ha.
    + unfold setFilterActive, modify. cbn -[upd].
      match goal with |- context [forEach rest _ ?w''] =>
        destruct (IH w'') as (w1 & E & Hfr & Hs & Hu & Hl); [exact Hw | exact Hf | exact Hp |]
      end.
      exists w1. split; [exact E|]. cbn -[upd] in *. repeat apply conj.
      * rewrite Hfr at 1. now destruct w'.
      * intros c. rewrite Hs. destruct (Nat.eq_dec c (column (wrapperObjs w (snd x)))) as [->|Hne].
        -- now rewrite upd_same.
        -- now rewrite upd_other by exact Hne.
      * intros c Hc. rewrite Hu by (intros e He; apply Hc; now right).
        rewrite upd_other; [reflexivity|]. intros ->. now apply (Hc x); [left|].
      * intros Hall [|y pre] e post Heq Hlater.
        -- injection Heq as <- <-. rewrite Hu by exact Hlater. now rewrite upd_same.
        -- injection Heq as <- ->. now apply (Hl Hall pre e post).
    + exists w'. split; [reflexivity|]. repeat apply conj; try easy. now destruct w'.
Qed.

(** X9. When every wrapper carries a promise, [updateFilterFlagInColumns]
    completes exactly when every resolved instance has [isFilterActive], and
    throws a TypeError otherwise (where [updateActiveFilters] only warns).
    It changes nothing but the filter-active flag of the wrappers' columns;
    when it completes, the column of a wrapper that shares it with no later
    wrapper is flagged exactly when the wrapper's instance is resolved and
    answers [isFilterActive()] with [true]. *)
Theorem updateFilterFlagInColumns_flags (w : World) :
  forallb (fun e => hasPromise w (snd e)) (allColumnFilters w) = true ->
  exists w1,
    updateFilterFlagInColumns w
    = (w1, if forallb (fun e => answersIsFilterActive w (snd e)) (allColumnFilters w)
           then Normal tt else Throw TypeError_not_a_function)
    /\ w1 = set_columnObjs (columnObjs w1) w
    /\ (forall c, columnShape (columnObjs w1 c) = columnShape (columnObjs w c))
    /\ (forall c, (forall e, In e (allColumnFilters w) -> column (wrapperObjs w (snd e)) <> c) ->
                  columnObjs w1 c = columnObjs w c)
    /\ (forallb (fun e => answersIsFilterActive w (snd e)) (allColumnFilters w) = true ->
        forall pre e post, allColumnFilters w = pre ++ e :: post ->
          (forall e', In e' post ->
             column (wrapperObjs w (snd e')) <> column (wrapperObjs w (snd e))) ->
          filterActive (columnObjs w1 (column (wrapperObjs w (snd e)))) = isActive w (snd e)).
Proof.
  intros Hp. unfold updateFilterFlagInColumns, bind, gets.
  exact (updateFilterFlagInColumns_loop w (allColumnFilters w) w eq_refl eq_refl Hp).
Qed.

End ColumnFlags.

(** ** Exporting the model and importing it again *)

Lemma number_eqb_refl (x : float) : number_eqb x x = true.
Proof.
  unfold number_eqb. destruct (Prim2SF x) as [s | s | | s m e]; simpl;
    rewrite ?Bool.eqb_reflx, ?Pos.eqb_refl, ?Z.eqb_refl; reflexivity.
Qed.

Lemma value_eqb_refl : forall v, value_eqb v v = true.
Proof.
  fix IH 1. intros [| | b | n | s | items | fields]; simpl.
  - reflexivity.
  - reflexivity.
  - apply Bool.eqb_reflx.
  - apply number_eqb_refl.
  - apply String.eqb_refl.
  - induction items as [|x xs IHxs]; [reflexivity|]. now rewrite IH, IHxs.
  - induction fields as [|[k x] xs IHxs]; [reflexivity|].
    rewrite String.eqb_refl, IH, IHxs. reflexivity.
Qed.

Section RoundTrip.

Variable grid : Grid.

Lemma setModelOnFilterWrapper_sync (wrapper filter : ref) (v : value) (w : World)
    (setModel_ : value -> value -> value * SetModelReturn) :
  resolvedFilter w wrapper = Some filter ->
  IFilter.setModel (filterObjs w filter) = Some setModel_ ->
  snd (setModel_ v (IFilter.filterState (filterObjs w filter))) <> ReturnsPending ->
  exists w1,
    setModelOnFilterWrapper grid wrapper v w = (w1, Normal (nextRef w))
    /\ nextRef w1 = S (nextRef w)
    /\ (forall a, applyPromises w1 a
                  = upd (applyPromises w) (nextRef w) (mkApplyPromise true []) a)
    /\ filterObjs w1
       = upd (filterObjs w) filter
           (let fo := filterObjs w filter in
            mkFilter (fst (setModel_ v (IFilter.filterState fo)))
              (IFilter.isFilterActive fo) (IFilter.doesFilterPass fo) (IFilter.getModel fo)
              (IFilter.setModel fo) (IFilter.onAnyFilterChanged fo) (IFilter.onNewRowsLoaded fo)
              (IFilter.getGui fo))
    /\ w1 = set_applyPromises (applyPromises w1)
              (set_filterObjs (filterObjs w1) (set_nextRef (nextRef w1) w)).
Proof.
  intros Hr Hs Hp.
  unfold resolvedFilter in Hr.
  destruct (filterPromise (wrapperObjs w wrapper)) as [p|] eqn:Ep; [|discriminate].
  unfold setModelOnFilterWrapper, filterPromise_then, filterPromiseOf.
  repeat (progress (unfold bind, gets, modify, ret, alloc; cbn -[upd])).
  rewrite Ep, Hr.
  unfold setModelOnFilterWrapper_callback, callSetModel.
  repeat (progress (unfold bind, gets, modify, ret, alloc; cbn -[upd])).
  rewrite Hs. cbn -[upd]. rewrite Hs.
  destruct (setModel_ v (IFilter.filterState (filterObjs w filter))) as [s' r] eqn:Es.
  cbn -[upd] in Hp |- *.
  unfold modelPromise_then.
  destruct r; [| |now elim Hp];
    unfold resolveApply;
    repeat (progress (unfold bind, gets, modify, ret, alloc; cbn -[upd]));
    rewrite upd_same; cbn -[upd];
    (eexists; split; [reflexivity|]); cbn -[upd]; repeat apply conj; try reflexivity;
    intros a; unfold upd; now destruct (Nat.eqb a (nextRef w)).
Qed.

Lemma reported_methods (fo fo' : IFilterComp) (s : value) :
  methodsOf fo' = methodsOf fo -> reported fo' s = reported fo s.
Proof. unfold methodsOf, reported. intros [= _ _ -> _ _ _]. reflexivity. Qed.

Lemma roundTrips_methods (fo fo' : IFilterComp) :
  methodsOf fo' = methodsOf fo -> roundTrips fo -> roundTrips fo'.
Proof.
  intros Hm [sm [Hs Hr]]. exists sm. split.
  - unfold methodsOf in Hm. injection Hm as _ _ _ -> _ _. exact Hs.
  - intros s. rewrite !(reported_methods fo fo') by exact Hm. apply Hr.
Qed.

Lemma exportedModel_reportedBy (w : World) (wrapper filter : ref) :
  resolvedFilter w wrapper = Some filter ->
  exportedModel w wrapper = reportedBy w filter.
Proof. unfold exportedModel. now intros ->. Qed.


Lemma onlyFilterStates_refl (w : World) : onlyFilterStates w w.
Proof. split; [now destruct w | reflexivity]. Qed.

Lemma onlyFilterStates_trans (a b c : World) :
  onlyFilterStates a b -> onlyFilterStates b c -> onlyFilterStates a c.
Proof.
  intros [Hab Mab] [Hbc Mbc]. split.
  - rewrite Hbc at 1. rewrite Hab at 1. now destruct a.
  - intros f. now rewrite Mbc, Mab.
Qed.

Lemma onlyFilterStates_wrapperObjs (a b : World) :
  onlyFilterStates a b -> wrapperObjs b = wrapperObjs a.
Proof. intros [H _]. now rewrite H. Qed.

Lemma onlyFilterStates_resolvedFilter (a b : World) (wrapper : ref) :
  onlyFilterStates a b -> resolvedFilter b wrapper = resolvedFilter a wrapper.
Proof. intros H. unfold resolvedFilter. now rewrite (onlyFilterStates_wrapperObjs a b H). Qed.

(** One round-trip step: the wrapper's instance takes back its reported model. *)
Lemma setModelOnFilterWrapper_round_trip (wrapper filter : ref) (w : World) :
  resolvedFilter w wrapper = Some filter ->
  roundTrips (filterObjs w filter) ->
  exists w1,
    setModelOnFilterWrapper grid wrapper (exportedValue (reportedBy w filter)) w
    = (w1, Normal (nextRef w))
    /\ nextRef w1 = S (nextRef w)
    /\ (forall a, applyPromises w1 a
                  = upd (applyPromises w) (nextRef w) (mkApplyPromise true []) a)
    /\ onlyFilterStates w w1
    /\ (forall f, reportedBy w1 f = reportedBy w f).
Proof.
  intros Hr [sm [Hs Hround]].
  destruct (Hround (IFilter.filterState (filterObjs w filter))) as [Hp Hsame].
  destruct (setModelOnFilterWrapper_sync wrapper filter _ w sm Hr Hs Hp)
    as (w1 & E & Hn & Ha & Hf & Hfr).
  exists w1. split; [exact E|]. split; [exact Hn|]. split; [exact Ha|].
  assert (forall f, methodsOf (filterObjs w1 f) = methodsOf (filterObjs w f)) as Hm.
  { intros f. rewrite Hf. destruct (Nat.eq_dec f filter) as [->|Hne].
    - now rewrite upd_same.
    - now rewrite upd_other by exact Hne. }
  split; [split|].
  - assert (allPromises w1 = allPromises w) as H1 by (now rewrite Hfr).
    assert (console w1 = console w) as H2 by (now rewrite Hfr).
    rewrite H1, H2. rewrite Hfr at 1. now destruct w.
  - exact Hm.
  - intros f. unfold reportedBy. rewrite (reported_methods _ _ _ (Hm f)).
    rewrite Hf. destruct (Nat.eq_dec f filter) as [->|Hne].
    + rewrite upd_same. cbn. exact Hsame.
    + now rewrite upd_other by exact Hne.
Qed.

Lemma setFilterModel_existing_loop (model : list (string * value))
    (entries : list (string * ref)) :
  forall (acc : list ref) (w : World),
  (forall e, In e entries ->
     exists f, resolvedFilter w (snd e) = Some f
               /\ roundTrips (filterObjs w f)
               /\ getProperty model (fst e) = exportedValue (reportedBy w f)) ->
  exists w1 ps,
    pushEach entries
      (fun entry => p <- setFilterModel_existing grid model entry ;; ret (Some p)) acc w
    = (w1, Normal (acc ++ ps))
    /\ (forall a, In a ps -> applyResolved (applyPromises w1 a) = true)
    /\ (forall a, a < nextRef w -> applyPromises w1 a = applyPromises w a)
    /\ nextRef w <= nextRef w1
    /\ isNil ps = isNil entries
    /\ onlyFilterStates w w1
    /\ (forall f, reportedBy w1 f = reportedBy w f).
Proof.
  induction entries as [|[k wr] rest IH]; intros acc w Hready.
  - exists w, []. simpl. rewrite app_nil_r. repeat match goal with |- _ /\ _ => split end; try easy.
    apply onlyFilterStates_refl.
  - destruct (Hready (k, wr) (or_introl eq_refl)) as (f & Hr & Hrt & Hg). simpl in Hr, Hg.
    destruct (setModelOnFilterWrapper_round_trip wr f w Hr Hrt)
      as (w' & E & Hn & Ha & Hfr & Hrep).
    cbn [pushEach]. unfold bind at 1. unfold bind at 1. unfold setFilterModel_existing at 1.
    rewrite Hg, E. unfold ret at 1.
    destruct (IH (acc ++ [nextRef w]) w') as (w1 & ps & E1 & Hres & Hold & Hle & Hnil & Hfr1 & Hrep1).
    { intros e He. destruct (Hready e (or_intror He)) as (f' & Hr' & Hrt' & Hg').
      exists f'. split; [|split].
      - now rewrite (onlyFilterStates_resolvedFilter w w').
      - apply (roundTrips_methods (filterObjs w f')); [apply Hfr | exact Hrt'].
      - now rewrite Hrep. }
    exists w1, (nextRef w :: ps). rewrite E1, <- app_assoc. split; [reflexivity|].
    repeat match goal with |- _ /\ _ => split end.
    + intros a [<-|Hin]; [|now apply Hres].
      rewrite Hold by lia. rewrite Ha, upd_same. reflexivity.
    + intros a Hlt. rewrite Hold by lia. rewrite Ha, upd_other by lia. reflexivity.
    + lia.
    + reflexivity.
    + now apply (onlyFilterStates_trans w w' w1).
    + intros f'. now rewrite Hrep1, Hrep.
Qed.

Lemma set_delete_In (s : list string) (key x : string) :
  In x (set_delete s key) -> In x s /\ x <> key.
Proof.
  induction s as [|k s IH]; simpl; [easy|].
  destruct (String.eqb k key) eqn:E.
  - intros H. destruct (IH H). split; [now right | assumption].
  - intros [<-|H].
    + split; [now left|]. now apply String.eqb_neq.
    + destruct (IH H). split; [now right | assumption].
Qed.

Lemma fold_set_delete_In (keys s : list string) (x : string) :
  In x (fold_left set_delete keys s) -> In x s /\ ~ In x keys.
Proof.
  revert s. induction keys as [|k keys IH]; intros s; simpl; [easy|].
  intros H. destruct (IH _ H) as [H1 H2]. apply set_delete_In in H1 as [H1 Hne].
  split; [exact H1|]. intros [->|Hin]; [now apply Hne | now apply H2].
Qed.

Lemma setProperty_keys (fields : list (string * value)) (key : string) (v : value) (x : string) :
  In x (map fst (setProperty fields key v)) -> x = key \/ In x (map fst fields).
Proof.
  induction fields as [|[k y] fields IH]; simpl.
  - intros [<-|[]]. now left.
  - destruct (String.eqb k key); simpl.
    + intros [<-|H]; right; [now left | now right].
    + intros [<-|H]; [right; now left|]. destruct (IH H); [now left | right; now right].
Qed.

Lemma exportEntries_keys (w : World) (entries : list (string * ref))
    (result : list (string * value)) (x : string) :
  In x (map fst (exportEntries w entries result)) ->
  In x (map fst entries) \/ In x (map fst result).
Proof.
  revert result. induction entries as [|[k wr] entries IH]; intros result; simpl.
  - now right.
  - intros H. destruct (IH _ H) as [Hin|Hin]; [left; now right|].
    destruct (exportedModel w wr); [|now right].
    apply setProperty_keys in Hin as [->|Hin]; [left; now left | now right].
Qed.

Lemma exported_keys_have_wrappers (w : World) (entries : list (string * ref)) :
  fold_left set_delete (map fst entries) (Object_keys (exportEntries w entries [])) = [].
Proof.
  destruct (fold_left set_delete _ _) as [|x rest] eqn:E; [reflexivity|].
  assert (In x (fold_left set_delete (map fst entries)
                  (Object_keys (exportEntries w entries [])))) as Hin
    by (rewrite E; now left).
  apply fold_set_delete_In in Hin as [Hin Hn]. unfold Object_keys in Hin.
  apply nodup_In in Hin. apply exportEntries_keys in Hin as [Hin|[]]. now elim Hn.
Qed.

Lemma exportEntries_same (w w' : World) (entries : list (string * ref))
    (result : list (string * value)) :
  (forall e, In e entries -> exportedModel w' (snd e) = exportedModel w (snd e)) ->
  exportEntries w' entries result = exportEntries w entries result.
Proof.
  revert result. induction entries as [|e entries IH]; intros result H; simpl; [reflexivity|].
  rewrite (H e (or_introl eq_refl)). apply IH. intros e' He'. apply H. now right.
Qed.

Lemma changedColumns_same (model : list (string * value)) (w : World) :
  changedColumns model model w = [].
Proof.
  unfold changedColumns.
  replace (List.filter _ (allColumnFilters w)) with (@nil (string * ref)); [reflexivity|].
  symmetry. induction (allColumnFilters w) as [|e l IH]; simpl; [reflexivity|].
  unfold jsonEquals. now rewrite value_eqb_refl.
Qed.

Lemma onlyFilterStates_warned (lines : list string) (w : World) :
  onlyFilterStates w (warned lines w).
Proof. split; [now destruct w | reflexivity]. Qed.

Lemma getFilterModel_frame (w : World) :
  onlyFilterStates w (fst (getFilterModel w))
  /\ forall f, reportedBy (fst (getFilterModel w)) f = reportedBy w f.
Proof.
  rewrite getFilterModel_reading. split; [apply onlyFilterStates_warned | reflexivity].
Qed.

Lemma getFilterModel_same (w w' : World) :
  onlyFilterStates w w' -> (forall f, reportedBy w' f = reportedBy w f) ->
  snd (getFilterModel w') = snd (getFilterModel w).
Proof.
  intros Hfr Hrep. rewrite !getFilterModel_reading. simpl.
  assert (allColumnFilters w' = allColumnFilters w) as -> by (destruct Hfr as [-> _]; reflexivity).
  pose proof (onlyFilterStates_wrapperObjs w w' Hfr) as Hw.
  assert (forallb (fun e => hasPromise w' (snd e)) (allColumnFilters w)
          = forallb (fun e => hasPromise w (snd e)) (allColumnFilters w)) as ->.
  { unfold hasPromise. now rewrite Hw. }
  rewrite (exportEntries_same w w'); [reflexivity|].
  intros e _. unfold exportedModel, resolvedFilter. rewrite Hw.
  destruct (filterPromise (wrapperObjs w (snd e))) as [p|]; [|reflexivity].
  destruct (resolution p) as [f|]; [|reflexivity]. apply Hrep.
Qed.

Lemma setFilterModel_done_unchanged (model : list (string * value)) (w : World) :
  snd (getFilterModel w) = Normal model ->
  setFilterModel_done grid model w = (fst (getFilterModel w), Normal tt).
Proof.
  intros H. unfold setFilterModel_done. unfold bind at 1.
  destruct (getFilterModel w) as [w1 [m|e]]; simpl in H; [|discriminate].
  injection H as ->. unfold bind, gets. now rewrite changedColumns_same.
Qed.

Lemma pendingApplies_resolved (w : World) (promises : list ref) :
  (forall a, In a promises -> applyResolved (applyPromises w a) = true) ->
  pendingApplies w promises = [].
Proof.
  intros H. unfold pendingApplies. induction promises as [|a l IH]; simpl; [reflexivity|].
  rewrite (H a (or_introl eq_refl)). simpl. apply IH. intros b Hb. apply H. now right.
Qed.

Lemma onlyPromises_onlyFilterStates (a b : World) :
  onlyPromises a b -> onlyFilterStates a b /\ forall f, reportedBy b f = reportedBy a f.
Proof.
  unfold onlyPromises. intros H.
  assert (filterObjs b = filterObjs a) as Hf by (now rewrite H).
  assert (console b = console a) as Hc by (now rewrite H).
  split; [split|].
  - rewrite Hf, Hc. rewrite H at 1. now destruct a.
  - intros f. now rewrite Hf.
  - intros f. unfold reportedBy. now rewrite Hf.
Qed.

(** X10. [setFilterModel(getFilterModel())] changes nothing that can be
    observed: when every wrapper of the map (one per key) has a resolved
    instance that takes back the model it reports, the call completes,
    dispatches no event, leaves wrappers, columns and active sets alone, and
    the exported model afterwards is the same.  With no wrapper at all the
    join of no promise never resolves and the final comparison never
    runs. *)
Theorem setFilterModel_round_trip (w wa : World) (model : list (string * value)) :
  getFilterModel w = (wa, Normal model) ->
  NoDup (map fst (allColumnFilters w)) ->
  (forall e, In e (allColumnFilters w) ->
     exists f, resolvedFilter w (snd e) = Some f /\ roundTrips (filterObjs w f)) ->
  exists wb,
    setFilterModel grid (Some model) wa = (wb, Normal tt)
    /\ events wb = events w
    /\ onlyFilterStates w wb
    /\ (forall f, reportedBy wb f = reportedBy w f)
    /\ snd (getFilterModel wb) = Normal model.
Proof.
  intros Hm Hnd Hready.
  assert (forall wb, onlyFilterStates w wb -> (forall f, reportedBy wb f = reportedBy w f) ->
            events wb = events w /\ onlyFilterStates w wb
            /\ (forall f, reportedBy wb f = reportedBy w f)
            /\ snd (getFilterModel wb) = Normal model) as Finish.
  { intros wb Hfr Hrep. split; [|split; [exact Hfr|split; [exact Hrep|]]].
    - destruct Hfr as [-> _]. reflexivity.
    - rewrite (getFilterModel_same w wb Hfr Hrep). now rewrite Hm. }
  destruct (getFilterModel_frame w) as [Hfa Hra]. rewrite Hm in Hfa, Hra. simpl in Hfa, Hra.
  assert (snd (getFilterModel wa) = Normal model) as Hma.
  { rewrite (getFilterModel_same w wa Hfa Hra). now rewrite Hm. }
  destruct (getFilterModel_frame wa) as [Hf0 Hr0].
  unfold setFilterModel. unfold bind at 1.
  rewrite (pair_of_snd _ _ Hma). set (w0 := fst (getFilterModel wa)) in *.
  assert (onlyFilterStates w w0) as Hfw0 by (now apply (onlyFilterStates_trans w wa w0)).
  assert (forall f, reportedBy w0 f = reportedBy w f) as Hrw0
    by (intros f; now rewrite Hr0, Hra).
  assert (allColumnFilters w0 = allColumnFilters w) as Hentries
    by (destruct Hfw0 as [-> _]; reflexivity).
  unfold bind at 1, gets at 1. rewrite Hentries.
  assert (model = exportEntries w (allColumnFilters w) []) as Hmodel.
  { rewrite getFilterModel_reading in Hm.
    destruct (forallb _ _); [|discriminate]. now injection Hm as _ <-. }
  destruct (setFilterModel_existing_loop model (allColumnFilters w) [] w0)
    as (w1 & ps & E1 & Hres & Hold & Hle & Hnil & Hfr1 & Hrep1).
  { intros [k wr] He. destruct (Hready _ He) as (f & Hr & Hrt). simpl in Hr.
    exists f. split; [|split].
    - simpl. now rewrite (onlyFilterStates_resolvedFilter w w0).
    - apply (roundTrips_methods (filterObjs w f)); [apply Hfw0 | exact Hrt].
    - simpl. rewrite Hrw0, Hmodel, (exportEntries_lookup w _ [] k wr Hnd He).
      rewrite (exportedModel_reportedBy w wr f Hr). now destruct (reportedBy w f). }
  unfold bind at 1. unfold bind at 1. rewrite E1. simpl app.
  replace (fold_left set_delete (map fst (allColumnFilters w)) (Object_keys model))
    with (@nil string)
    by (rewrite Hmodel; symmetry; apply exported_keys_have_wrappers). cbn [pushEach]. unfold ret at 1.
  destruct (AgPromise_all_join grid ps w1) as (w2 & E2 & Hall & Hflags & _ & _ & Hn2 & Hfr2).
  unfold bind at 1. rewrite E2.
  rewrite (pendingApplies_resolved w1 ps Hres) in Hall. simpl in Hall.
  apply onlyPromises_onlyFilterStates in Hfr2 as [Hfr2 Hrep2].
  assert (onlyFilterStates w w2) as Hfw2.
  { apply (onlyFilterStates_trans w w0 w2); [exact Hfw0|].
    now apply (onlyFilterStates_trans w0 w1 w2). }
  assert (forall f, reportedBy w2 f = reportedBy w f) as Hrw2
    by (intros f; now rewrite Hrep2, Hrep1, Hrw0).
  unfold allPromise_then. unfold bind at 1, gets at 1. rewrite Hall.
  cbn [allResolved remainingToResolve allWaiters]. rewrite andb_true_r.
  destruct (isNil ps) eqn:Hps; cbn [negb].
  - (* no wrapper: the join of no promise never resolves *)
    unfold modify. eexists. split; [reflexivity|]. apply Finish.
    + apply (onlyFilterStates_trans w w2); [exact Hfw2|]. split; [|reflexivity].
      now destruct w2.
    + exact Hrw2.
  - assert (snd (getFilterModel w2) = Normal model) as Hm2.
    { rewrite (getFilterModel_same w w2 Hfw2 Hrw2). now rewrite Hm. }
    rewrite (setFilterModel_done_unchanged model w2 Hm2).
    destruct (getFilterModel_frame w2) as [Hf3 Hr3].
    eexists. split; [reflexivity|]. apply Finish.
    + now apply (onlyFilterStates_trans w w2).
    + intros f. now rewrite Hr3, Hrw2.
Qed.
End RoundTrip.

(** ** Destroying a filter *)

Section Destroying.

Variable grid : Grid.

(** X11. [destroyFilter] on a column without a wrapper only drops the
    column's listener.  With a wrapper whose instance is resolved and takes
    [setModel(null)] at once, it dispatches [filter-destroyed] for the
    wrapper's column first and, when it completes, one filter-changed event
    for the column last; the instance is destroyed. *)
Theorem destroyFilter_protocol (col : ref) (source : DestroySource) (w : World) :
  let key := colId (columnObjs w col) in
  let out := destroyFilter grid col source w in
  match map_get (allColumnFilters w) key with
  | None =>
      out = (set_allColumnListeners (set_delete (allColumnListeners w) key) w, Normal tt)
  | Some wrapper =>
      forall f setModel_,
        resolvedFilter w wrapper = Some f ->
        IFilter.setModel (filterObjs w f) = Some setModel_ ->
        snd (setModel_ VNull (IFilter.filterState (filterObjs w f))) <> ReturnsPending ->
        destroyedBeans (fst out) = destroyedBeans w ++ [f]
        /\ exists delta,
          Forall (fun e => isFilterChanged e = false) delta
          /\ events (fst out)
             = events w
               ++ [EVENT_FILTER_DESTROYED source (column (wrapperObjs w wrapper))]
               ++ delta
               ++ match snd out with
                  | Normal _ => [EVENT_FILTER_CHANGED [col] None]
                  | Throw _ => []
                  end
  end.
Proof.
  intros key out.
  destruct (map_get (allColumnFilters w) key) as [wrapper|] eqn:Em.
  - intros f sm Hr Hs Hp.
    destruct (disposeFilterWrapper_reading wrapper f source
                (set_allColumnListeners (set_delete (allColumnListeners w) key) w) sm Hr Hs Hp)
      as (w1 & E & _ & _ & _ & He & Hb & _).
    assert (out = onFilterChanged grid None None (Some [col]) w1) as ->.
    { subst out. unfold destroyFilter, bind, gets, disposeColumnListener, modify.
      fold key. rewrite Em, E. reflexivity. }
    split.
    { assert (keeps destroyedBeans (onFilterChanged grid None None (Some [col]))) as K
        by keeps_all.
      now rewrite K, Hb. }
    destruct (onFilterChanged_emitsOnce grid None None (Some [col]) w1) as (delta & Hd & Hev).
    exists delta. split; [exact Hd|]. rewrite Hev, He. now rewrite <- app_assoc.
  - subst out. unfold destroyFilter, bind, gets, disposeColumnListener, modify.
    fold key. now rewrite Em.
Qed.

End Destroying.

(** ** Setting the quick filter *)

Section QuickFilterSetter.

Variable grid : Grid.

(** X12. [setQuickFilter], case by case.  An input that is neither a string
    nor null or undefined only logs one warning that names its type.  An
    input that parses to the stored text changes no text and dispatches
    nothing.  Any other input stores the parsed text and its parts and then
    runs [onFilterChanged]: when the call completes, one filter-changed
    event (without columns) is the last event; when it throws, the parsed
    text stays stored and no filter-changed event was dispatched. *)
Theorem setQuickFilter_events (newFilter : value) (w : World) :
  let parsed := match newFilter with VString t => parsedText grid t | _ => None end in
  let out := setQuickFilter grid newFilter w in
  if isNonStringInput newFilter
  then out
       = (set_console
            (console w
             ++ [("AG Grid - setQuickFilter() only supports string inputs, received: "
                  ++ typeOf newFilter)%string]) w,
          Normal tt)
  else if option_string_eqb (quickFilter w) parsed
  then snd out = Normal tt
       /\ events (fst out) = events w
       /\ quickFilter (fst out) = quickFilter w
       /\ quickFilterParts (fst out) = quickFilterParts w
  else quickFilter (fst out) = parsed
       /\ (exists w1,
             quickFilter w1 = parsed
             /\ quickFilterParts w1
                = match parsed with
                  | Some q => if isEmpty q then None else Some (split " " q)
                  | None => None
                  end
             /\ events w1 = events w
             /\ out = onFilterChanged grid None None None w1)
       /\ exists delta,
            Forall (fun e => isFilterChanged e = false) delta
            /\ events (fst out)
               = events w ++ delta
                 ++ match snd out with
                    | Normal _ => [EVENT_FILTER_CHANGED [] None]
                    | Throw _ => []
                    end.
Proof.
  intros parsed out.
  destruct (isNonStringInput newFilter) eqn:Hn.
  - subst out. unfold setQuickFilter. rewrite Hn. reflexivity.
  - assert (exists w1, parseQuickFilter grid newFilter w = (w1, Normal parsed)
                       /\ events w1 = events w /\ quickFilter w1 = quickFilter w
                       /\ quickFilterParts w1 = quickFilterParts w) as (w1 & Ep & He & Hq & Hp).
    { destruct newFilter as [| | b | n | t | items | fields]; try discriminate.
      - exists w. repeat split.
      - exists w. repeat split.
      - destruct (parseQuickFilter_result grid t w) as (Hr & Hq & Hp).
        exists (fst (parseQuickFilter grid (VString t) w)).
        split; [now apply pair_of_snd|]. split; [|split; assumption].
        unfold parseQuickFilter. cbn.
        destruct (isEmpty t); cbn; [reflexivity|].
        destruct (isClientSide (rowModelType grid)); reflexivity. }
    assert (out = (current <- gets quickFilter ;;
                   if negb (option_string_eqb current parsed) then
                     modify (set_quickFilter parsed) ;;
                     setQuickFilterParts ;;
                     onFilterChanged grid None None None
                   else ret tt) w1) as ->.
    { subst out. unfold setQuickFilter. rewrite Hn. unfold bind at 1. now rewrite Ep. }
    assert (forall (k : option string -> M unit),
              (current <- gets quickFilter ;; k current) w1 = k (quickFilter w) w1) as G
      by (intros k; unfold bind, gets; now rewrite Hq).
    rewrite G.
    destruct (option_string_eqb (quickFilter w) parsed) eqn:Eq; cbn [negb].
    + unfold ret. cbn. now repeat split.
    + split; [|split].
      * assert (keeps quickFilter
                  (setQuickFilterParts ;; onFilterChanged grid None None None)) as K.
        { apply keeps_bind; [unfold setQuickFilterParts; keeps_tac | intros _].
          apply onFilterChanged_keeps_quickFilter. }
        unfold bind at 1, modify at 1. now rewrite K.
      * eexists. repeat match goal with |- _ /\ _ => split end.
        4: { unfold bind at 1, modify at 1. unfold bind at 1, setQuickFilterParts at 1,
               modify at 1. reflexivity. }
        all: cbn; try reflexivity; exact He.
      * assert (emitsOnce (EVENT_FILTER_CHANGED [] None)
                  (modify (set_quickFilter parsed) ;;
                   setQuickFilterParts ;;
                   onFilterChanged grid None None None)) as Em.
        { apply emitsOnce_bind; [solve [appends_all] | intros _].
          apply emitsOnce_bind; [solve [appends_all] | intros _].
          apply (onFilterChanged_emitsOnce grid None None None). }
        destruct (Em w1) as (delta & Hd & Hev). exists delta. split; [exact Hd|].
        now rewrite Hev, He.
Qed.
End QuickFilterSetter.

(** ** New rows *)

Section NewRows.

Variable grid : Grid.

(** X13. [onNewRowsLoaded] dispatches no event and leaves the wrapper map,
    the quick filter and the allocation counter alone.  When it completes,
    the two active sets hold exactly the instances that are active in the
    world it leaves, split by the aggregate rule. *)
Theorem onNewRowsLoaded_refreshes (w : World) :
  let out := onNewRowsLoaded grid w in
  events (fst out) = events w
  /\ allColumnFilters (fst out) = allColumnFilters w
  /\ quickFilter (fst out) = quickFilter w
  /\ nextRef (fst out) = nextRef w
  /\ (snd out = Normal tt ->
      activeColumnFilters (fst out)
      = classified grid false (fst out) (allColumnFilters w)
      /\ activeAggregateFilters (fst out)
         = classified grid true (fst out) (allColumnFilters w)).
Proof.
  intros out. subst out.
  split; [|split; [|split; [|split]]].
  - assert (keeps events (onNewRowsLoaded grid)) as K by keeps_all. apply K.
  - assert (keeps allColumnFilters (onNewRowsLoaded grid)) as K by keeps_all. apply K.
  - assert (keeps quickFilter (onNewRowsLoaded grid)) as K by keeps_all. apply K.
  - assert (keeps nextRef (onNewRowsLoaded grid)) as K by keeps_all. apply K.
  - intros Hn. apply pair_of_snd in Hn. revert Hn.
    generalize (fst (onNewRowsLoaded grid w)). intros w3 Hn.
    unfold onNewRowsLoaded in Hn.
    apply bind_Normal in Hn as (w0 & entries & He & Hn).
    unfold gets in He. injection He as <- <-.
    apply bind_Normal in Hn as (w1 & u1 & Hloop & Hn).
    apply bind_Normal in Hn as (w2 & u2 & Hflags & Hn).
    assert (allColumnFilters w1 = allColumnFilters w) as H1.
    { match type of Hloop with ?c w = _ =>
        assert (keeps allColumnFilters c) as K by keeps_all;
        specialize (K w); now rewrite Hloop in K
      end. }
    assert (allColumnFilters w2 = allColumnFilters w1) as H2.
    { assert (keeps allColumnFilters (updateFilterFlagInColumns)) as K by keeps_all.
      specialize (K w1). now rewrite Hflags in K. }
    destruct (updateActiveFilters_reading grid w2) as (w3' & E & Hs & Hm & Ha & Hc).
    rewrite Hn in E. injection E as <- _.
    rewrite !(classified_same grid _ w2 w3) by exact Hs.
    rewrite Ha, Hc, H2, H1. now split.
Qed.
End NewRows.

(** ** Lookups by column *)

Section Lookups.

Variable grid : Grid.

(** X14. The three lookups by column never create a wrapper and never
    change the manager.  Without a wrapper they answer [false], [null] and
    [null].  On a wrapper without a promise [isFilterActive] throws while
    the other two answer [null]; on a pending promise the answers are
    [false] and [null]; on a resolved one they are the instance's
    [isFilterActive()] and its [getModel()] as it is (also when
    [getFilterModel] would leave that model out), or a TypeError when the
    instance lacks the method. *)
Theorem lookups_by_column (col : ref) (source : FilterRequestSource) (w : World) :
  let wrapper := map_get (allColumnFilters w) (colId (columnObjs w col)) in
  let promise :=
    match wrapper with Some fw => filterPromise (wrapperObjs w fw) | None => None end in
  getFilterComponent grid col source false w
  = (w, Normal match promise with Some _ => wrapper | None => None end)
  /\ isFilterActive col w
     = (w, match wrapper, promise with
           | None, _ => Normal false
           | Some _, None => Throw TypeError_null
           | Some _, Some p =>
               match resolution p with
               | None => Normal false
               | Some f =>
                   match IFilter.isFilterActive (filterObjs w f) with
                   | Some test => Normal (test (IFilter.filterState (filterObjs w f)))
                   | None => Throw TypeError_not_a_function
                   end
               end
           end)
  /\ getCurrentFloatingFilterParentModel grid col w
     = (w, match promise with
           | None => Normal VNull
           | Some p =>
               match resolution p with
               | None => Normal VNull
               | Some f =>
                   match IFilter.getModel (filterObjs w f) with
                   | Some getModel_ => Normal (getModel_ (IFilter.filterState (filterObjs w f)))
                   | None => Throw TypeError_not_a_function
                   end
               end
           end).
Proof.
  intros wrapper promise. subst promise wrapper.
  unfold getCurrentFloatingFilterParentModel, getFilterComponent, isFilterActive, cachedFilter,
    filterPromise_resolveNow, filterPromiseOf, callIsFilterActive.
  repeat (progress (unfold bind, gets, ret, throw; cbn)).
  destruct (map_get (allColumnFilters w) (colId (columnObjs w col))) as [fw|]; cbn;
    [|repeat split].
  destruct (filterPromise (wrapperObjs w fw)) as [p|] eqn:Ep; cbn; rewrite ?Ep; cbn;
    [|repeat split].
  destruct (resolution p) as [f|] eqn:Er; cbn; rewrite ?Er; cbn; [|repeat split].
  destruct (IFilter.isFilterActive (filterObjs w f)) eqn:Ea,
           (IFilter.getModel (filterObjs w f)) eqn:Eg; cbn; rewrite ?Ea, ?Eg; repeat split.
Qed.

End Lookups.

(** ** Columns that come and go *)

Section ColumnsChanged.

Variable grid : Grid.

Lemma onColumnsChanged_entry_present (entry : string * ref) (w : World) :
  columnStillThere grid w entry = true ->
  onColumnsChanged_entry grid entry w = (w, Normal false).
Proof.
  destruct entry as [k wr]. unfold columnStillThere, onColumnsChanged_entry, bind, gets.
  cbn [fst snd].
  destruct (if primary (columnObjs w (column (wrapperObjs w wr)))
            then findColumn w (primaryColumns (columnModel grid)) k
            else findColumn w (gridColumns (columnModel grid)) k); [reflexivity|discriminate].
Qed.

Lemma onColumnsChanged_loop_present (entries : list (string * ref)) (w : World) :
  forall columns,
  (forall e, In e entries -> columnStillThere grid w e = true) ->
  onColumnsChanged_loop grid entries columns w = (w, Normal columns).
Proof.
  induction entries as [|[k wr] rest IH]; intros columns Hall; [reflexivity|].
  cbn [onColumnsChanged_loop]. unfold bind at 1, gets at 1. cbn [fst snd].
  pose proof (onColumnsChanged_entry_present (k, wr) w (Hall _ (or_introl eq_refl))) as E.
  assert (forall e, In e rest -> columnStillThere grid w e = true) as Hrest
    by (intros e He; apply Hall; now right).
  destruct (map_get (allColumnFilters w) k) as [current|].
  - destruct (Nat.eqb current wr).
    + unfold bind at 1. unfold bind at 1, gets at 1. unfold bind at 1. rewrite E.
      unfold ret at 1. now apply IH.
    + unfold bind at 1, ret at 1. now apply IH.
  - unfold bind at 1, ret at 1. now apply IH.
Qed.

(** X15. When the column of every wrapper is still in the column model
    (among the primary columns for a primary column, among the grid columns
    otherwise), [onColumnsChanged] disposes nothing and dispatches no
    filter-changed event: it only refreshes the dependant (group) filters. *)
Theorem onColumnsChanged_nothing_gone (w : World) :
  (forall e, In e (allColumnFilters w) -> columnStillThere grid w e = true) ->
  onColumnsChanged grid w = updateDependantFilters grid w
  /\ exists delta,
       events (fst (onColumnsChanged grid w)) = events w ++ delta
       /\ Forall (fun e => isFilterChanged e = false) delta.
Proof.
  intros Hall.
  assert (onColumnsChanged grid w = updateDependantFilters grid w) as E.
  { unfold onColumnsChanged. unfold bind at 1, gets at 1. unfold bind at 1.
    now rewrite (onColumnsChanged_loop_present _ w [] Hall). }
  split; [exact E|]. rewrite E.
  assert (appends events (fun e => isFilterChanged e = false) (updateDependantFilters grid)) as A
    by appends_all.
  apply A.
Qed.

End ColumnsChanged.

(** ** Destroying the manager *)

Section DestroyAll.

Variable grid : Grid.

Lemma disposeFilterWrapper_step (wrapper f : ref) (source : DestroySource) (w : World) :
  resolvedFilter w wrapper = Some f ->
  takesNull (filterObjs w f) ->
  exists w1,
    disposeFilterWrapper wrapper source w = (w1, Normal tt)
    /\ allColumnFilters w1
       = map_delete (allColumnFilters w) (colId (wrapperColumn w wrapper))
    /\ allColumnListeners w1 = allColumnListeners w
    /\ events w1 = events w ++ [EVENT_FILTER_DESTROYED source (column (wrapperObjs w wrapper))]
    /\ destroyedBeans w1 = destroyedBeans w ++ [f]
    /\ wrapperObjs w1 = wrapperObjs w
    /\ (forall c, columnShape (columnObjs w1 c) = columnShape (columnObjs w c))
    /\ filterActive (columnObjs w1 (column (wrapperObjs w wrapper))) = false
    /\ (forall c, filterActive (columnObjs w c) = false -> filterActive (columnObjs w1 c) = false)
    /\ (forall g, methodsOf (filterObjs w1 g) = methodsOf (filterObjs w g)).
Proof.
  intros Hr (sm & Hs & Hp).
  specialize (Hp (IFilter.filterState (filterObjs w f))).
  destruct (disposeFilterWrapper_reading wrapper f source w sm Hr Hs Hp)
    as (w1 & E & _ & Hm & Hc & He & Hb & _ & Hw).
  exists w1. split; [exact E|]. split; [exact Hm|].
  assert (keeps allColumnListeners (disposeFilterWrapper wrapper source)) as K by keeps_all.
  specialize (K w). rewrite E in K. split; [exact K|].
  split; [exact He|]. split; [exact Hb|]. split; [exact Hw|].
  split; [|split; [|split]].
  - intros c. rewrite Hc. destruct (Nat.eq_dec c (column (wrapperObjs w wrapper))) as [->|Hne].
    + now rewrite upd_same.
    + now rewrite upd_other by exact Hne.
  - now rewrite Hc, upd_same.
  - intros c Hf. rewrite Hc. destruct (Nat.eq_dec c (column (wrapperObjs w wrapper))) as [->|Hne].
    + now rewrite upd_same.
    + now rewrite upd_other by exact Hne.
  - intros g. revert E. unfold resolvedFilter in Hr.
    unfold disposeFilterWrapper, filterPromise_then, filterPromiseOf,
      disposeFilterWrapper_callback, callSetModel, modelPromise_then,
      disposeFilterWrapper_finish, setFilterActive, dispatchEvent, bind, gets, modify, ret.
    destruct (filterPromise (wrapperObjs w wrapper)) as [p|] eqn:Ep; [|discriminate].
    simpl. rewrite Hr. rewrite Hs.
    destruct (sm VNull (IFilter.filterState (filterObjs w f))) as [state' returned] eqn:Em.
    simpl in Hp.
    destruct returned; [| |congruence]; simpl; intros Heq; injection Heq as Heq;
      rewrite <- Heq; simpl; unfold upd;
      (destruct (Nat.eqb g f) eqn:Eg; [apply Nat.eqb_eq in Eg as ->|];
       unfold methodsOf; cbn; now rewrite ?Hs).
Qed.

Lemma takesNull_methods (fo fo' : IFilterComp) :
  methodsOf fo' = methodsOf fo -> takesNull fo -> takesNull fo'.
Proof.
  intros Hm (sm & Hs & Hp). exists sm. split; [|exact Hp].
  unfold methodsOf in Hm. injection Hm as _ _ _ -> _ _. exact Hs.
Qed.

Lemma map_delete_absent {A} (m : list (string * A)) (key : string) :
  ~ In key (map fst m) -> map_delete m key = m.
Proof.
  induction m as [|[k x] m IH]; simpl; [reflexivity|]. intros Hn.
  destruct (String.eqb k key) eqn:E.
  - apply String.eqb_eq in E. elim Hn. now left.
  - rewrite IH; [reflexivity|]. intros Hin. apply Hn. now right.
Qed.

Lemma destroy_loop (entries : list (string * ref)) :
  forall w,
  NoDup (map fst entries) ->
  allColumnFilters w = entries ->
  (forall e, In e entries -> colId (wrapperColumn w (snd e)) = fst e) ->
  (forall e, In e entries ->
     exists f, resolvedFilter w (snd e) = Some f /\ takesNull (filterObjs w f)) ->
  exists w1,
    forEachLive entries (fun entry => disposeFilterWrapper (snd entry) gridDestroyed) w
    = (w1, Normal tt)
    /\ allColumnFilters w1 = []
    /\ allColumnListeners w1 = allColumnListeners w
    /\ events w1
       = events w
         ++ map (fun e => EVENT_FILTER_DESTROYED gridDestroyed (column (wrapperObjs w (snd e))))
              entries
    /\ (forall e f, In e entries -> resolvedFilter w (snd e) = Some f ->
                    In f (destroyedBeans w1))
    /\ (forall b, In b (destroyedBeans w) -> In b (destroyedBeans w1))
    /\ (forall e, In e entries ->
          filterActive (columnObjs w1 (column (wrapperObjs w (snd e)))) = false)
    /\ (forall c, filterActive (columnObjs w c) = false -> filterActive (columnObjs w1 c) = false)
    /\ wrapperObjs w1 = wrapperObjs w.
Proof.
  unfold forEachLive.
  induction entries as [|[k wr] rest IH]; intros w Hnd Hmap Hkey Hres.
  - exists w. cbn. rewrite app_nil_r. repeat match goal with |- _ /\ _ => split end;
      try easy.
  - cbn [forEach]. unfold bind at 1. unfold bind at 1, gets at 1. cbn [fst snd].
    rewrite Hmap. cbn [map_get]. rewrite String.eqb_refl, Nat.eqb_refl.
    destruct (Hres (k, wr) (or_introl eq_refl)) as (f & Hr & Ht). cbn [snd] in Hr.
    destruct (disposeFilterWrapper_step wr f gridDestroyed w Hr Ht)
      as (w' & E & Hm & Hl & He & Hb & Hw & Hshape & Hoff & Hkeep & Hmeth).
    rewrite E.
    pose proof (Hkey (k, wr) (or_introl eq_refl)) as Hk. cbn [fst snd] in Hk.
    cbn [map fst] in Hnd. apply NoDup_cons_iff in Hnd as [Hnotin Hnd'].
    assert (allColumnFilters w' = rest) as Hmap'.
    { rewrite Hm, Hk, Hmap. cbn [map_delete]. rewrite String.eqb_refl.
      now apply map_delete_absent. }
    assert (forall c, colId (columnObjs w' c) = colId (columnObjs w c)) as Hid.
    { intros c. pose proof (Hshape c) as Hs. unfold columnShape in Hs. now injection Hs. }
    destruct (IH w' Hnd' Hmap') as (w1 & E1 & Hm1 & Hl1 & He1 & Hb1 & Hold1 & Hoff1 & Hkeep1 & Hw1).
    { intros e Hin. unfold wrapperColumn. rewrite Hw, Hid. apply (Hkey e). now right. }
    { intros e Hin. destruct (Hres e (or_intror Hin)) as (f' & Hr' & Ht').
      exists f'. split.
      - unfold resolvedFilter. rewrite Hw. exact Hr'.
      - apply (takesNull_methods (filterObjs w f')); [apply Hmeth | exact Ht']. }
    exists w1. split; [exact E1|].
    repeat match goal with |- _ /\ _ => split end.
    + exact Hm1.
    + now rewrite Hl1.
    + rewrite He1, He, Hw. cbn [map snd]. now rewrite <- app_assoc.
    + intros e f' [<-|Hin] Hf'.
      * cbn [snd] in Hf'. rewrite Hr in Hf'. injection Hf' as <-.
        apply Hold1. rewrite Hb. apply in_or_app. right. now left.
      * apply (Hb1 e f' Hin). unfold resolvedFilter. rewrite Hw. exact Hf'.
    + intros b Hin. apply Hold1. rewrite Hb. apply in_or_app. now left.
    + intros e [<-|Hin].
      * cbn [snd]. now apply Hkeep1.
      * rewrite <- Hw. now apply Hoff1.
    + intros c Hc. apply Hkeep1. now apply Hkeep.
    + now rewrite Hw1.
Qed.

(** X16. [destroy] disposes every wrapper: when the map has one wrapper per
    key, each keyed by the id of its own column, and every wrapper has a
    resolved instance that answers [setModel(null)] at once, then [destroy]
    completes with an empty wrapper map and no column listener, dispatches
    one [filter-destroyed] event per wrapper, in the order of the map and
    with the source [gridDestroyed], destroys every instance and leaves
    every wrapper's column flagged as not filtered. *)
Theorem destroy_disposes_all (w : World) :
  NoDup (map fst (allColumnFilters w)) ->
  (forall e, In e (allColumnFilters w) -> colId (wrapperColumn w (snd e)) = fst e) ->
  (forall e, In e (allColumnFilters w) ->
     exists f, resolvedFilter w (snd e) = Some f /\ takesNull (filterObjs w f)) ->
  exists w1,
    destroy w = (w1, Normal tt)
    /\ allColumnFilters w1 = []
    /\ allColumnListeners w1 = []
    /\ events w1
       = events w
         ++ map (fun e => EVENT_FILTER_DESTROYED gridDestroyed (column (wrapperObjs w (snd e))))
              (allColumnFilters w)
    /\ (forall e f, In e (allColumnFilters w) -> resolvedFilter w (snd e) = Some f ->
                    In f (destroyedBeans w1))
    /\ (forall e, In e (allColumnFilters w) ->
          filterActive (columnObjs w1 (column (wrapperObjs w (snd e)))) = false).
Proof.
  intros Hnd Hkey Hres.
  destruct (destroy_loop (allColumnFilters w) w Hnd eq_refl Hkey Hres)
    as (w1 & E & Hm & Hl & He & Hb & _ & Hoff & _ & _).
  unfold destroy. unfold bind at 1, gets at 1. unfold bind at 1. rewrite E.
  unfold modify. eexists. split; [reflexivity|]. cbn.
  repeat match goal with |- _ /\ _ => split end; try assumption; try reflexivity.
Qed.

End DestroyAll.

(** ** The check after a column definition changed *)

Section CheckDestroy.

Variable grid : Grid.

Lemma getOrCreateFilterWrapper_created (col wrapper : ref) (source : FilterRequestSource)
    (w w1 : World) :
  map_get (allColumnFilters w) (colId (columnObjs w col)) = None ->
  getOrCreateFilterWrapper grid col source w = (w1, Normal (Some wrapper)) ->
  column (wrapperObjs w1 wrapper) = col
  /\ compDetails (wrapperObjs w1 wrapper) = createFilterInstance grid (columnObjs w col)
  /\ (createFilterInstance grid (columnObjs w col) = None ->
      filterPromise (wrapperObjs w1 wrapper) = None)
  /\ columnObjs w1 = columnObjs w
  /\ filterAllowed (columnObjs w col) = true
  /\ map_get (allColumnFilters w1) (colId (columnObjs w col)) = Some wrapper.
Proof.
  intros Hm H.
  destruct (getOrCreateFilterWrapper_result grid col wrapper source w w1 H) as [Ha Hg].
  revert H Ha Hg.
  unfold getOrCreateFilterWrapper, cachedFilter, createFilterWrapper, putIntoGui,
    filterPromise_then, filterPromiseOf, setGuiPromise, alloc, bind, gets, modify, ret, throw.
  destruct (filterAllowed (columnObjs w col)) eqn:Hallowed; cbn [negb]; [|discriminate].
  rewrite Hm.
  destruct (createFilterInstance grid (columnObjs w col)) as [details|] eqn:Hd.
  - destruct (newAgStackInstance details) as [| instance |];
      cbn -[upd putIntoGui_callback]; rewrite ?upd_same;
      cbn -[upd putIntoGui_callback]; rewrite ?upd_same; cbn -[upd putIntoGui_callback].
    + discriminate.
    + match goal with
      | |- context [putIntoGui_callback grid ?a ?b ?c ?W] =>
          destruct (putIntoGui_callback_reading grid a b c W)
            as [w' [E [_ [_ [_ [_ [_ [_ [H5 [_ [_ [H8 H9]]]]]]]]]]]]
      end.
      rewrite E.
      match goal with
      | |- context [if ?m then Normal tt else _] => destruct m
      end; [|discriminate].
      intros [= <- <-]. cbn -[upd]. rewrite H8, H9, H5. cbn -[upd]. rewrite ?upd_same.
      intros Ha Hg. repeat split; try assumption; try discriminate.
    + intros [= <- <-]; cbn -[upd]; rewrite ?upd_same; cbn -[upd];
        intros Ha Hg; repeat split; try assumption; try discriminate.
  - cbn -[upd]. intros [= <- <-]. cbn -[upd]. rewrite ?upd_same. cbn -[upd].
    intros Ha Hg. repeat split; assumption.
Qed.

Lemma destroyFilter_no_promise (col wrapper : ref) (source : DestroySource) (w : World) :
  map_get (allColumnFilters w) (colId (columnObjs w col)) = Some wrapper ->
  filterPromise (wrapperObjs w wrapper) = None ->
  destroyFilter grid col source w
  = (set_allColumnListeners (set_delete (allColumnListeners w) (colId (columnObjs w col))) w,
     Throw TypeError_null).
Proof.
  intros Hg Hn.
  unfold destroyFilter, disposeColumnListener, disposeFilterWrapper, filterPromise_then,
    filterPromiseOf, bind, gets, modify, throw.
  rewrite Hg. cbn. now rewrite Hn.
Qed.

(** X17. The check that runs when a column definition changes, right after
    the wrapper of the column was created: when the component factory gave
    component details the check leaves the wrapper alone and changes
    nothing; when it gave none (the wrapper then has no promise), the check
    tries to destroy the wrapper and throws a TypeError on the missing
    promise, after dropping the column's listener: the wrapper stays in the
    map and no event is dispatched. *)
Theorem checkDestroyFilter_after_create (col wrapper : ref) (source : FilterRequestSource)
    (w w1 : World) :
  map_get (allColumnFilters w) (colId (columnObjs w col)) = None ->
  getOrCreateFilterWrapper grid col source w = (w1, Normal (Some wrapper)) ->
  let key := colId (columnObjs w col) in
  match createFilterInstance grid (columnObjs w col) with
  | Some _ => checkDestroyFilter grid key w1 = (w1, Normal tt)
  | None =>
      checkDestroyFilter grid key w1
      = (set_allColumnListeners (set_delete (allColumnListeners w1) key) w1,
         Throw TypeError_null)
  end.
Proof.
  intros Hm H key.
  destruct (getOrCreateFilterWrapper_created col wrapper source w w1 Hm H)
    as (Hcol & Hdet & Hnone & Hc & Ha & Hg).
  fold key in Hg.
  assert (forall k : M unit,
            (match (if filterAllowed (columnObjs w col)
                    then createFilterInstance grid (columnObjs w col) else None) with
             | Some details =>
                 match compDetails (wrapperObjs w1 wrapper) with
                 | Some current =>
                     if String.eqb (componentClass current) (componentClass details)
                     then ret tt else k
                 | None => k
                 end
             | None => k
             end) w1
            = match createFilterInstance grid (columnObjs w col) with
              | Some _ => (w1, Normal tt)
              | None => k w1
              end) as Hbody.
  { intros k. rewrite Ha, Hdet.
    destruct (createFilterInstance grid (columnObjs w col)); [|reflexivity].
    now rewrite String.eqb_refl. }
  assert (checkDestroyFilter grid key w1
          = match createFilterInstance grid (columnObjs w col) with
            | Some _ => (w1, Normal tt)
            | None => destroyFilter grid col columnChanged w1
            end) as E.
  { unfold checkDestroyFilter. unfold bind at 1, gets at 1. rewrite Hg.
    unfold bind at 1, gets at 1. unfold bind at 1, gets at 1.
    rewrite Hcol, Hc. apply Hbody. }
  rewrite E.
  destruct (createFilterInstance grid (columnObjs w col)) as [details|] eqn:Hd; [reflexivity|].
  specialize (Hnone eq_refl).
  rewrite (destroyFilter_no_promise col wrapper columnChanged w1).
  - now rewrite Hc.
  - rewrite Hc. exact Hg.
  - exact Hnone.
Qed.

End CheckDestroy.

(** ** A model for an instance that has not arrived *)

Section Deferred.

Variable grid : Grid.

Lemma putIntoGui_callback_keeps_applyPromises wrapper source f :
  keeps applyPromises (putIntoGui_callback grid wrapper source f).
Proof. keeps_all. Qed.

(** The callback of [setModelOnFilterWrapper] on an instance that answers
    [setModel] at once, when nothing waits for the promise of the call. *)
Lemma setModelOnFilterWrapper_callback_sync (newModel : value) (apply f : ref) (w : World)
    (setModel_ : value -> value -> value * SetModelReturn) :
  IFilter.setModel (filterObjs w f) = Some setModel_ ->
  snd (setModel_ newModel (IFilter.filterState (filterObjs w f))) <> ReturnsPending ->
  applyWaiters (applyPromises w apply) = [] ->
  exists w1,
    setModelOnFilterWrapper_callback grid newModel apply f w = (w1, Normal tt)
    /\ IFilter.filterState (filterObjs w1 f)
       = fst (setModel_ newModel (IFilter.filterState (filterObjs w f)))
    /\ applyResolved (applyPromises w1 apply) = true
    /\ events w1 = events w
    /\ console w1 = console w
    /\ wrapperObjs w1 = wrapperObjs w.
Proof.
  intros Hs Hsync Hw.
  unfold setModelOnFilterWrapper_callback, callSetModel.
  repeat (progress (unfold bind, gets, modify, ret, alloc; cbn -[upd])).
  rewrite Hs. cbn -[upd]. rewrite Hs.
  destruct (setModel_ newModel (IFilter.filterState (filterObjs w f))) as [s' r] eqn:Es.
  cbn -[upd] in Hsync |- *.
  unfold modelPromise_then.
  destruct r; [| |now elim Hsync];
    unfold resolveApply;
    repeat (progress (unfold bind, gets, modify, ret, alloc; cbn -[upd]));
    rewrite ?Hw; cbn -[upd];
    (eexists; split; [reflexivity|]); cbn -[upd];
    repeat rewrite upd_same; cbn -[upd];
    repeat match goal with |- _ /\ _ => split end; reflexivity.
Qed.

Lemma setModelOnFilterWrapper_callback_quiet (newModel : value) (apply f : ref) (w : World) :
  applyWaiters (applyPromises w apply) = [] ->
  wrapperObjs (fst (setModelOnFilterWrapper_callback grid newModel apply f w))
  = wrapperObjs w.
Proof.
  intros Hw.
  unfold setModelOnFilterWrapper_callback, callSetModel, resolveApply, console_warn.
  destruct (IFilter.setModel (filterObjs w f)) as [sm|] eqn:Hs.
  - repeat (progress (unfold bind, gets, modify, ret, alloc; cbn -[upd])).
    rewrite Hs. cbn -[upd]. rewrite Hs.
    destruct (sm newModel (IFilter.filterState (filterObjs w f))) as [s' r].
    cbn -[upd]. unfold modelPromise_then.
    destruct r; unfold resolveApply;
      repeat (progress (unfold bind, gets, modify, ret, alloc; cbn -[upd]));
      rewrite ?Hw; reflexivity.
  - repeat (progress (unfold bind, gets, modify, ret, alloc, throw; cbn -[upd])).
    rewrite Hs. cbn -[upd]. rewrite Hw. cbn -[upd]. rewrite Hs. reflexivity.
Qed.

(** X18. On a wrapper whose instance has not arrived yet,
    [setModelOnFilterWrapper] calls no [setModel]: it returns a fresh
    promise that is not resolved, leaves every instance, the events and the
    console as they are, and only adds one waiter, carrying the model, at
    the end of the waiters of the wrapper's promise.  On a wrapper as the
    manager makes it, where [putIntoGui] is the one that waits already, the
    arrival of the instance first puts its gui in.  When that works,
    [filter-opened] is dispatched and the deferred call runs: an instance
    that answers [setModel] at once takes the model and the returned
    promise resolves.  When the gui cannot be put in, the arrival throws a
    TypeError there: [setModel] is never called and the returned promise
    stays unresolved. *)
Theorem setModelOnFilterWrapper_pending (wrapper : ref) (newModel : value) (w : World)
    (p : FilterPromise) :
  filterPromise (wrapperObjs w wrapper) = Some p ->
  resolution p = None ->
  exists w1,
    setModelOnFilterWrapper grid wrapper newModel w = (w1, Normal (nextRef w))
    /\ applyPromises w1 (nextRef w) = mkApplyPromise false []
    /\ filterPromise (wrapperObjs w1 wrapper)
       = Some (mkFilterPromise None (waiters p ++ [ThenSetModel newModel (nextRef w)]))
    /\ (forall other, other <> wrapper -> wrapperObjs w1 other = wrapperObjs w other)
    /\ filterObjs w1 = filterObjs w
    /\ events w1 = events w
    /\ console w1 = console w
    /\ allColumnFilters w1 = allColumnFilters w
    /\ nextRef w1 = S (nextRef w)
    /\ forall instance source,
         waiters p = [ThenPutIntoGui source] ->
         let arrived := resolveFilterPromise grid wrapper instance w1 in
         resolvedFilter (fst arrived) wrapper = Some (nextRef w1)
         /\ if mounts grid instance
            then forall setModel_,
                   IFilter.setModel instance = Some setModel_ ->
                   snd (setModel_ newModel (IFilter.filterState instance)) <> ReturnsPending ->
                   snd arrived = Normal tt
                   /\ IFilter.filterState (filterObjs (fst arrived) (nextRef w1))
                      = fst (setModel_ newModel (IFilter.filterState instance))
                   /\ applyResolved (applyPromises (fst arrived) (nextRef w)) = true
                   /\ events (fst arrived)
                      = events w ++ [EVENT_FILTER_OPENED (column (wrapperObjs w wrapper)) source]
                   /\ console (fst arrived) = console w ++ guiWarning instance
            else snd arrived = Throw (guiError instance)
                 /\ filterObjs (fst arrived) (nextRef w1) = instance
                 /\ applyResolved (applyPromises (fst arrived) (nextRef w)) = false
                 /\ events (fst arrived) = events w
                 /\ console (fst arrived) = console w ++ guiWarning instance.
Proof.
  intros Hp Hr.
  unfold setModelOnFilterWrapper, filterPromise_then, filterPromiseOf.
  repeat (progress (unfold bind, gets, modify, ret, alloc; cbn -[upd])).
  rewrite Hp, Hr. cbn -[upd].
  eexists. split; [reflexivity|]. cbn -[upd].
  repeat match goal with |- _ /\ _ => split end; try reflexivity.
  - now rewrite upd_same.
  - rewrite upd_same. unfold addWaiter. rewrite Hp, Hr. reflexivity.
  - intros other Hne. now rewrite upd_other by exact Hne.
  - intros instance source Hw.
    unfold resolveFilterPromise, filterPromiseOf.
    repeat (progress (unfold bind, gets, modify, ret, alloc;
                      cbn -[upd putIntoGui_callback setModelOnFilterWrapper_callback])).
    rewrite !upd_same. unfold addWaiter. rewrite Hp, Hr, Hw.
    cbn -[upd putIntoGui_callback setModelOnFilterWrapper_callback].
    match goal with
    | |- context [bind _ _ ?W] => set (W0 := W)
    end.
    assert (filterObjs W0 (S (nextRef w)) = instance) as Hfo
      by (subst W0; cbn -[upd]; apply upd_same).
    assert (applyPromises W0 (nextRef w) = mkApplyPromise false []) as Hap
      by (subst W0; cbn -[upd]; apply upd_same).
    assert (resolvedFilter W0 wrapper = Some (S (nextRef w))) as Hres
      by (subst W0; unfold resolvedFilter; cbn -[upd]; now rewrite upd_same).
    assert (column (wrapperObjs W0 wrapper) = column (wrapperObjs w wrapper)) as Hcol
      by (subst W0; cbn -[upd]; now rewrite !upd_same).
    assert (events W0 = events w) as Hev by reflexivity.
    assert (console W0 = console w) as Hco by reflexivity.
    clearbody W0.
    destruct (putIntoGui_callback_reading grid wrapper source (S (nextRef w)) W0)
      as (w' & E & Hc' & He' & _ & _ & _ & Hfo' & _ & _ & Hfp' & _ & _).
    pose proof (putIntoGui_callback_keeps_applyPromises wrapper source (S (nextRef w)) W0)
      as Hap'.
    rewrite E in Hap'. cbn [fst] in Hap'.
    rewrite Hfo in E, Hc', He'. rewrite Hcol, Hev in He'. rewrite Hco in Hc'.
    assert (resolvedFilter w' wrapper = Some (S (nextRef w))) as Hres'.
    { unfold resolvedFilter in *. now rewrite Hfp'. }
    assert ((putIntoGui_callback grid wrapper source (S (nextRef w)) ;;
             setModelOnFilterWrapper_callback grid newModel (nextRef w) (S (nextRef w)) ;;
             ret tt)%js W0
            = if mounts grid instance
              then (setModelOnFilterWrapper_callback grid newModel (nextRef w)
                      (S (nextRef w)) ;; ret tt)%js w'
              else (w', Throw (guiError instance))) as ->.
    { unfold bind at 1. rewrite E. now destruct (mounts grid instance). }
    destruct (mounts grid instance).
    + assert (applyWaiters (applyPromises w' (nextRef w)) = []) as Hw'
        by (now rewrite Hap', Hap).
      split.
      { unfold resolvedFilter, bind.
        pose proof (setModelOnFilterWrapper_callback_quiet newModel (nextRef w)
                      (S (nextRef w)) w' Hw') as Hq.
        destruct (setModelOnFilterWrapper_callback grid newModel (nextRef w)
                    (S (nextRef w)) w') as [w2 [[]|e]]; unfold ret; cbn [fst] in *;
          rewrite Hq; exact Hres'. }
      intros sm Hs Hsync.
      destruct (setModelOnFilterWrapper_callback_sync newModel (nextRef w)
                  (S (nextRef w)) w' sm) as (w2 & E2 & Hst & Hres2 & Hev2 & Hco2 & _).
      { now rewrite Hfo', Hfo. }
      { now rewrite Hfo', Hfo. }
      { exact Hw'. }
      unfold bind. rewrite E2. cbn [fst snd ret].
      rewrite Hfo', Hfo in Hst.
      repeat match goal with |- _ /\ _ => split end; try assumption; try reflexivity.
      * now rewrite Hev2.
      * now rewrite Hco2.
    + rewrite app_nil_r in He'. cbn [fst snd].
      split; [exact Hres'|].
      repeat match goal with |- _ /\ _ => split end;
        rewrite ?Hfo', ?Hap', ?Hap; try assumption; try reflexivity.
Qed.

End Deferred.

(** ** The quick filter cache, and the default components *)

Section QuickFilterCache.

Variable grid : Grid.

Lemma resetQuickFilterCache_loop (nodes : list ref) :
  forall w,
  exists w1,
    forEach nodes (fun node => setRowAggregateText node None) w = (w1, Normal tt)
    /\ w1 = set_quickFilterAggregateText (quickFilterAggregateText w1) w
    /\ (forall n, In n nodes -> quickFilterAggregateText w1 n = None)
    /\ (forall n, ~ In n nodes -> quickFilterAggregateText w1 n = quickFilterAggregateText w n).
Proof.
  induction nodes as [|x rest IH]; intros w.
  - exists w. repeat match goal with |- _ /\ _ => split end; try easy. now destruct w.
  - cbn [forEach]. unfold bind at 1, setRowAggregateText at 1, modify at 1.
    destruct (IH (set_quickFilterAggregateText (upd (quickFilterAggregateText w) x None) w))
      as (w1 & E & Hfr & Hin & Hout).
    exists w1. split; [exact E|]. repeat match goal with |- _ /\ _ => split end.
    + rewrite Hfr at 1. now destruct w.
    + intros n [<-|Hn]; [|now apply Hin].
      destruct (in_dec Nat.eq_dec x rest) as [Hx|Hx]; [now apply Hin|].
      rewrite (Hout x Hx). cbn -[upd]. apply upd_same.
    + intros n Hn. rewrite Hout by (intros H; apply Hn; now right).
      cbn -[upd]. apply upd_other. intros ->. apply Hn. now left.
Qed.

(** X19. The cache of the quick filter.  A cached check searches the text
    cached on the row, when there is one that is not empty, and changes
    nothing: the row's present data is not looked at.
    [resetQuickFilterCache] empties the cache of every row of the row model
    and touches nothing else; the next cached check of such a row searches
    the text joined from the row's present data and caches it. *)
Theorem quick_filter_cache (node : ref) (part : string) (w : World) :
  (forall text, quickFilterAggregateText w node = Some text -> isEmpty text = false ->
     doesRowPassQuickFilterCache grid node part w = (w, Normal (includes text part)))
  /\ exists w1,
       resetQuickFilterCache grid w = (w1, Normal tt)
       /\ w1 = set_quickFilterAggregateText (quickFilterAggregateText w1) w
       /\ (forall n, ~ In n (rowModel_nodes grid) ->
             quickFilterAggregateText w1 n = quickFilterAggregateText w n)
       /\ (In node (rowModel_nodes grid) ->
           quickFilterAggregateText w1 node = None
           /\ doesRowPassQuickFilterCache grid node part w1
              = (set_quickFilterAggregateText
                   (upd (quickFilterAggregateText w1) node (Some (aggregateText grid w node)))
                   w1,
                 Normal (includes (aggregateText grid w node) part))).
Proof.
  split.
  - intros text Hc He. rewrite doesRowPassQuickFilterCache_reading.
    unfold afterCacheCheck, searchedText, noAggregateText. now rewrite Hc, He.
  - destruct (resetQuickFilterCache_loop (rowModel_nodes grid) w) as (w1 & E & Hfr & Hin & Hout).
    exists w1. split; [exact E|]. split; [exact Hfr|]. split; [exact Hout|].
    intros Hn. split; [now apply Hin|].
    rewrite doesRowPassQuickFilterCache_reading.
    unfold afterCacheCheck, searchedText, noAggregateText. rewrite (Hin node Hn).
    assert (aggregateText grid w1 node = aggregateText grid w node) as ->
      by (rewrite Hfr; reflexivity).
    reflexivity.
Qed.

End QuickFilterCache.

Section DefaultFilters.

Variable grid : Grid.

Lemma value_eqb_string (v : value) (s : string) :
  value_eqb v (VString s) = true <-> v = VString s.
Proof.
  destruct v; simpl; try (split; discriminate).
  rewrite String.eqb_eq. split; congruence.
Qed.

(** X20. The default filter and the default floating filter of a column are
    of the same kind, one of four: set exactly when the set filter module
    is registered; otherwise number exactly when the cell data type of the
    column is ['number'], date exactly when it is ['date'] or
    ['dateString'], and text for every other cell data type. *)
Theorem default_filters_pair (c : Column) :
  let type := cellDataType (colDef c) in
  exists kind,
    In kind ["Set"; "Number"; "Date"; "Text"]
    /\ getDefaultFilter grid c = ("ag" ++ kind ++ "ColumnFilter")%string
    /\ getDefaultFloatingFilter grid c = ("ag" ++ kind ++ "ColumnFloatingFilter")%string
    /\ (kind = "Set" <-> setFilterModuleRegistered grid = true)
    /\ (kind = "Number"
        <-> setFilterModuleRegistered grid = false /\ type = VString "number")
    /\ (kind = "Date"
        <-> setFilterModuleRegistered grid = false
            /\ (type = VString "date" \/ type = VString "dateString"))
    /\ (kind = "Text"
        <-> setFilterModuleRegistered grid = false
            /\ type <> VString "number" /\ type <> VString "date"
            /\ type <> VString "dateString").
Proof.
  intros type. unfold getDefaultFilter, getDefaultFloatingFilter. fold type.
  destruct (setFilterModuleRegistered grid).
  - exists "Set". cbn.
    repeat match goal with |- _ /\ _ => split | |- _ <-> _ => split end;
      auto; try discriminate; now intros [? _].
  - destruct (value_eqb type (VString "number")) eqn:En.
    + apply value_eqb_string in En. exists "Number". rewrite En. cbn.
      repeat match goal with |- _ /\ _ => split | |- _ <-> _ => split end;
        auto; try discriminate.
      * now intros [_ [? | ?]].
      * intros [_ [? _]]. congruence.
    + assert (type <> VString "number") as Hn.
      { intros H. apply value_eqb_string in H. congruence. }
      destruct (value_eqb type (VString "date")) eqn:Ed; cbn [orb].
      * apply value_eqb_string in Ed. exists "Date". cbn.
        repeat match goal with |- _ /\ _ => split | |- _ <-> _ => split end;
          auto; try discriminate.
        -- now intros [_ ?].
        -- intros [_ [_ [? _]]]. congruence.
      * assert (type <> VString "date") as Hd.
        { intros H. apply value_eqb_string in H. congruence. }
        destruct (value_eqb type (VString "dateString")) eqn:Es.
        -- apply value_eqb_string in Es. exists "Date". cbn.
           repeat match goal with |- _ /\ _ => split | |- _ <-> _ => split end;
             auto; try discriminate.
           ++ now intros [_ ?].
           ++ intros [_ [_ [_ ?]]]. congruence.
        -- assert (type <> VString "dateString") as Hs.
           { intros H. apply value_eqb_string in H. congruence. }
           exists "Text". cbn.
           repeat match goal with |- _ /\ _ => split | |- _ <-> _ => split end;
             auto; try discriminate.
           ++ now intros [_ ?].
           ++ intros [_ [? | ?]]; congruence.
Qed.

End DefaultFilters.

(** ** Importing a model into one wrapper *)

Section SingleWrapper.

Variable grid : Grid.

Lemma set_delete_only (keys : list string) (k : string) :
  (forall key, In key keys -> key = k) -> set_delete keys k = [].
Proof.
  induction keys as [|x keys IH]; intros H; simpl; [reflexivity|].
  rewrite (H x (or_introl eq_refl)), String.eqb_refl. apply IH.
  intros key Hin. apply H. now right.
Qed.

(** X21. [setFilterModel] on a manager with a single wrapper, whose
    instance is resolved and answers [setModel] at once, for a model with no
    other key.  In every case the instance takes the model's entry for the
    wrapper's key ([undefined] when there is none), and up to the comparison
    only instance states, promises, the console and the allocation counter
    change.  The comparison is that of [jsonEquals], between what the
    instance reported before and what it reports now.  When [jsonEquals]
    finds them equal, the call completes there and dispatches nothing.
    Otherwise the call ends with [onFilterChanged] for the wrapper's column:
    when that completes, one filter-changed event naming that column is the
    last event; when it throws, no filter-changed event was dispatched. *)
Theorem setFilterModel_one_wrapper (model : list (string * value)) (k : string)
    (wr f : ref) (w : World) (setModel_ : value -> value -> value * SetModelReturn) :
  allColumnFilters w = [(k, wr)] ->
  resolvedFilter w wr = Some f ->
  IFilter.setModel (filterObjs w f) = Some setModel_ ->
  snd (setModel_ (getProperty model k) (IFilter.filterState (filterObjs w f)))
  <> ReturnsPending ->
  (forall key, In key (map fst model) -> key = k) ->
  let state' := fst (setModel_ (getProperty model k) (IFilter.filterState (filterObjs w f))) in
  let before := exportedValue (reportedBy w f) in
  let after := exportedValue (reported (filterObjs w f) state') in
  let out := setFilterModel grid (Some model) w in
  exists compared,
    IFilter.filterState (filterObjs compared f) = state'
    /\ onlyFilterStates w compared
    /\ events compared = events w
    /\ allColumnFilters compared = allColumnFilters w
    /\ out = (if jsonEquals before after then (compared, Normal tt)
              else onFilterChanged grid None None (Some [column (wrapperObjs w wr)]) compared)
    /\ (jsonEquals before after = false ->
        exists delta,
          Forall (fun e => isFilterChanged e = false) delta
          /\ events (fst out)
             = events w ++ delta
               ++ match snd out with
                  | Normal _ => [EVENT_FILTER_CHANGED [column (wrapperObjs w wr)] None]
                  | Throw _ => []
                  end).
Proof.
  intros Hmap Hr Hs Hsync Hkeys state' before after out.
  (* the export before *)
  assert (hasPromise w wr = true) as Hhas.
  { unfold hasPromise, resolvedFilter in *. now destruct (filterPromise (wrapperObjs w wr)). }
  assert (forall w', onlyFilterStates w w' ->
            getFilterModel w'
            = (fst (getFilterModel w'),
               Normal (match reportedBy w' f with Some m => [(k, m)] | None => [] end))) as Hexp.
  { intros w' Hfr. apply pair_of_snd. rewrite getFilterModel_reading. cbn [snd].
    assert (allColumnFilters w' = [(k, wr)]) as -> by (destruct Hfr as [-> _]; exact Hmap).
    cbn [forallb snd]. unfold hasPromise in *.
    rewrite (onlyFilterStates_wrapperObjs w w' Hfr), Hhas. cbn [andb exportEntries snd fst].
    rewrite (exportedModel_reportedBy w' wr f)
      by (now rewrite (onlyFilterStates_resolvedFilter w w')).
    now destruct (reportedBy w' f). }
  assert (forall exported : option value,
            getProperty (match exported with Some m => [(k, m)] | None => [] end) k
            = exportedValue exported) as Hget.
  { intros [m|]; cbn; [now rewrite String.eqb_refl | reflexivity]. }
  destruct (getFilterModel_frame w) as [Hf0 Hr0].
  pose proof (Hexp w (onlyFilterStates_refl w)) as E0.
  set (w0 := fst (getFilterModel w)) in *.
  set (prev := match reportedBy w f with Some m => [(k, m)] | None => [] end) in *.
  assert (filterObjs w0 = filterObjs w) as Hfo0.
  { subst w0. now rewrite getFilterModel_reading. }
  assert (allColumnFilters w0 = [(k, wr)]) as Hmap0
    by (destruct Hf0 as [-> _]; exact Hmap).
  (* the only wrapper takes its part of the model *)
  destruct (setModelOnFilterWrapper_sync grid wr f (getProperty model k) w0 setModel_)
    as (w1 & E1 & Hn1 & Ha1 & Hfo1 & Hfr1).
  { now rewrite (onlyFilterStates_resolvedFilter w w0). }
  { now rewrite Hfo0. }
  { now rewrite Hfo0. }
  rewrite Hfo0 in Hfo1. cbv zeta in Hfo1. fold state' in Hfo1.
  assert (onlyFilterStates w0 w1) as Hf01.
  { split.
    - assert (allPromises w1 = allPromises w0) as H1 by (now rewrite Hfr1).
      assert (console w1 = console w0) as H2 by (now rewrite Hfr1).
      rewrite H1, H2. rewrite Hfr1 at 1. now destruct w0.
    - intros g. rewrite Hfo1, Hfo0. destruct (Nat.eq_dec g f) as [->|Hne].
      + rewrite upd_same. unfold methodsOf. cbn. reflexivity.
      + now rewrite upd_other by exact Hne. }
  (* the join resolves at once *)
  destruct (AgPromise_all_join grid [nextRef w0] w1)
    as (w2 & E2 & Hall & _ & _ & _ & _ & Hfr2).
  assert (pendingApplies w1 [nextRef w0] = []) as Hpend.
  { apply pendingApplies_resolved. intros a [<-|[]]. now rewrite Ha1, upd_same. }
  rewrite Hpend in Hall. cbn in Hall.
  assert (filterObjs w2 = filterObjs w1) as Hfo12
    by (unfold onlyPromises in Hfr2; now rewrite Hfr2).
  apply onlyPromises_onlyFilterStates in Hfr2 as [Hf12 Hr12].
  assert (onlyFilterStates w w2) as Hfw2.
  { apply (onlyFilterStates_trans w w0 w2); [exact Hf0|].
    now apply (onlyFilterStates_trans w0 w1 w2). }
  assert (filterObjs w2 f
          = (let fo := filterObjs w f in
             mkFilter state' (IFilter.isFilterActive fo) (IFilter.doesFilterPass fo)
               (IFilter.getModel fo) (IFilter.setModel fo) (IFilter.onAnyFilterChanged fo)
               (IFilter.onNewRowsLoaded fo) (IFilter.getGui fo))) as Hfo2.
  { rewrite Hfo12, Hfo1. apply upd_same. }
  assert (reportedBy w2 f = reported (filterObjs w f) state') as Hrep2.
  { unfold reportedBy. rewrite Hfo2. reflexivity. }
  assert (out = setFilterModel_done grid prev w2) as ->.
  { subst out. unfold setFilterModel. unfold bind at 1. rewrite E0.
    unfold bind at 1, gets at 1. rewrite Hmap0.
    unfold bind at 1. unfold bind at 1. cbn [pushEach]. unfold bind at 1. unfold bind at 1.
    unfold setFilterModel_existing at 1. rewrite E1. unfold ret at 1. unfold ret at 1.
    cbn [app map fst fold_left].
    rewrite set_delete_only
      by (intros key Hin; apply Hkeys; unfold Object_keys in Hin; now apply nodup_In in Hin).
    cbn [pushEach]. unfold ret at 1.
    unfold bind at 1. rewrite E2.
    unfold allPromise_then. unfold bind at 1, gets at 1. now rewrite Hall. }
  (* the comparison *)
  pose proof (Hexp w2 Hfw2) as E3. rewrite Hrep2 in E3.
  destruct (getFilterModel_frame w2) as [Hf23 _].
  set (w3 := fst (getFilterModel w2)) in *.
  assert (onlyFilterStates w w3) as Hfw3 by (now apply (onlyFilterStates_trans w w2 w3)).
  assert (setFilterModel_done grid prev w2
          = if jsonEquals before after then (w3, Normal tt)
            else onFilterChanged grid None None (Some [column (wrapperObjs w wr)]) w3) as ->.
  { unfold setFilterModel_done. unfold bind at 1. rewrite E3.
    unfold bind at 1, gets at 1. unfold changedColumns.
    assert (allColumnFilters w3 = [(k, wr)]) as -> by (destruct Hfw3 as [-> _]; exact Hmap).
    cbn [List.filter fst snd]. rewrite !Hget. fold before. fold after.
    rewrite (onlyFilterStates_wrapperObjs w w3 Hfw3).
    replace (getProperty prev k) with before by (subst prev before; symmetry; apply Hget).
    now destruct (jsonEquals before after). }
  assert (events w3 = events w) as Hev3 by (destruct Hfw3 as [-> _]; reflexivity).
  assert (allColumnFilters w3 = allColumnFilters w) as Hcf3
    by (destruct Hfw3 as [-> _]; reflexivity).
  exists w3. split.
  { assert (filterObjs w3 = filterObjs w2) as ->
      by (subst w3; now rewrite getFilterModel_reading).
    now rewrite Hfo2. }
  split; [exact Hfw3|]. split; [exact Hev3|]. split; [exact Hcf3|].
  split; [reflexivity|].
  intros ->.
  destruct (onFilterChanged_emitsOnce grid None None (Some [column (wrapperObjs w wr)]) w3)
    as (delta & Hd & Hev).
  exists delta. split; [exact Hd|]. now rewrite Hev, Hev3.
Qed.
End SingleWrapper.

(** ** When filter-opened is dispatched *)

Section FilterOpened.

Variable grid : Grid.

(** X22. When [filter-opened] is dispatched by a request for the wrapper of
    a column that allows filtering.  The gui of an instance can be put into
    the element of the filter when [getGui] gives a node, or a template
    string that [loadTemplate] turns into one.  A request that creates the
    wrapper, with an instance that is ready, asks for the gui also for the
    source [NO_UI]: it logs the warning for a gui that does not exist, and
    when the gui can be put in it stores the wrapper and dispatches
    [filter-opened] with the source of the request; otherwise it throws a
    TypeError, dispatches nothing and leaves the map of wrappers as it was.
    A request that finds the wrapper (with its instance resolved) changes
    nothing at all for the source [NO_UI]; for any other source it asks for
    the gui again and dispatches [filter-opened] for the column of the
    wrapper, or throws in the same way. *)
Theorem filter_opened_on_request (col : ref) (source : FilterRequestSource) (w : World) :
  filterAllowed (columnObjs w col) = true ->
  let out := getOrCreateFilterWrapper grid col source w in
  match map_get (allColumnFilters w) (colId (columnObjs w col)) with
  | None =>
      forall details instance,
        createFilterInstance grid (columnObjs w col) = Some details ->
        newAgStackInstance details = InstanceReady instance ->
        console (fst out) = console w ++ guiWarning instance
        /\ if mounts grid instance
           then snd out = Normal (Some (nextRef w))
                /\ events (fst out) = events w ++ [EVENT_FILTER_OPENED col source]
                /\ allColumnFilters (fst out)
                   = map_set (allColumnFilters w) (colId (columnObjs w col)) (nextRef w)
           else snd out = Throw (guiError instance)
                /\ events (fst out) = events w
                /\ allColumnFilters (fst out) = allColumnFilters w
  | Some wrapper =>
      forall f,
        resolvedFilter w wrapper = Some f ->
        (source = NO_UI -> out = (w, Normal (Some wrapper)))
        /\ (source <> NO_UI ->
            console (fst out) = console w ++ guiWarning (filterObjs w f)
            /\ allColumnFilters (fst out) = allColumnFilters w
            /\ if mounts grid (filterObjs w f)
               then snd out = Normal (Some wrapper)
                    /\ events (fst out)
                       = events w
                         ++ [EVENT_FILTER_OPENED (column (wrapperObjs w wrapper)) source]
               else snd out = Throw (guiError (filterObjs w f))
                    /\ events (fst out) = events w)
  end
  /\ (forall instance,
        mounts grid instance = true
        <-> exists getGui_,
              IFilter.getGui instance = Some getGui_
              /\ (getGui_ (IFilter.filterState instance) = GuiElement
                  \/ exists template,
                       getGui_ (IFilter.filterState instance) = GuiValue (VString template)
                       /\ loadTemplate (host grid) template = GuiElement))
  /\ (forall instance,
        guiWarning instance <> []
        <-> exists getGui_,
              IFilter.getGui instance = Some getGui_
              /\ In (getGui_ (IFilter.filterState instance))
                   [GuiValue VUndefined; GuiValue VNull; GuiValue (VString "")]).
Proof.
  intros Ha out. split; [|split].
  - destruct (map_get (allColumnFilters w) (colId (columnObjs w col))) as [wrapper|] eqn:Hm.
    + intros f Hr.
      assert (hasPromise w wrapper = true) as Hhas.
      { unfold hasPromise, resolvedFilter in *.
        now destruct (filterPromise (wrapperObjs w wrapper)). }
      destruct (getOrCreateFilterWrapper_cached grid col wrapper source w Ha Hm Hhas)
        as (w1 & E & Hcf & _ & _ & _ & _ & _ & _ & _ & Hc & He).
      fold out in E. unfold guiOutcome, guiLog, guiOpened in *. rewrite Hr in *.
      split.
      * intros ->. subst out. unfold getOrCreateFilterWrapper, cachedFilter, bind, gets.
        rewrite Ha. cbn [negb]. now rewrite Hm.
      * intros Hs. assert (isNoUi source = false) as Hno by (now destruct source).
        rewrite Hno in *. rewrite E. cbn [fst snd].
        split; [exact Hc|]. split; [exact Hcf|].
        destruct (mounts grid (filterObjs w f)); rewrite ?app_nil_r in He; now split.
    + intros details instance Hd Hi.
      destruct (getOrCreateFilterWrapper_fresh grid col source w details instance Ha Hm Hd Hi)
        as (w1 & E & _ & _ & _ & Hcf & _ & _ & He & Hc & _).
      fold out in E. rewrite E. cbn [fst snd]. split; [exact Hc|].
      destruct (mounts grid instance); rewrite ?app_nil_r in He; now repeat split.
  - intros instance. unfold mounts, builtGui.
    destruct (IFilter.getGui instance) as [getGui_|].
    + destruct (getGui_ (IFilter.filterState instance)) as [|v] eqn:Eg.
      * split; [intros _; exists getGui_; rewrite Eg; auto | reflexivity].
      * split.
        -- intros H. exists getGui_. split; [reflexivity|]. right.
           destruct v as [| | b | n | s | items | fields]; try discriminate.
           exists s. rewrite Eg. split; [reflexivity|].
           now destruct (loadTemplate (host grid) s).
        -- intros (g & [= <-] & [Hg | (template & Hg & Hl)]); rewrite Eg in Hg;
             [discriminate|].
           injection Hg as ->. now rewrite Hl.
    + split; [discriminate | intros (g & Hg & _); discriminate].
  - intros instance. unfold guiWarning.
    destruct (IFilter.getGui instance) as [getGui_|].
    + destruct (getGui_ (IFilter.filterState instance)) as [|v] eqn:Eg; cbn [guiExists].
      * split; [congruence|]. intros (g & [= <-] & Hin). rewrite Eg in Hin.
        cbn in Hin. intuition discriminate.
      * destruct v as [| | b | n | s | items | fields]; cbn [exists_];
          try (split; [congruence|]; intros (g & [= <-] & Hin); rewrite Eg in Hin;
               cbn in Hin; intuition discriminate);
          try (split; [intros _; exists getGui_; rewrite Eg; cbn; auto | discriminate]).
        destruct s as [|ch s]; cbn.
        -- split; [intros _; exists getGui_; rewrite Eg; cbn; auto | discriminate].
        -- split; [congruence|]. intros (g & [= <-] & Hin). rewrite Eg in Hin.
           cbn in Hin. intuition discriminate.
    + split; [congruence | intros (g & Hg & _); discriminate].
Qed.

End FilterOpened.

(** ** Starting the manager *)

Section Initialisation.

Variable grid : Grid.

(** X23. [init] dispatches no event and makes no wrapper.  With a quick
    filter text that is a string, null or undefined it completes: the quick
    filter is the parsed text with its parts in step, and the three cached
    options hold the grid's values.  With any other text on a client-side
    grid [init] throws a TypeError (the text has no [toUpperCase]), where
    [setQuickFilter] with the same input completes and leaves the quick
    filter as it is. *)
Theorem init_state (w : World) :
  let text := quickFilterText grid in
  let out := init grid w in
  events (fst out) = events w
  /\ allColumnFilters (fst out) = allColumnFilters w
  /\ (isNonStringInput text = false ->
      snd out = Normal tt
      /\ quickFilter (fst out)
         = match text with VString t => parsedText grid t | _ => None end
      /\ partsInSync (fst out)
      /\ allowShowChangeAfterFilter (fst out) = allowShowChangeAfterFilter_option grid
      /\ externalFilterPresent (fst out)
         = match isExternalFilterPresent_callback grid with Some b => b | None => false end
      /\ aggFiltering (fst out) = groupAggFiltering grid)
  /\ (isNonStringInput text = true -> rowModelType grid = clientSide ->
      snd out = Throw TypeError_not_a_function
      /\ snd (setQuickFilter grid text w) = Normal tt
      /\ quickFilter (fst (setQuickFilter grid text w)) = quickFilter w).
Proof.
  intros text out. subst out.
  split; [|split; [|split]].
  - assert (keeps events (init grid)) as K by keeps_all. apply K.
  - assert (keeps allColumnFilters (init grid)) as K by keeps_all. apply K.
  - intros Hs.
    unfold init, parseQuickFilter, setQuickFilterParts, isExternalFilterPresentCallback,
      updateAggFiltering, partsInSync, parsedText.
    fold text.
    destruct text as [| | b | n | t | items | fields]; try discriminate;
      repeat (progress (unfold bind, gets, modify, ret, console_warn; cbn)).
    + destruct (isExternalFilterPresent_callback grid); cbn; repeat split.
    + destruct (isExternalFilterPresent_callback grid); cbn; repeat split.
    + destruct (isEmpty t) eqn:Et; cbn.
      * destruct (isExternalFilterPresent_callback grid); cbn; repeat split.
      * destruct (isClientSide (rowModelType grid)); cbn;
          destruct (isExternalFilterPresent_callback grid); cbn; repeat split;
          now rewrite isEmpty_toUpperCase, Et.
  - intros Hs Hc. unfold init, setQuickFilter, parseQuickFilter. fold text. rewrite Hs, Hc.
    destruct text as [| | b | n | t | items | fields]; try discriminate;
      cbn; repeat split.
Qed.

End Initialisation.

(** ** Columns that have gone *)

Section ColumnsGone.

Variable grid : Grid.

Lemma map_get_app_notin {A} (kept rest : list (string * A)) (k : string) :
  ~ In k (map fst kept) -> map_get (kept ++ rest) k = map_get rest k.
Proof.
  induction kept as [|[k' x] kept IH]; intros Hn; [reflexivity|].
  cbn [app map_get]. destruct (String.eqb k' k) eqn:E.
  - apply String.eqb_eq in E. elim Hn. now left.
  - apply IH. intros Hin. apply Hn. now right.
Qed.

Lemma map_delete_middle {A} (kept rest : list (string * A)) (k : string) (x : A) :
  NoDup (map fst (kept ++ (k, x) :: rest)) ->
  map_delete (kept ++ (k, x) :: rest) k = kept ++ rest.
Proof.
  induction kept as [|[k' y] kept IH]; intros Hnd.
  - cbn [app map_delete]. rewrite String.eqb_refl. apply map_delete_absent.
    cbn [app map fst] in Hnd. now apply NoDup_cons_iff in Hnd as [Hn _].
  - cbn [app map fst] in Hnd. apply NoDup_cons_iff in Hnd as [Hn Hnd].
    cbn [app map_delete]. destruct (String.eqb k' k) eqn:E.
    + apply String.eqb_eq in E. subst k'. elim Hn. rewrite map_app. apply in_or_app.
      right. now left.
    + f_equal. now apply IH.
Qed.

Lemma findColumn_same (w w' : World) (cols : list ref) (key : string) :
  (forall c, columnShape (columnObjs w' c) = columnShape (columnObjs w c)) ->
  findColumn w' cols key = findColumn w cols key.
Proof.
  intros Hs. unfold findColumn. induction cols as [|c cols IH]; [reflexivity|].
  cbn [find]. assert (colId (columnObjs w' c) = colId (columnObjs w c)) as ->.
  { pose proof (Hs c) as H. unfold columnShape in H. now injection H. }
  now rewrite IH.
Qed.

Lemma columnStillThere_same (w w' : World) (e : string * ref) :
  wrapperObjs w' = wrapperObjs w ->
  (forall c, columnShape (columnObjs w' c) = columnShape (columnObjs w c)) ->
  columnStillThere grid w' e = columnStillThere grid w e.
Proof.
  intros Hw Hs. unfold columnStillThere. rewrite Hw.
  assert (primary (columnObjs w' (column (wrapperObjs w (snd e))))
          = primary (columnObjs w (column (wrapperObjs w (snd e))))) as ->.
  { pose proof (Hs (column (wrapperObjs w (snd e)))) as H. unfold columnShape in H.
    now injection H. }
  now rewrite !(findColumn_same w w').
Qed.

Lemma onColumnsChanged_entry_gone (k : string) (wr f : ref) (w : World) :
  columnStillThere grid w (k, wr) = false ->
  resolvedFilter w wr = Some f ->
  takesNull (filterObjs w f) ->
  exists w1,
    onColumnsChanged_entry grid (k, wr) w = (w1, Normal true)
    /\ allColumnFilters w1
       = map_delete (allColumnFilters w) (colId (wrapperColumn w wr))
    /\ events w1 = events w ++ [EVENT_FILTER_DESTROYED columnChanged (column (wrapperObjs w wr))]
    /\ wrapperObjs w1 = wrapperObjs w
    /\ (forall c, columnShape (columnObjs w1 c) = columnShape (columnObjs w c))
    /\ (forall g, methodsOf (filterObjs w1 g) = methodsOf (filterObjs w g)).
Proof.
  intros Hgone Hr Ht.
  destruct (disposeFilterWrapper_step wr f columnChanged w Hr Ht)
    as (w1 & E & Hm & _ & He & _ & Hw & Hs & _ & _ & Hmeth).
  unfold columnStillThere in Hgone. cbn [fst snd] in Hgone.
  unfold onColumnsChanged_entry. unfold bind at 1, gets at 1. unfold bind at 1, gets at 1.
  unfold bind at 1, gets at 1.
  destruct (if primary (columnObjs w (column (wrapperObjs w wr)))
            then findColumn w (primaryColumns (columnModel grid)) k
            else findColumn w (gridColumns (columnModel grid)) k); [discriminate|].
  unfold bind at 1. rewrite E. unfold bind at 1, disposeColumnListener, modify at 1.
  unfold ret. eexists. split; [reflexivity|]. cbn.
  repeat match goal with |- _ /\ _ => split end; assumption.
Qed.

Lemma onColumnsChanged_loop_reading (w : World) (rest : list (string * ref)) :
  forall (kept : list (string * ref)) (w' : World) (cols : list ref),
  allColumnFilters w' = kept ++ rest ->
  NoDup (map fst (kept ++ rest)) ->
  wrapperObjs w' = wrapperObjs w ->
  (forall c, columnShape (columnObjs w' c) = columnShape (columnObjs w c)) ->
  (forall g, methodsOf (filterObjs w' g) = methodsOf (filterObjs w g)) ->
  (forall e, In e rest -> colId (wrapperColumn w (snd e)) = fst e) ->
  (forall e, In e rest -> columnStillThere grid w e = false ->
     exists f, resolvedFilter w (snd e) = Some f /\ takesNull (filterObjs w f)) ->
  exists w1,
    onColumnsChanged_loop grid rest cols w'
    = (w1, Normal (cols ++ map (fun e => column (wrapperObjs w (snd e)))
                           (goneWrappers grid w rest)))
    /\ events w1
       = events w'
         ++ map (fun e => EVENT_FILTER_DESTROYED columnChanged (column (wrapperObjs w (snd e))))
              (goneWrappers grid w rest)
    /\ allColumnFilters w1 = kept ++ keptWrappers grid w rest.
Proof.
  induction rest as [|[k wr] rest IH]; intros kept w' cols Hmap Hnd Hw Hs Hmeth Hkey Hres.
  - exists w'. unfold goneWrappers, keptWrappers. cbn [List.filter map onColumnsChanged_loop].
    rewrite !app_nil_r in *. unfold ret. now repeat split.
  - assert (~ In k (map fst kept)) as Hnotin.
    { intros Hin. rewrite map_app in Hnd. apply NoDup_app_remove_l in Hnd as Hnd'.
      clear Hnd'. revert Hnd. clear -Hin. induction kept as [|[k' y] kept IHk]; [easy|].
      cbn [map fst app]. intros Hnd. apply NoDup_cons_iff in Hnd as [Hn Hnd].
      destruct Hin as [<-|Hin].
      - apply Hn. apply in_or_app. right. now left.
      - now apply IHk. }
    assert (columnStillThere grid w' (k, wr) = columnStillThere grid w (k, wr)) as Hsame
      by (now apply columnStillThere_same).
    cbn [onColumnsChanged_loop fst snd]. unfold bind at 1, gets at 1.
    rewrite Hmap, (map_get_app_notin kept _ k Hnotin). cbn [map_get].
    rewrite String.eqb_refl, Nat.eqb_refl.
    unfold bind at 1. unfold bind at 1, gets at 1. unfold bind at 1.
    unfold goneWrappers, keptWrappers. cbn [List.filter].
    destruct (columnStillThere grid w (k, wr)) eqn:Hthere; cbn [negb].
    + rewrite (onColumnsChanged_entry_present grid (k, wr) w') by (now rewrite Hsame).
      unfold ret at 1.
      destruct (IH (kept ++ [(k, wr)]) w' cols) as (w1 & E & He & Hm).
      * now rewrite <- app_assoc.
      * now rewrite <- app_assoc.
      * exact Hw.
      * exact Hs.
      * exact Hmeth.
      * intros e Hin. apply Hkey. now right.
      * intros e Hin. apply Hres. now right.
      * exists w1. split; [exact E|]. split; [exact He|].
        rewrite Hm. now rewrite <- app_assoc.
    + destruct (Hres (k, wr) (or_introl eq_refl) Hthere) as (f & Hr & Ht). cbn [snd] in Hr.
      destruct (onColumnsChanged_entry_gone k wr f w') as (w2 & E2 & Hm2 & He2 & Hw2 & Hs2 & Hmeth2).
      { now rewrite Hsame. }
      { unfold resolvedFilter. rewrite Hw. exact Hr. }
      { apply (takesNull_methods (filterObjs w f)); [apply Hmeth | exact Ht]. }
      rewrite E2. unfold ret at 1.
      assert (colId (wrapperColumn w' wr) = k) as Hk.
      { unfold wrapperColumn. rewrite Hw.
        pose proof (Hs (column (wrapperObjs w wr))) as Hshape. unfold columnShape in Hshape.
        injection Hshape as -> _ _ _ _. apply (Hkey (k, wr)). now left. }
      destruct (IH kept w2 (cols ++ [column (wrapperObjs w' wr)])) as (w1 & E & He & Hm).
      * rewrite Hm2, Hk, Hmap. now apply map_delete_middle.
      * rewrite map_app in Hnd |- *. cbn [map fst] in Hnd.
        now apply NoDup_remove_1 in Hnd.
      * now rewrite Hw2.
      * intros c. now rewrite Hs2.
      * intros g. now rewrite Hmeth2.
      * intros e Hin. apply Hkey. now right.
      * intros e Hin. apply Hres. now right.
      * exists w1. rewrite E, Hw. split; [|split].
        -- cbn [map snd]. now rewrite <- app_assoc.
        -- rewrite He, He2, Hw. cbn [map snd]. now rewrite <- app_assoc.
        -- exact Hm.
Qed.

(** X24. [onColumnsChanged] when columns have gone.  When the map has one
    wrapper per key, each keyed by the id of its own column, and the
    wrappers of the columns that are gone have a resolved instance that
    answers [setModel(null)] at once: exactly the wrappers whose column is
    gone are disposed, in map order, each with a [filter-destroyed] event of
    source [columnChanged]; if there is any, the call ends with
    [onFilterChanged] for exactly those columns, so one filter-changed
    event naming them is the last event when it completes; if there is none
    it only refreshes the dependant filters. *)
Theorem onColumnsChanged_disposes_gone (w : World) :
  NoDup (map fst (allColumnFilters w)) ->
  (forall e, In e (allColumnFilters w) -> colId (wrapperColumn w (snd e)) = fst e) ->
  (forall e, In e (allColumnFilters w) -> columnStillThere grid w e = false ->
     exists f, resolvedFilter w (snd e) = Some f /\ takesNull (filterObjs w f)) ->
  let gone := goneWrappers grid w (allColumnFilters w) in
  let columns := map (fun e => column (wrapperObjs w (snd e))) gone in
  let destroyed := map (EVENT_FILTER_DESTROYED columnChanged) columns in
  let out := onColumnsChanged grid w in
  exists w1,
    events w1 = events w ++ destroyed
    /\ allColumnFilters w1 = keptWrappers grid w (allColumnFilters w)
    /\ out = (if isNil gone then updateDependantFilters grid w1
              else onFilterChanged grid None None (Some columns) w1)
    /\ exists delta,
         Forall (fun e => isFilterChanged e = false) delta
         /\ events (fst out)
            = events w ++ destroyed ++ delta
              ++ match snd out with
                 | Normal _ => if isNil gone then [] else [EVENT_FILTER_CHANGED columns None]
                 | Throw _ => []
                 end.
Proof.
  intros Hnd Hkey Hres gone columns destroyed out.
  destruct (onColumnsChanged_loop_reading w (allColumnFilters w) [] w [])
    as (w1 & E & He & Hm); try easy.
  cbn [app] in E, Hm. fold gone in E, He. fold columns in E.
  assert (map (fun e => EVENT_FILTER_DESTROYED columnChanged (column (wrapperObjs w (snd e))))
            gone = destroyed) as Hd by (subst destroyed columns; now rewrite map_map).
  rewrite Hd in He.
  assert (out = (if isNil gone then updateDependantFilters grid w1
                 else onFilterChanged grid None None (Some columns) w1)) as Hout.
  { subst out. unfold onColumnsChanged. unfold bind at 1, gets at 1. unfold bind at 1.
    rewrite E. subst columns. destruct gone; reflexivity. }
  exists w1. split; [exact He|]. split; [exact Hm|]. split; [exact Hout|].
  rewrite Hout. destruct (isNil gone).
  - assert (appends events (fun e => isFilterChanged e = false) (updateDependantFilters grid))
      as A by appends_all.
    destruct (A w1) as (delta & Hev & Hf). exists delta. split; [exact Hf|].
    rewrite Hev, He, <- !app_assoc. f_equal. f_equal.
    destruct (snd (updateDependantFilters grid w1)); now rewrite app_nil_r.
  - destruct (onFilterChanged_emitsOnce grid None None (Some columns) w1) as (delta & Hf & Hev).
    exists delta. split; [exact Hf|]. rewrite Hev, He, <- !app_assoc. reflexivity.
Qed.

End ColumnsGone.

(** ** What asking about a row leaves alone *)

Section ReadOnly.

Variable grid : Grid.

Lemma failsWhen_keeps {B} (f : World -> B) (condition test : M bool) :
  keeps f condition -> keeps f test -> keeps f (failsWhen condition test).
Proof.
  intros Hc Ht. unfold failsWhen. apply keeps_bind; [exact Hc|].
  intros []; [|apply keeps_ret]. apply keeps_bind; [exact Ht | intros ?; apply keeps_ret].
Qed.

Lemma doColumnFiltersPass_keeps {B} (f : World -> B) node skip agg :
  keeps f (doColumnFiltersPass node skip agg).
Proof. intros w. now rewrite doColumnFiltersPass_reading. Qed.

Lemma doesRowPassFilter_keeps {B} (f : World -> B) (node : ref) (skip : option ref) :
  (forall x w, f (set_quickFilterAggregateText x w) = f w) ->
  keeps f (doesRowPassFilter grid node skip).
Proof.
  intros Hf. unfold doesRowPassFilter.
  apply keeps_bind.
  { apply failsWhen_keeps; [keeps_all | now apply doesRowPassQuickFilter_keeps]. }
  intros []; [apply keeps_ret|]. apply keeps_bind.
  { apply failsWhen_keeps; keeps_all. }
  intros []; [apply keeps_ret|]. apply keeps_bind.
  { apply failsWhen_keeps; [keeps_all | apply doColumnFiltersPass_keeps]. }
  intros []; apply keeps_ret.
Qed.

Lemma doesRowPassAggregateFilters_keeps {B} (f : World -> B) (node : ref)
    (skip : option ref) :
  (forall x w, f (set_quickFilterAggregateText x w) = f w) ->
  keeps f (doesRowPassAggregateFilters grid node skip).
Proof.
  intros Hf. unfold doesRowPassAggregateFilters.
  apply keeps_bind.
  { apply failsWhen_keeps; [keeps_all | now apply doesRowPassQuickFilter_keeps]. }
  intros []; [apply keeps_ret|]. apply keeps_bind.
  { apply failsWhen_keeps; [keeps_all | apply doColumnFiltersPass_keeps]. }
  intros []; apply keeps_ret.
Qed.

(** X25. Asking whether a row passes changes nothing but the quick-filter
    text cached on rows: [doesRowPassFilter], [doesRowPassAggregateFilters]
    and [doesRowPassOtherFilters] dispatch no event, log nothing, and leave
    wrappers, instances, columns, active sets and the quick filter alone,
    whether they answer or throw. *)
Theorem row_checks_read_only (node : ref) (skip : option ref) (filter : ref) (w : World) :
  let unchanged (w1 : World) :=
    events w1 = events w /\ console w1 = console w
    /\ allColumnFilters w1 = allColumnFilters w /\ wrapperObjs w1 = wrapperObjs w
    /\ filterObjs w1 = filterObjs w /\ columnObjs w1 = columnObjs w
    /\ activeColumnFilters w1 = activeColumnFilters w
    /\ activeAggregateFilters w1 = activeAggregateFilters w
    /\ quickFilter w1 = quickFilter w /\ quickFilterParts w1 = quickFilterParts w
    /\ nextRef w1 = nextRef w in
  unchanged (fst (doesRowPassFilter grid node skip w))
  /\ unchanged (fst (doesRowPassAggregateFilters grid node skip w))
  /\ unchanged (fst (doesRowPassOtherFilters grid filter node w)).
Proof.
  intros unchanged.
  assert (forall c : M bool,
            (forall B (f : World -> B),
               (forall x w, f (set_quickFilterAggregateText x w) = f w) -> keeps f c) ->
            unchanged (fst (c w))) as U.
  { intros c K. subst unchanged. cbv beta.
    repeat match goal with |- _ /\ _ => split end;
      match goal with |- ?f _ = _ => apply (K _ f); reflexivity end. }
  split; [|split]; apply U; intros B f Hf.
  - now apply doesRowPassFilter_keeps.
  - now apply doesRowPassAggregateFilters_keeps.
  - unfold doesRowPassOtherFilters. now apply doesRowPassFilter_keeps.
Qed.

End ReadOnly.

(* ===================================================================== *)
(** * The claims on the sample grid *)
(* ===================================================================== *)

Lemma quick_filter_off_client_side_witness :
  rowModelType (Sample.grid serverSide true) <> clientSide
  /\ quickFilter (fst (setQuickFilter (Sample.grid serverSide true) (VString "jo smi")
                         Sample.world)) = None.
Proof.
  assert (rowModelType (Sample.grid serverSide true) <> clientSide) as H by discriminate.
  split; [exact H|].
  exact (proj1 (proj2 (quick_filter_off_client_side (Sample.grid serverSide true)
                         "jo smi" Sample.world 0 None H))).
Defined.

Lemma quick_filter_parts_conjunction_witness :
  partsInSync (Sample.started true)
  /\ rowModelType (Sample.grid clientSide true) = clientSide
  /\ "jo smi" <> ""
  /\ quickFilterParts
       (fst (setQuickFilter (Sample.grid clientSide true) (VString "jo smi")
               (Sample.started true)))
     = Some ["JO"; "SMI"].
Proof.
  assert (partsInSync (Sample.started true)) as H1 by reflexivity.
  assert (rowModelType (Sample.grid clientSide true) = clientSide) as H2 by reflexivity.
  assert ("jo smi" <> "") as H3 by discriminate.
  repeat (split; [assumption|]).
  exact (proj1 (quick_filter_parts_conjunction (Sample.grid clientSide true) "jo smi"
                  (Sample.started true) 0 [] H1 H2 H3)).
Defined.

(** The parts are not the whitespace-split tokens: a tab does not separate,
    so the text jo<TAB>smi has the single part JO<TAB>SMI, which the row
    JOHN / SMITH does not contain, although it contains both tokens. *)
Lemma parts_are_not_whitespace_tokens :
  let g := Sample.grid clientSide true in
  let t := ("jo" ++ Sample.tab ++ "smi")%string in
  let w1 := fst (setQuickFilter g (VString t) (Sample.started true)) in
  quickFilterParts w1 <> Some (whitespaceTokens (toUpperCase g t))
  /\ whitespaceTokens (toUpperCase g t) = ["JO"; "SMI"]
  /\ quickFilterParts w1 = Some [("JO" ++ Sample.tab ++ "SMI")%string]
  /\ forallb (partMatches g w1 0) (whitespaceTokens (toUpperCase g t)) = true
  /\ snd (doesRowPassQuickFilter g 0 w1) = Normal false.
Proof.
  cbv zeta. split; [|repeat split]; vm_compute; congruence.
Qed.

(** Two spaces in a row give an empty part, which is no token. *)
Lemma double_space_gives_empty_part :
  quickFilterParts
    (fst (setQuickFilter (Sample.grid clientSide true) (VString "jo  smi")
            (Sample.started true)))
  = Some ["JO"; ""; "SMI"]
  /\ whitespaceTokens (toUpperCase (Sample.grid clientSide true) "jo  smi") = ["JO"; "SMI"].
Proof. split; reflexivity. Qed.

Lemma aggregate_text_joins_column_texts_witness :
  contains_char (ascii_of_nat 10) "SMI" = false
  /\ "SMI" <> ""
  /\ joinedParts (Sample.grid clientSide true) Sample.world 0 = ["JOHN"; "SMITH"]
  /\ includes (join QUICK_FILTER_SEPARATOR
                 (joinedParts (Sample.grid clientSide true) Sample.world 0)) "SMI"
     = existsb (fun text => includes text "SMI")
         (joinedParts (Sample.grid clientSide true) Sample.world 0).
Proof.
  assert (contains_char (ascii_of_nat 10) "SMI" = false) as H1 by reflexivity.
  assert ("SMI" <> "") as H2 by discriminate.
  split; [exact H1|]. split; [exact H2|]. split; [reflexivity|].
  exact (proj2 (proj2 (proj2 (proj2
    (aggregate_text_joins_column_texts (Sample.grid clientSide true) 0 Sample.world "SMI"))))
    H1 H2).
Defined.

(** The three stages on the screened grid: the quick filter text o, the
    external filter for the Smiths, and two column filters (ages above 10,
    instance 11, and above 20, instance 14).  John Smith, 15, fails the
    second column filter and passes once that instance is excluded; Jane
    Doe passes the quick filter and is rejected by the external filter. *)
Lemma doesRowPassFilter_three_stages_witness :
  snd (doesRowPassFilter Scenario.screenedGrid 0 None Scenario.screened) = Normal false
  /\ snd (doesRowPassFilter Scenario.screenedGrid 0 (Some 14) Scenario.screened) = Normal true
  /\ snd (doesRowPassFilter Scenario.screenedGrid 1 (Some 14) Scenario.screened) = Normal false
  /\ snd (doesRowPassQuickFilter Scenario.screenedGrid 1 Scenario.screened) = Normal true
  /\ doesExternalFilterPass Scenario.screenedGrid 1 Scenario.screened
     = (Scenario.screened, Normal false)
  /\ Forall (fun f => filterAnswer Scenario.screened 0 false f = Some true)
       (consulted (Some 14) (activeColumnFilters Scenario.screened)).
Proof.
  pose proof (doesRowPassFilter_three_stages Scenario.screenedGrid 0 None Scenario.screened)
    as T1.
  pose proof (doesRowPassFilter_three_stages Scenario.screenedGrid 0 (Some 14)
                Scenario.screened) as T2.
  pose proof (doesRowPassFilter_three_stages Scenario.screenedGrid 1 (Some 14)
                Scenario.screened) as T3.
  cbv zeta in T1, T2, T3.
  destruct T1 as [V1 _]. destruct T2 as [V2 [_ [_ [I2 _]]]]. destruct T3 as [V3 [X3 _]].
  assert (snd (doesRowPassFilter Scenario.screenedGrid 0 (Some 14) Scenario.screened)
          = Normal true) as H2.
  { rewrite V2. vm_compute. reflexivity. }
  split; [rewrite V1; vm_compute; reflexivity|].
  split; [exact H2|].
  split; [rewrite V3; vm_compute; reflexivity|].
  split; [vm_compute; reflexivity|].
  split; [rewrite X3; vm_compute; reflexivity|].
  exact (proj2 (proj2 (proj1 I2 H2))).
Defined.

(** Case-insensitive matching on a host that knows the accented letters:
    the word cafe with its accent, in small letters and in capitals, is
    found in the row that has it in capitals and in the row that has it in
    small letters. *)
Lemma quick_filter_case_insensitive_witness :
  toUpperCase Scenario.latinGrid (toUpperCase Scenario.latinGrid Sample.cafe)
  = toUpperCase Scenario.latinGrid Sample.cafe
  /\ toUpperCase Scenario.latinGrid Sample.CAFE = toUpperCase Scenario.latinGrid Sample.cafe
  /\ partsInSync Scenario.latinStarted
  /\ rowModelType Scenario.latinGrid = clientSide
  /\ Sample.cafe <> ""
  /\ Sample.CAFE <> Sample.cafe
  /\ quickFilter (fst (setQuickFilter Scenario.latinGrid (VString Sample.cafe)
                         Scenario.latinStarted))
     = Some Sample.CAFE
  /\ snd (doesRowPassQuickFilter Scenario.latinGrid 0
            (fst (setQuickFilter Scenario.latinGrid (VString Sample.cafe)
                    Scenario.latinStarted)))
     = Normal true
  /\ snd (doesRowPassQuickFilter Scenario.latinGrid 1
            (fst (setQuickFilter Scenario.latinGrid (VString Sample.cafe)
                    Scenario.latinStarted)))
     = Normal true
  /\ setQuickFilter Scenario.latinGrid (VString Sample.CAFE) Scenario.latinStarted
     = setQuickFilter Scenario.latinGrid (VString Sample.cafe) Scenario.latinStarted
  /\ doesRowPassFilter Scenario.latinGrid 0 None
       (fst (setQuickFilter Scenario.latinGrid (VString Sample.CAFE) Scenario.latinStarted))
     = doesRowPassFilter Scenario.latinGrid 0 None
         (fst (setQuickFilter Scenario.latinGrid (VString Sample.cafe)
                 Scenario.latinStarted)).
Proof.
  assert (toUpperCase Scenario.latinGrid (toUpperCase Scenario.latinGrid Sample.cafe)
          = toUpperCase Scenario.latinGrid Sample.cafe) as H1 by reflexivity.
  assert (toUpperCase Scenario.latinGrid Sample.CAFE
          = toUpperCase Scenario.latinGrid Sample.cafe) as H2 by reflexivity.
  assert (partsInSync Scenario.latinStarted) as H3 by reflexivity.
  assert (rowModelType Scenario.latinGrid = clientSide) as H4 by reflexivity.
  assert (Sample.cafe <> "") as H5 by discriminate.
  pose proof (quick_filter_case_insensitive Scenario.latinGrid Sample.cafe Sample.CAFE
                Scenario.latinStarted 0 None) as T.
  pose proof (quick_filter_case_insensitive Scenario.latinGrid Sample.cafe Sample.CAFE
                Scenario.latinStarted 1 None) as T'.
  cbv zeta in T, T'. destruct T as (T1 & _ & T2 & T3 & T4). destruct T' as (_ & _ & T2' & _).
  split; [exact H1|]. split; [exact H2|]. split; [exact H3|]. split; [exact H4|].
  split; [exact H5|]. split; [discriminate|].
  split; [exact T1|].
  split; [rewrite (proj1 (T2 H3 H4 H5)); vm_compute; reflexivity|].
  split; [rewrite (proj1 (T2' H3 H4 H5)); vm_compute; reflexivity|].
  split; [exact (proj1 (T4 H1))|].
  exact (proj2 (proj2 (T3 H2))).
Defined.

(** The end-to-end properties of the specification. *)
Example age_filter_end_to_end :
  snd (doesRowPassFilter (Sample.grid clientSide true) 1 None (Sample.filtered true))
  = Normal false
  /\ snd (doesRowPassFilter (Sample.grid clientSide true) 0 None (Sample.filtered true))
     = Normal true.
Proof. split; reflexivity. Qed.

Example quick_filter_end_to_end :
  let g := Sample.grid clientSide true in
  let w := fst (setQuickFilter g (VString "jo smi") (Sample.started true)) in
  snd (doesRowPassFilter g 0 None w) = Normal true
  /\ quickFilterAggregateText (fst (doesRowPassFilter g 0 None w)) 0
     = Some ("JOHN" ++ QUICK_FILTER_SEPARATOR ++ "SMITH")%string
  /\ snd (doesRowPassFilter g 1 None w) = Normal false.
Proof. repeat split. Qed.

Lemma wrapper_lifecycle_witness :
  getOrCreateFilterWrapper Scenario.grid 2 NO_UI (Sample.started true)
  = (Sample.requested, Normal (Some 10))
  /\ resolvedFilter Sample.requested 10 = Some 11
  /\ column (wrapperObjs Sample.requested 10) = 2
  /\ mounts Scenario.grid (filterObjs Sample.requested 11) = true
  /\ IFilter.setModel (filterObjs Sample.requested 11) = Some Sample.storeModel
  /\ snd (Sample.storeModel VNull (IFilter.filterState (filterObjs Sample.requested 11)))
     <> ReturnsPending
  /\ 10 < nextRef Sample.requested
  /\ 11 < nextRef Sample.requested
  /\ createFilterInstance Scenario.grid (columnObjs Sample.requested 2)
     = Some (mkCompDetails "agNumberColumnFilter" (InstanceReady (Sample.numberFilter VNull)))
  /\ mounts Scenario.grid (Sample.numberFilter VNull) = true
  /\ exists (w2 w3 w4 : World) (wrapper' f' : ref),
       getOrCreateFilterWrapper Scenario.grid 2 TOOLBAR Sample.requested
       = (w2, Normal (Some 10))
       /\ allColumnFilters w2 = allColumnFilters Sample.requested
       /\ disposeFilterWrapper 10 api w2 = (w3, Normal tt)
       /\ map_get (allColumnFilters w3) (colId (columnObjs w3 2)) = None
       /\ events w3 = events w2 ++ [EVENT_FILTER_DESTROYED api 2]
       /\ getOrCreateFilterWrapper Scenario.grid 2 COLUMN_MENU w3
          = (w4, Normal (Some wrapper'))
       /\ wrapper' <> 10
       /\ resolvedFilter w4 wrapper' = Some f'
       /\ f' <> 11.
Proof.
  assert (getOrCreateFilterWrapper Scenario.grid 2 NO_UI (Sample.started true)
          = (Sample.requested, Normal (Some 10))) as H1.
  { apply pair_of_snd. vm_compute. reflexivity. }
  assert (resolvedFilter Sample.requested 10 = Some 11) as H2 by (vm_compute; reflexivity).
  assert (column (wrapperObjs Sample.requested 10) = 2) as H3 by (vm_compute; reflexivity).
  assert (mounts Scenario.grid (filterObjs Sample.requested 11) = true) as Hg
    by (vm_compute; reflexivity).
  assert (IFilter.setModel (filterObjs Sample.requested 11) = Some Sample.storeModel)
    as H4 by (vm_compute; reflexivity).
  assert (snd (Sample.storeModel VNull
                 (IFilter.filterState (filterObjs Sample.requested 11)))
          <> ReturnsPending) as H5 by discriminate.
  assert (10 < nextRef Sample.requested) as H6 by (vm_compute; lia).
  assert (11 < nextRef Sample.requested) as H7 by (vm_compute; lia).
  assert (createFilterInstance Scenario.grid (columnObjs Sample.requested 2)
          = Some (mkCompDetails "agNumberColumnFilter"
                    (InstanceReady (Sample.numberFilter VNull)))) as H8
    by (vm_compute; reflexivity).
  assert (mounts Scenario.grid (Sample.numberFilter VNull) = true) as Hg'
    by reflexivity.
  split; [exact H1|]. split; [exact H2|]. split; [exact H3|]. split; [exact Hg|].
  split; [exact H4|]. split; [exact H5|]. split; [exact H6|]. split; [exact H7|].
  split; [exact H8|]. split; [exact Hg'|].
  destruct (wrapper_lifecycle Scenario.grid 2 10 11 NO_UI TOOLBAR COLUMN_MENU
              api (Sample.started true) Sample.requested Sample.storeModel _ _
              H1 H2 H3 Hg H4 H5 H6 H7 H8 eq_refl Hg')
    as (w2 & w3 & w4 & wrapper' & f' & E2 & Hm2 & _ & _ & _ & E3 & _ & Hm3 & _ & He3 & _
        & E4 & Hne & Hr4 & Hnf & _).
  exists w2, w3, w4, wrapper', f'.
  split; [exact E2|]. split; [exact Hm2|]. split; [exact E3|]. split; [exact Hm3|].
  split; [exact He3|]. split; [exact E4|]. split; [exact Hne|]. split; [exact Hr4|].
  exact Hnf.
Defined.

(* ===================================================================== *)
(** * The further properties on the sample grid *)
(* ===================================================================== *)

Lemma numberFilter_roundTrips (model : value) : roundTrips (Sample.numberFilter model).
Proof.
  exists Sample.storeModel. split; [reflexivity|]. intros state.
  unfold reported, Sample.numberFilter, Sample.storeModel. cbn.
  destruct (exists_ state) eqn:E; cbn; rewrite ?E; cbn; split; try discriminate; reflexivity.
Qed.

Lemma numberFilter_takesNull (model : value) : takesNull (Sample.numberFilter model).
Proof.
  exists Sample.storeModel. split; [reflexivity|]. intros state. discriminate.
Qed.

Lemma filtered_instance :
  filterObjs Scenario.filtered 11 = Sample.numberFilter Sample.ageModel.
Proof. vm_compute. reflexivity. Qed.

Lemma setFilterModel_missing_setModel_witness :
  allColumnFilters Scenario.readOnly = [("age", 10)]
  /\ forallb (fun e => hasPromise Scenario.readOnly (snd e)) (allColumnFilters Scenario.readOnly)
     = true
  /\ resolvedFilter Scenario.readOnly 10 = Some 11
  /\ IFilter.setModel (filterObjs Scenario.readOnly 11) = None
  /\ snd (setFilterModel Scenario.grid (Some [("age", Sample.ageModel)]) Scenario.readOnly)
     = Throw "TypeError: filter.setModel is not a function".
Proof.
  assert (allColumnFilters Scenario.readOnly = [("age", 10)]) as H1
    by (vm_compute; reflexivity).
  assert (forallb (fun e => hasPromise Scenario.readOnly (snd e))
            (allColumnFilters Scenario.readOnly) = true) as H2 by (vm_compute; reflexivity).
  assert (resolvedFilter Scenario.readOnly 10 = Some 11) as H3 by (vm_compute; reflexivity).
  assert (IFilter.setModel (filterObjs Scenario.readOnly 11) = None) as H4
    by (vm_compute; reflexivity).
  split; [exact H1|]. split; [exact H2|]. split; [exact H3|]. split; [exact H4|].
  exact (proj1 (setFilterModel_missing_setModel Scenario.grid
                  (Some [("age", Sample.ageModel)]) "age" 10 11 [] Scenario.readOnly
                  H1 H2 H3 H4)).
Defined.

Lemma updateFilterFlagInColumns_flags_witness :
  forallb (fun e => hasPromise Scenario.filtered (snd e)) (allColumnFilters Scenario.filtered)
  = true
  /\ exists w1,
       updateFilterFlagInColumns Scenario.filtered = (w1, Normal tt)
       /\ filterActive (columnObjs w1 2) = true.
Proof.
  assert (forallb (fun e => hasPromise Scenario.filtered (snd e))
            (allColumnFilters Scenario.filtered) = true) as H by (vm_compute; reflexivity).
  split; [exact H|].
  destruct (updateFilterFlagInColumns_flags Scenario.filtered H)
    as (w1 & E & _ & _ & _ & Hflag).
  assert (forallb (fun e => answersIsFilterActive Scenario.filtered (snd e))
            (allColumnFilters Scenario.filtered) = true) as Hall by (vm_compute; reflexivity).
  rewrite Hall in E. exists w1. split; [exact E|].
  assert (allColumnFilters Scenario.filtered = [] ++ ("age", 10) :: []) as Hsplit
    by (vm_compute; reflexivity).
  specialize (Hflag Hall [] ("age", 10) [] Hsplit (fun e' (H' : In e' []) => False_ind _ H')).
  assert (column (wrapperObjs Scenario.filtered 10) = 2) as Hc by (vm_compute; reflexivity).
  assert (isActive Scenario.filtered 10 = true) as Hi by (vm_compute; reflexivity).
  cbn [snd] in Hflag. rewrite Hc, Hi in Hflag. exact Hflag.
Defined.

Lemma filtered_entries (e : string * ref) :
  In e (allColumnFilters Scenario.filtered) -> e = ("age", 10).
Proof.
  assert (allColumnFilters Scenario.filtered = [("age", 10)]) as -> by (vm_compute; reflexivity).
  intros [<-|[]]. reflexivity.
Qed.

Lemma filtered_keys : NoDup (map fst (allColumnFilters Scenario.filtered)).
Proof.
  assert (allColumnFilters Scenario.filtered = [("age", 10)]) as -> by (vm_compute; reflexivity).
  repeat constructor. intros [].
Qed.

Lemma setFilterModel_round_trip_witness :
  getFilterModel Scenario.filtered
  = (fst (getFilterModel Scenario.filtered), Normal [("age", Sample.ageModel)])
  /\ NoDup (map fst (allColumnFilters Scenario.filtered))
  /\ (forall e, In e (allColumnFilters Scenario.filtered) ->
        exists f, resolvedFilter Scenario.filtered (snd e) = Some f
                  /\ roundTrips (filterObjs Scenario.filtered f))
  /\ exists wb,
       setFilterModel Scenario.grid (Some [("age", Sample.ageModel)])
         (fst (getFilterModel Scenario.filtered))
       = (wb, Normal tt)
       /\ events wb = events Scenario.filtered.
Proof.
  assert (getFilterModel Scenario.filtered
          = (fst (getFilterModel Scenario.filtered), Normal [("age", Sample.ageModel)])) as H1.
  { apply pair_of_snd. vm_compute. reflexivity. }
  pose proof filtered_keys as H2.
  assert (forall e, In e (allColumnFilters Scenario.filtered) ->
            exists f, resolvedFilter Scenario.filtered (snd e) = Some f
                      /\ roundTrips (filterObjs Scenario.filtered f)) as H3.
  { intros e He. rewrite (filtered_entries e He). exists 11. split.
    - vm_compute. reflexivity.
    - rewrite filtered_instance. apply numberFilter_roundTrips. }
  split; [exact H1|]. split; [exact H2|]. split; [exact H3|].
  destruct (setFilterModel_round_trip Scenario.grid Scenario.filtered _ _ H1 H2 H3)
    as (wb & E & He & _).
  exists wb. split; assumption.
Defined.

Lemma onColumnsChanged_nothing_gone_witness :
  (forall e, In e (allColumnFilters Scenario.filtered) ->
     columnStillThere Scenario.grid Scenario.filtered e = true)
  /\ onColumnsChanged Scenario.grid Scenario.filtered
     = updateDependantFilters Scenario.grid Scenario.filtered.
Proof.
  assert (forall e, In e (allColumnFilters Scenario.filtered) ->
            columnStillThere Scenario.grid Scenario.filtered e = true) as H.
  { intros e He. rewrite (filtered_entries e He). vm_compute. reflexivity. }
  split; [exact H|].
  exact (proj1 (onColumnsChanged_nothing_gone Scenario.grid Scenario.filtered H)).
Defined.

Lemma destroy_disposes_all_witness :
  NoDup (map fst (allColumnFilters Scenario.filtered))
  /\ (forall e, In e (allColumnFilters Scenario.filtered) ->
        colId (wrapperColumn Scenario.filtered (snd e)) = fst e)
  /\ (forall e, In e (allColumnFilters Scenario.filtered) ->
        exists f, resolvedFilter Scenario.filtered (snd e) = Some f
                  /\ takesNull (filterObjs Scenario.filtered f))
  /\ exists w1,
       destroy Scenario.filtered = (w1, Normal tt)
       /\ allColumnFilters w1 = []
       /\ In 11 (destroyedBeans w1).
Proof.
  pose proof filtered_keys as H1.
  assert (forall e, In e (allColumnFilters Scenario.filtered) ->
            colId (wrapperColumn Scenario.filtered (snd e)) = fst e) as H2.
  { intros e He. rewrite (filtered_entries e He). vm_compute. reflexivity. }
  assert (forall e, In e (allColumnFilters Scenario.filtered) ->
            exists f, resolvedFilter Scenario.filtered (snd e) = Some f
                      /\ takesNull (filterObjs Scenario.filtered f)) as H3.
  { intros e He. rewrite (filtered_entries e He). exists 11. split.
    - vm_compute. reflexivity.
    - rewrite filtered_instance. apply numberFilter_takesNull. }
  split; [exact H1|]. split; [exact H2|]. split; [exact H3|].
  destruct (destroy_disposes_all Scenario.filtered H1 H2 H3) as (w1 & E & Hm & _ & _ & Hb & _).
  exists w1. split; [exact E|]. split; [exact Hm|].
  apply (Hb ("age", 10) 11).
  - vm_compute. now left.
  - vm_compute. reflexivity.
Defined.

Lemma checkDestroyFilter_after_create_witness :
  map_get (allColumnFilters (Sample.started true))
    (colId (columnObjs (Sample.started true) 2)) = None
  /\ getOrCreateFilterWrapper Scenario.grid 2 NO_UI (Sample.started true)
     = (Sample.requested, Normal (Some 10))
  /\ checkDestroyFilter Scenario.grid (colId (columnObjs (Sample.started true) 2))
       Sample.requested
     = (Sample.requested, Normal tt).
Proof.
  assert (map_get (allColumnFilters (Sample.started true))
            (colId (columnObjs (Sample.started true) 2)) = None) as H1
    by (vm_compute; reflexivity).
  assert (getOrCreateFilterWrapper Scenario.grid 2 NO_UI (Sample.started true)
          = (Sample.requested, Normal (Some 10))) as H2.
  { apply pair_of_snd. vm_compute. reflexivity. }
  split; [exact H1|]. split; [exact H2|].
  pose proof (checkDestroyFilter_after_create Scenario.grid 2 10 NO_UI (Sample.started true)
                Sample.requested H1 H2) as T.
  cbv zeta in T.
  assert (createFilterInstance Scenario.grid (columnObjs (Sample.started true) 2)
          = Some (mkCompDetails "agNumberColumnFilter"
                    (InstanceReady (Sample.numberFilter VNull)))) as Hd
    by (vm_compute; reflexivity).
  rewrite Hd in T. exact T.
Defined.

(** The deferred call on a wrapper made by the manager: the instance
    arrives after the model was set. *)
Lemma setModelOnFilterWrapper_pending_witness :
  filterPromise (wrapperObjs Scenario.waiting 10) = Some Scenario.pendingPromise
  /\ resolution Scenario.pendingPromise = None
  /\ exists w1,
       setModelOnFilterWrapper Scenario.deferredGrid 10 Sample.ageModel Scenario.waiting
       = (w1, Normal (nextRef Scenario.waiting))
       /\ filterObjs w1 = filterObjs Scenario.waiting
       /\ events w1 = events Scenario.waiting
       /\ snd (resolveFilterPromise Scenario.deferredGrid 10 (Sample.numberFilter VNull) w1)
          = Normal tt
       /\ IFilter.filterState
            (filterObjs
               (fst (resolveFilterPromise Scenario.deferredGrid 10
                       (Sample.numberFilter VNull) w1))
               (nextRef w1))
          = Sample.ageModel
       /\ events (fst (resolveFilterPromise Scenario.deferredGrid 10
                         (Sample.numberFilter VNull) w1))
          = [EVENT_FILTER_OPENED 2 NO_UI]
       /\ snd (resolveFilterPromise Scenario.deferredGrid 10 Scenario.headlessFilter w1)
          = Throw TypeError_not_a_node
       /\ applyResolved
            (applyPromises
               (fst (resolveFilterPromise Scenario.deferredGrid 10 Scenario.headlessFilter w1))
               (nextRef Scenario.waiting))
          = false.
Proof.
  assert (filterPromise (wrapperObjs Scenario.waiting 10) = Some Scenario.pendingPromise) as H1
    by (vm_compute; reflexivity).
  assert (resolution Scenario.pendingPromise = None) as H2 by reflexivity.
  split; [exact H1|]. split; [exact H2|].
  destruct (setModelOnFilterWrapper_pending Scenario.deferredGrid 10 Sample.ageModel
              Scenario.waiting Scenario.pendingPromise H1 H2)
    as (w1 & E & _ & _ & _ & Hf & He & _ & _ & _ & Hlater).
  pose proof (Hlater (Sample.numberFilter VNull) NO_UI eq_refl) as [_ Hready].
  pose proof (Hlater Scenario.headlessFilter NO_UI eq_refl) as [_ Hheadless].
  assert (mounts Scenario.deferredGrid (Sample.numberFilter VNull) = true) as Hm1
    by reflexivity.
  assert (mounts Scenario.deferredGrid Scenario.headlessFilter = false) as Hm2
    by reflexivity.
  rewrite Hm1 in Hready. rewrite Hm2 in Hheadless.
  assert (snd (Sample.storeModel Sample.ageModel
                 (IFilter.filterState (Sample.numberFilter VNull))) <> ReturnsPending)
    as Hsync by discriminate.
  destruct (Hready Sample.storeModel eq_refl Hsync) as (R1 & R2 & _ & R4 & _).
  destruct Hheadless as (L1 & _ & L3 & _).
  exists w1.
  split; [exact E|]. split; [exact Hf|]. split; [exact He|]. split; [exact R1|].
  split; [exact R2|]. split; [exact R4|]. split; [exact L1|]. exact L3.
Defined.

(** A first request for the filter of the age column, and one with an
    instance whose [getGui] gives nothing. *)
Lemma filter_opened_on_request_witness :
  filterAllowed (columnObjs (Sample.started true) 2) = true
  /\ events (fst (getOrCreateFilterWrapper Scenario.grid 2 NO_UI (Sample.started true)))
     = events (Sample.started true) ++ [EVENT_FILTER_OPENED 2 NO_UI]
  /\ map_get
       (allColumnFilters
          (fst (getOrCreateFilterWrapper Scenario.grid 2 NO_UI (Sample.started true))))
       "age"
     = Some 10
  /\ mounts Scenario.grid Scenario.headlessFilter = false
  /\ guiWarning Scenario.headlessFilter
     = ["AG Grid: getGui method from filter returned undefined, it should be a DOM element or an HTML template string."].
Proof.
  assert (filterAllowed (columnObjs (Sample.started true) 2) = true) as H
    by (vm_compute; reflexivity).
  split; [exact H|].
  pose proof (filter_opened_on_request Scenario.grid 2 NO_UI (Sample.started true) H) as T.
  cbv zeta in T. destruct T as [T _].
  assert (map_get (allColumnFilters (Sample.started true))
            (colId (columnObjs (Sample.started true) 2)) = None) as Hm
    by (vm_compute; reflexivity).
  rewrite Hm in T.
  destruct (T (mkCompDetails "agNumberColumnFilter" (InstanceReady (Sample.numberFilter VNull)))
              (Sample.numberFilter VNull)) as [_ T'].
  - vm_compute. reflexivity.
  - reflexivity.
  - assert (mounts Scenario.grid (Sample.numberFilter VNull) = true) as Hg by reflexivity.
    rewrite Hg in T'. destruct T' as (_ & He & Hcf).
    split; [exact He|]. split; [rewrite Hcf; vm_compute; reflexivity|].
    split; reflexivity.
Defined.

(** Clearing the model of the age filter: the instance takes [undefined],
    reports no model any more, and the call ends with [onFilterChanged] for
    the age column, which completes here. *)
Lemma setFilterModel_one_wrapper_witness :
  allColumnFilters Scenario.filtered = [("age", 10)]
  /\ resolvedFilter Scenario.filtered 10 = Some 11
  /\ IFilter.setModel (filterObjs Scenario.filtered 11) = Some Sample.storeModel
  /\ snd (Sample.storeModel (getProperty [] "age")
            (IFilter.filterState (filterObjs Scenario.filtered 11))) <> ReturnsPending
  /\ (forall key, In key (map fst (@nil (string * value))) -> key = "age")
  /\ snd (setFilterModel Scenario.grid (Some []) Scenario.filtered) = Normal tt
  /\ exists compared delta,
       IFilter.filterState (filterObjs compared 11) = VNull
       /\ events compared = events Scenario.filtered
       /\ setFilterModel Scenario.grid (Some []) Scenario.filtered
          = onFilterChanged Scenario.grid None None (Some [2]) compared
       /\ Forall (fun e => isFilterChanged e = false) delta
       /\ events (fst (setFilterModel Scenario.grid (Some []) Scenario.filtered))
          = events Scenario.filtered ++ delta ++ [EVENT_FILTER_CHANGED [2] None].
Proof.
  assert (allColumnFilters Scenario.filtered = [("age", 10)]) as H1 by (vm_compute; reflexivity).
  assert (resolvedFilter Scenario.filtered 10 = Some 11) as H2 by (vm_compute; reflexivity).
  assert (IFilter.setModel (filterObjs Scenario.filtered 11) = Some Sample.storeModel) as H3
    by (vm_compute; reflexivity).
  assert (snd (Sample.storeModel (getProperty [] "age")
                 (IFilter.filterState (filterObjs Scenario.filtered 11))) <> ReturnsPending)
    as H4 by discriminate.
  assert (forall key, In key (map fst (@nil (string * value))) -> key = "age") as H5
    by (intros key []).
  assert (snd (setFilterModel Scenario.grid (Some []) Scenario.filtered) = Normal tt) as H6
    by (vm_compute; reflexivity).
  split; [exact H1|]. split; [exact H2|]. split; [exact H3|]. split; [exact H4|].
  split; [exact H5|]. split; [exact H6|].
  pose proof (setFilterModel_one_wrapper Scenario.grid [] "age" 10 11 Scenario.filtered
                Sample.storeModel H1 H2 H3 H4 H5) as T.
  cbv zeta in T. destruct T as (compared & Hst & _ & Hev & _ & Hout & Hchanged).
  assert (jsonEquals (exportedValue (reportedBy Scenario.filtered 11))
            (exportedValue
               (reported (filterObjs Scenario.filtered 11)
                  (fst (Sample.storeModel (getProperty [] "age")
                          (IFilter.filterState (filterObjs Scenario.filtered 11))))))
          = false) as Hj by (vm_compute; reflexivity).
  rewrite Hj in Hout. destruct (Hchanged Hj) as (delta & Hd & Hevents).
  rewrite H6 in Hevents.
  assert (column (wrapperObjs Scenario.filtered 10) = 2) as Hc by (vm_compute; reflexivity).
  rewrite Hc in Hout, Hevents.
  exists compared, delta.
  split; [exact Hst|]. split; [exact Hev|]. split; [exact Hout|]. split; [exact Hd|].
  exact Hevents.
Defined.

Lemma onColumnsChanged_disposes_gone_witness :
  NoDup (map fst (allColumnFilters Scenario.filtered))
  /\ (forall e, In e (allColumnFilters Scenario.filtered) ->
        colId (wrapperColumn Scenario.filtered (snd e)) = fst e)
  /\ (forall e, In e (allColumnFilters Scenario.filtered) ->
        columnStillThere gridWithoutAge Scenario.filtered e = false ->
        exists f, resolvedFilter Scenario.filtered (snd e) = Some f
                  /\ takesNull (filterObjs Scenario.filtered f))
  /\ exists w1,
       events w1
       = events Scenario.filtered ++ [EVENT_FILTER_DESTROYED columnChanged 2]
       /\ allColumnFilters w1 = [].
Proof.
  pose proof filtered_keys as H1.
  assert (forall e, In e (allColumnFilters Scenario.filtered) ->
            colId (wrapperColumn Scenario.filtered (snd e)) = fst e) as H2.
  { intros e He. rewrite (filtered_entries e He). vm_compute. reflexivity. }
  assert (forall e, In e (allColumnFilters Scenario.filtered) ->
            columnStillThere gridWithoutAge Scenario.filtered e = false ->
            exists f, resolvedFilter Scenario.filtered (snd e) = Some f
                      /\ takesNull (filterObjs Scenario.filtered f)) as H3.
  { intros e He _. rewrite (filtered_entries e He). exists 11. split.
    - vm_compute. reflexivity.
    - rewrite filtered_instance. apply numberFilter_takesNull. }
  split; [exact H1|]. split; [exact H2|]. split; [exact H3|].
  destruct (onColumnsChanged_disposes_gone gridWithoutAge Scenario.filtered H1 H2 H3)
    as (w1 & He & Hm & _).
  exists w1. split.
  - rewrite He. f_equal.
  - rewrite Hm. vm_compute. reflexivity.
Defined.
